(** * ffmpegFE: the batch converter [movieconvert.py] and the wizard [ffmpegfe.py]

    A shallow embedding of the two scripts.  Python values, the pieces of
    [os.path] and of [str] the scripts call, the file system and the two
    external processes are modelled explicitly; [main] is written in a
    small state-and-exception monad that records every observable action
    (lines printed, processes started, files removed or renamed). *)

From Stdlib Require Import ZArith String Ascii List Bool Lia.
From stdpp Require Import base tactics option list gmap strings pretty.

Local Open Scope Z_scope.

(** ** Python's [str] methods, on ASCII text *)

Module Py.

Definition code (c : ascii) : nat := nat_of_ascii c.

Definition is_upper (c : ascii) : bool :=
  Nat.leb 65 (code c) && Nat.leb (code c) 90.

Definition is_lower (c : ascii) : bool :=
  Nat.leb 97 (code c) && Nat.leb (code c) 122.

Definition lower_char (c : ascii) : ascii :=
  if is_upper c then ascii_of_nat (code c + 32) else c.

Definition upper_char (c : ascii) : ascii :=
  if is_lower c then ascii_of_nat (code c - 32) else c.

(** [s.lower()] *)
Fixpoint lower (s : string) : string :=
  match s with
  | EmptyString => EmptyString
  | String c s' => String (lower_char c) (lower s')
  end.

(** [s.capitalize()]: first character upper-cased, the rest lower-cased. *)
Definition capitalize (s : string) : string :=
  match s with
  | EmptyString => EmptyString
  | String c s' => String (upper_char c) (lower s')
  end.

(** [s[n:]] and [s[:n]] for [0 <= n]; out-of-range bounds are clipped. *)
Fixpoint drop (n : nat) (s : string) : string :=
  match n, s with
  | O, _ => s
  | S _, EmptyString => EmptyString
  | S n', String _ s' => drop n' s'
  end.

Fixpoint take (n : nat) (s : string) : string :=
  match n, s with
  | O, _ => EmptyString
  | S _, EmptyString => EmptyString
  | S n', String c s' => String c (take n' s')
  end.

(** [s[i:j]] for integers [i], [j] that are not negative. *)
Definition slice (i j : Z) (s : string) : string :=
  take (Z.to_nat (j - i)) (drop (Z.to_nat i) s).

(** [s.startswith(p)] and [s.endswith(p)] *)
Definition startswith (s p : string) : bool := String.prefix p s.

Definition endswith (s p : string) : bool :=
  String.eqb (drop (String.length s - String.length p) s) p.

(** [sub in s] *)
Fixpoint contains (sub s : string) : bool :=
  String.prefix sub s ||
  match s with
  | EmptyString => false
  | String _ s' => contains sub s'
  end.

(** [s.split(c)] for a one-character separator. *)
Fixpoint split (c : ascii) (s : string) : list string :=
  match s with
  | EmptyString => [EmptyString]
  | String a s' =>
      if Ascii.eqb a c then EmptyString :: split c s'
      else match split c s' with
           | [] => [String a EmptyString]
           | p :: ps => String a p :: ps
           end
  end.

(** [sep.join(l)] *)
Definition join (sep : string) (l : list string) : string :=
  String.concat sep l.

(** [s.rfind(c)]: the last index of [c], or [-1]. *)
Fixpoint rfind_from (c : ascii) (s : string) (i last : Z) : Z :=
  match s with
  | EmptyString => last
  | String a s' => rfind_from c s' (i + 1) (if Ascii.eqb a c then i else last)
  end.

Definition rfind (c : ascii) (s : string) : Z := rfind_from c s 0 (-1).

(** The ASCII characters for which [str.isspace] holds. *)
Definition is_space (c : ascii) : bool :=
  (Nat.leb 9 (code c) && Nat.leb (code c) 13)
  || (Nat.leb 28 (code c) && Nat.leb (code c) 32).

Fixpoint lstrip_by (p : ascii -> bool) (s : string) : string :=
  match s with
  | EmptyString => EmptyString
  | String c s' => if p c then lstrip_by p s' else s
  end.

Fixpoint rstrip_by (p : ascii -> bool) (s : string) : string :=
  match s with
  | EmptyString => EmptyString
  | String c s' =>
      match rstrip_by p s' with
      | EmptyString => if p c then EmptyString else String c EmptyString
      | r => String c r
      end
  end.

(** [s.strip()] *)
Definition strip (s : string) : string :=
  rstrip_by is_space (lstrip_by is_space s).

(** [c * n] for a one-character string [c] *)
Fixpoint repeat_char (c : ascii) (n : nat) : string :=
  match n with
  | O => EmptyString
  | S n' => String c (repeat_char c n')
  end.

(** The white space [int] skips around a number: the six characters of
    C's [isspace].  The separators 28 to 31, which [str.strip] removes, are
    not among them. *)
Definition is_int_space (c : ascii) : bool :=
  (Nat.leb 9 (code c) && Nat.leb (code c) 13) || Nat.eqb (code c) 32.

(** [int(s)] in base ten: surrounding white space, one optional sign,
    then digits, where single underscores may separate digits.  [None]
    stands for [ValueError]. *)
Fixpoint digits_value (acc : Z) (after_digit : bool) (s : string) : option Z :=
  match s with
  | EmptyString => if after_digit then Some acc else None
  | String c s' =>
      match Ascii.is_nat c with
      | Some d => digits_value (10 * acc + Z.of_nat d) true s'
      | None =>
          if Ascii.eqb c "_" && after_digit then digits_value acc false s'
          else None
      end
  end.

Definition int (s : string) : option Z :=
  match rstrip_by is_int_space (lstrip_by is_int_space s) with
  | String "-" r => Z.opp <$> digits_value 0 false r
  | String "+" r => digits_value 0 false r
  | r => digits_value 0 false r
  end.

(** [str(n)] for an integer *)
Definition str_int (z : Z) : string := pretty z.

End Py.

(** ** [os.path] (the POSIX flavour) *)

Module OsPath.

(** The loop of [genericpath._splitext] that skips the leading dots of
    the file name: is there a character other than a dot? *)
Fixpoint has_non_dot (s : string) : bool :=
  match s with
  | EmptyString => false
  | String c s' => if Ascii.eqb c "." then has_non_dot s' else true
  end.

(** [os.path.splitext(p)] *)
Definition splitext (p : string) : string * string :=
  let sepIndex := Py.rfind "/" p in
  let dotIndex := Py.rfind "." p in
  if (sepIndex <? dotIndex) && has_non_dot (Py.slice (sepIndex + 1) dotIndex p)
  then (Py.take (Z.to_nat dotIndex) p, Py.drop (Z.to_nat dotIndex) p)
  else (p, EmptyString).

(** [os.path.basename(p)] *)
Definition basename (p : string) : string :=
  Py.drop (Z.to_nat (Py.rfind "/" p + 1)) p.

(** [os.path.dirname(p)] *)
Definition dirname (p : string) : string :=
  let i := Z.to_nat (Py.rfind "/" p + 1) in
  let head := Py.take i p in
  if negb (String.eqb head EmptyString)
     && negb (String.eqb head (Py.repeat_char "/" (String.length head)))
  then Py.rstrip_by (Ascii.eqb "/") head
  else head.

(** [os.path.join(a, b)] *)
Definition join (a b : string) : string :=
  if Py.startswith b "/" then b
  else if String.eqb a EmptyString || Py.endswith a "/" then a +:+ b
  else a +:+ "/" +:+ b.

End OsPath.

(** ** Python values, dictionaries and exceptions *)

(** The scalar values the scripts store in their dictionaries: [None],
    integers and strings. *)
Inductive val :=
| VNone
| VInt (z : Z)
| VStr (s : string).

(** A dictionary with string keys, in insertion order. *)
Definition dict := list (string * val).

(** A stream descriptor of the inspection output: the scalar members of
    the JSON object, and its two nested objects when present. *)
Record stream := Stream {
  members : dict;
  tags : option dict;
  disposition : option dict
}.

Inductive exn :=
| AttributeError
| TypeError
| ValueError
| KeyError
| EOFError
| FileNotFoundError.

(** How a run stops before its last statement: [return] inside [main],
    [sys.exit(code)], an exception nobody catches, or a loop that never
    ends. *)
Inductive halt :=
| Returned
| Exited (code : Z)
| Raised (e : exn)
| Looping.

Inductive result (A : Type) :=
| Ok (a : A)
| Halt (h : halt).
Arguments Ok {A} a.
Arguments Halt {A} h.

(** The exit status the operating system sees. *)
Definition exit_status (h : halt) : option Z :=
  match h with
  | Returned => Some 0
  | Exited code => Some code
  | Raised _ => Some 1
  | Looping => None
  end.

Definition bindR {A B} (r : result A) (k : A -> result B) : result B :=
  match r with
  | Ok a => k a
  | Halt h => Halt h
  end.

Notation "'let?' x := r 'in' k" := (bindR r (fun x => k))
  (at level 10, x pattern, r at level 100, k at level 200, only parsing).

Module Val.

(** [d.get(k)] and [d.get(k, dflt)] *)
Fixpoint get (d : dict) (k : string) : option val :=
  match d with
  | [] => None
  | (k', v) :: d' => if String.eqb k' k then Some v else get d' k
  end.

Definition get_or (d : dict) (k : string) (dflt : val) : val :=
  default dflt (get d k).

(** [d[k]] *)
Definition item (d : dict) (k : string) : result val :=
  match get d k with
  | Some v => Ok v
  | None => Halt (Raised KeyError)
  end.

(** [str(v)], as the f-strings apply it *)
Definition str (v : val) : string :=
  match v with
  | VNone => "None"
  | VInt z => Py.str_int z
  | VStr s => s
  end.

(** truth value of [v] in a condition *)
Definition truthy (v : val) : bool :=
  match v with
  | VNone => false
  | VInt z => negb (z =? 0)
  | VStr s => negb (String.eqb s EmptyString)
  end.

(** [v == s] for a string literal [s] *)
Definition is_str (v : val) (s : string) : bool :=
  match v with
  | VStr t => String.eqb t s
  | _ => false
  end.

(** [v.capitalize()] and [v.lower()]: only strings have the methods. *)
Definition capitalize (v : val) : result string :=
  match v with
  | VStr s => Ok (Py.capitalize s)
  | _ => Halt (Raised AttributeError)
  end.

Definition lower (v : val) : result string :=
  match v with
  | VStr s => Ok (Py.lower s)
  | _ => Halt (Raised AttributeError)
  end.

(** [v - 1]: only integers support it. *)
Definition minus_one (v : val) : result Z :=
  match v with
  | VInt z => Ok (z - 1)
  | _ => Halt (Raised TypeError)
  end.

(** [sep.join(vs)]: every item must be a string. *)
Fixpoint strings (vs : list val) : result (list string) :=
  match vs with
  | [] => Ok []
  | VStr s :: vs' => let? ss := strings vs' in Ok (s :: ss)
  | _ :: _ => Halt (Raised TypeError)
  end.

Definition join (sep : string) (vs : list val) : result string :=
  let? ss := strings vs in Ok (Py.join sep ss).

(** [", ".join(f"{key}: {value}" for key, value in items)] *)
Definition show_items (items : dict) : string :=
  Py.join ", " (map (fun kv => fst kv +:+ ": " +:+ str (snd kv)) items).

End Val.

(** ** The environment of a run and what a run does to it *)

(** What [json.loads(result.stdout)] makes of the inspection output. *)
Inductive probe_output :=
| NotJson                                  (* raises [JSONDecodeError] *)
| JsonObject (streams : option (list stream))
                                           (* an object; its stream list, or
                                              [KeyError] when it has none *)
| JsonOther.                               (* an array, number, string or
                                              null: subscripting it raises
                                              [TypeError] *)

Record world := World {
  listing : string -> option (list string);
    (* [os.listdir]: the entries of a directory, [None] when it cannot be listed *)
  probe : probe_output;
  stdin : option string;
    (* the line [input()] reads, [None] at end of file *)
  encoder_status : Z
    (* exit status of the transcoding process *)
}.

Inductive event :=
| Print (line : string)
| PrintEncoderError (cmd : list string) (status : Z)
    (* the line [Error: ffmpeg command failed with error: ...] followed by
       Python's text of the [CalledProcessError] *)
| UsageError (value : string)
    (* the usage message [argparse] writes to standard error when the
       converter of [-c/--crf-value] rejects [value] *)
| Probe (cmd : list string)
| Prompt (text : string)
| Encode (cmd : list string)
| Remove (path : string)
| Rename (src dst : string).

(** The regular files that exist, and the actions so far, oldest first. *)
Record state := State {
  files : gset string;
  trace : list event
}.

Definition M (A : Type) : Type := state -> result A * state.

Definition ret {A} (a : A) : M A := fun s => (Ok a, s).

Definition bindM {A B} (m : M A) (k : A -> M B) : M B :=
  fun s =>
    match m s with
    | (Ok a, s') => k a s'
    | (Halt h, s') => (Halt h, s')
    end.

Notation "'let*' x := m 'in' k" := (bindM m (fun x => k))
  (at level 10, x pattern, m at level 100, k at level 200, only parsing).

Notation "m >> k" := (bindM m (fun _ => k))
  (at level 100, k at level 200, right associativity, only parsing).

Definition stop {A} (h : halt) : M A := fun s => (Halt h, s).

Definition lift {A} (r : result A) : M A := fun s => (r, s).

Definition emit (e : event) : M unit :=
  fun s => (Ok tt, State (files s) (trace s ++ [e])).

Definition print (line : string) : M unit := emit (Print line).

(** [os.path.isfile(p)] *)
Definition isfile (p : string) : M bool :=
  fun s => (Ok (bool_decide (p ∈ files s)), s).

(** [os.remove(p)] *)
Definition os_remove (p : string) : M unit :=
  fun s =>
    if bool_decide (p ∈ files s)
    then (Ok tt, State (files s ∖ {[p]}) (trace s ++ [Remove p]))
    else (Halt (Raised FileNotFoundError), s).

(** [os.rename(src, dst)] *)
Definition os_rename (src dst : string) : M unit :=
  fun s =>
    if bool_decide (src ∈ files s)
    then (Ok tt, State ((files s ∖ {[src]}) ∪ {[dst]}) (trace s ++ [Rename src dst]))
    else (Halt (Raised FileNotFoundError), s).

(** [os.listdir(d)]: the empty path names no directory. *)
Definition os_listdir (w : world) (d : string) : M (list string) :=
  if String.eqb d EmptyString then stop (Raised FileNotFoundError)
  else match listing w d with
       | Some names => ret names
       | None => stop (Raised FileNotFoundError)
       end.

(** [for x in l: body x] *)
Fixpoint for_each {A} (l : list A) (body : A -> M unit) : M unit :=
  match l with
  | [] => ret tt
  | x :: l' => body x >> for_each l' body
  end.

(** [enumerate(l)], counting from [i] *)
Fixpoint enumerate_from {A} (i : Z) (l : list A) : list (Z * A) :=
  match l with
  | [] => []
  | x :: l' => (i, x) :: enumerate_from (i + 1) l'
  end.

(** The command both scripts run to inspect a file. *)
Definition ffprobe_cmd (path : string) : list string :=
  ["ffprobe"; "-v"; "error"; "-show_streams"; "-of"; "json"; path].

(** ** The batch converter, [movieconvert.py] *)

Module Movieconvert.

Inductive container_t := Mp4 | Mkv.
Inductive video_codec_t := VideoCopy | Avc | Hevc.
Inductive audio_codec_t := AudioCopy | Aac | Ac3 | Eac3.

Definition container_name (c : container_t) : string :=
  match c with Mp4 => "mp4" | Mkv => "mkv" end.

Definition video_codec_name (c : video_codec_t) : string :=
  match c with VideoCopy => "copy" | Avc => "avc" | Hevc => "hevc" end.

Definition audio_codec_name (c : audio_codec_t) : string :=
  match c with AudioCopy => "copy" | Aac => "aac" | Ac3 => "ac3" | Eac3 => "eac3" end.

(** The command line as [argparse] splits it: the choices are already
    among the allowed ones, the text after [-c] is still unconverted. *)
Record cli := Cli {
  input : string;
  container : container_t;
  video_codec : video_codec_t;
  rescale_to_720 : bool;
  crf_text : option string;
  audio_codec : audio_codec_t;
  audio_to_stereo : bool;
  subtitle : bool;       (* [True] unless [-s] is given *)
  delete : bool;
  no_prompt : bool;
  verbose : bool
}.

(** *** [crf_range] and its use as an [argparse] type *)

Inductive crf_outcome :=
| CrfValue (ivalue : Z)
| CrfValueError                          (* raised by [int(value)] *)
| CrfArgumentTypeError (message : string).

Definition crf_range (value : string) : crf_outcome :=
  match Py.int value with
  | None => CrfValueError
  | Some ivalue =>
      if (ivalue <? 0) || (51 <? ivalue)
      then CrfArgumentTypeError
             ("CRF value must be between 0 and 51, but got " +:+ value +:+ ".")
      else CrfValue ivalue
  end.

(** [parser.parse_args()] for the [-c] option: an exception of the
    converter becomes [parser.error], which exits with status 2. *)
Definition parse_crf (text : option string) : M (option Z) :=
  match text with
  | None => ret None
  | Some value =>
      match crf_range value with
      | CrfValue ivalue => ret (Some ivalue)
      | CrfValueError | CrfArgumentTypeError _ =>
          emit (UsageError value) >> stop (Exited 2)
      end
  end.

(** Lines 46-54: the default, or the second range check. *)
Definition validate_crf (vc : video_codec_t) (crf_value : option Z) : M (option Z) :=
  match crf_value with
  | None =>
      ret (match vc with
           | Avc => Some 20
           | Hevc => Some 24
           | VideoCopy => None
           end)
  | Some v =>
      if (v <? 0) || (51 <? v)
      then print "Error: CRF value must be between 0 and 51." >> stop (Exited 1)
      else ret (Some v)
  end.

(** *** Lines 62-70: the name of the output file *)

Definition numbered (base : string) (counter : Z) (cont : string) : string :=
  base +:+ "." +:+ Py.str_int counter +:+ "." +:+ cont.

(** The [while] loop, unrolled at most [fuel] times. *)
Fixpoint next_free (fuel : nat) (existing : gset string) (base cont : string)
    (output_file : string) (counter : Z) : option (string * Z) :=
  match fuel with
  | O => None
  | S fuel' =>
      if bool_decide (output_file ∈ existing)
      then next_free fuel' existing base cont (numbered base counter cont) (counter + 1)
      else Some (output_file, counter)
  end.

(** One more round than there are files is enough (see [next_free_total]). *)
Definition choose_output (base cont : string) : M (string * Z) :=
  fun s =>
    match next_free (S (size (files s))) (files s) base cont (base +:+ "." +:+ cont) 1 with
    | Some r => (Ok r, s)
    | None => (Halt Looping, s)
    end.

(** *** Lines 84-123: the subtitle files next to the input *)

Record srt_tags := SrtTags {
  lang : string;
  forced : Z;
  sdh : Z;
  title_parts : list string
}.

(** One round of the loop over the parts of the file name. *)
Definition tag_step (t : srt_tags) (part : string) : srt_tags :=
  if String.eqb part "en" || String.eqb part "eng"
  then SrtTags "eng" (forced t) (sdh t) (title_parts t ++ ["English"])
  else if String.eqb part "forced"
  then SrtTags (lang t) 1 (sdh t) (title_parts t ++ ["Forced"])
  else if String.eqb part "sdh"
  then SrtTags (lang t) (forced t) 1 (title_parts t ++ ["SDH"])
  else t.

Definition classify (base_name filename : string) : srt_tags :=
  let parts := Py.split "." (Py.lower (Py.drop (String.length base_name) filename)) in
  fold_left tag_step parts (SrtTags "eng" 0 0 []).

Definition srt_title (t : srt_tags) : string :=
  match title_parts t with
  | [] => "English"
  | ps => Py.join " " ps
  end.

Definition subfile_entry (directory base_name filename : string) (i : Z) : dict :=
  let t := classify base_name filename in
  [ ("index", VInt i);
    ("codec", VStr "srt");
    ("language", VStr (lang t));
    ("default", VInt 0);
    ("forced", VInt (forced t));
    ("sdh", VInt (sdh t));
    ("title", VStr (srt_title t));
    ("filename", VStr (OsPath.join directory filename)) ].

Definition is_subfile (base_name filename : string) : bool :=
  Py.endswith (Py.lower filename) ".srt" && Py.contains base_name filename.

Fixpoint scan_subfiles (directory base_name : string) (names : list string) (i : Z)
    : list dict :=
  match names with
  | [] => []
  | filename :: rest =>
      if is_subfile base_name filename
      then subfile_entry directory base_name filename i
           :: scan_subfiles directory base_name rest (i + 1)
      else scan_subfiles directory base_name rest i
  end.

Definition subtitle_directory (input_file : string) : string :=
  let d := OsPath.dirname input_file in
  if String.eqb d EmptyString then "." else d.

Definition subtitle_base_name (input_file : string) : string :=
  fst (OsPath.splitext (OsPath.basename input_file)).

(** *** Lines 134-197: the streams, sorted into buckets *)

Record buckets := Buckets {
  video_streams_in : list dict;
  audio_streams_in : list dict;
  subtitle_streams_in : list dict;
  video_streams_out : list dict;
  audio_streams_out : list dict;
  subtitle_streams_out : list dict
}.

Definition no_streams : buckets := Buckets [] [] [] [] [] [].

(** [flag == '1' or word in title.lower()] *)
Definition flagged (flag title : val) (word : string) : result bool :=
  if Val.is_str flag "1" then Ok true
  else let? t := Val.lower title in Ok (Py.contains word t).

(** [1 if word in title.lower() else flag] *)
Definition override (flag title : val) (word : string) : result val :=
  let? t := Val.lower title in
  Ok (if Py.contains word t then VInt 1 else flag).

(** One round of the loop over the streams. *)
Definition add_stream (a : cli) (b : buckets) (s : stream) : result buckets :=
  let? codec_type := Val.capitalize (Val.get_or (members s) "codec_type" (VStr "Unknown")) in
  let codec_name := Val.get_or (members s) "codec_name" (VStr "Unknown") in
  let resolution :=
    if String.eqb codec_type "Video"
    then VStr (Val.str (Val.get_or (members s) "width" (VStr "N/A")) +:+ "x"
               +:+ Val.str (Val.get_or (members s) "height" (VStr "N/A")))
    else VNone in
  let s_tags := default [] (tags s) in
  let s_disposition := default [] (disposition s) in
  let language := Val.get_or s_tags "language" (VStr "eng") in
  let language := if Val.is_str language "und" then VStr "eng" else language in
  let first_part := if Val.is_str language "eng" then VStr "English" else language in
  let title := Val.get_or s_tags "title" (VStr EmptyString) in
  let default_ := Val.get_or s_disposition "default" (VStr "0") in
  let forced := Val.get_or s_disposition "forced" (VStr "0") in
  let? is_forced := flagged forced title "forced" in
  let sdh := Val.get_or s_disposition "hearing_impaired" (VStr "0") in
  let? is_sdh := flagged sdh title "sdh" in
  let newtitle_parts :=
    [first_part] ++ (if is_forced then [VStr "Forced"] else [])
                 ++ (if is_sdh then [VStr "SDH"] else []) in
  let? newtitle := Val.join " " newtitle_parts in
  let index := Val.get_or (members s) "index" (VStr "N/A") in
  if String.eqb codec_type "Video" then
    Ok (Buckets
          (video_streams_in b ++
             [[("index", index); ("codec", codec_name);
               ("resolution", resolution); ("title", title)]])
          (audio_streams_in b) (subtitle_streams_in b)
          (video_streams_out b ++
             [[("index", index);
               ("codec", match video_codec a with
                         | VideoCopy => codec_name
                         | c => VStr (video_codec_name c)
                         end);
               ("resolution", if rescale_to_720 a then VStr "-2x720" else resolution);
               ("title", VStr "N/A")]])
          (audio_streams_out b) (subtitle_streams_out b))
  else if String.eqb codec_type "Audio" then
    let audio_in :=
      audio_streams_in b ++
        [[("index", index); ("codec", codec_name);
          ("language", Val.get_or s_tags "language" (VStr "N/A"));
          ("channels", Val.get_or (members s) "channels" (VStr "N/A"));
          ("title", title)]] in
    let audio_out :=
      if (Z.of_nat (length audio_in) =? 1) || Val.is_str language "eng"
      then audio_streams_out b ++
             [[("index", index);
               ("codec", match audio_codec a with
                         | AudioCopy => codec_name
                         | c => VStr (audio_codec_name c)
                         end);
               ("language", if Val.is_str language "N/A" then VStr "eng" else language);
               ("channels", Val.get_or (members s) "channels" (VStr "N/A"));
               ("title", VStr newtitle)]]
      else audio_streams_out b in
    Ok (Buckets (video_streams_in b) audio_in (subtitle_streams_in b)
                (video_streams_out b) audio_out (subtitle_streams_out b))
  else if String.eqb codec_type "Subtitle" then
    let subtitle_in :=
      subtitle_streams_in b ++
        [[("index", index); ("codec", codec_name); ("language", language);
          ("default", default_); ("forced", forced); ("sdh", sdh);
          ("title", title)]] in
    if Val.is_str language "eng" || Val.is_str language "N/A" then
      let? forced_out := override forced title "forced" in
      let? sdh_out := override sdh title "sdh" in
      Ok (Buckets (video_streams_in b) (audio_streams_in b) subtitle_in
                  (video_streams_out b) (audio_streams_out b)
                  (subtitle_streams_out b ++
                     [[("index", index); ("codec", codec_name); ("language", language);
                       ("default", default_); ("forced", forced_out); ("sdh", sdh_out);
                       ("title", VStr newtitle)]]))
    else
      Ok (Buckets (video_streams_in b) (audio_streams_in b) subtitle_in
                  (video_streams_out b) (audio_streams_out b) (subtitle_streams_out b))
  else Ok b.

Fixpoint add_streams (a : cli) (b : buckets) (streams : list stream) : result buckets :=
  match streams with
  | [] => Ok b
  | s :: rest => let? b' := add_stream a b s in add_streams a b' rest
  end.

(** *** Lines 199-238: the report of what was found and what will be written *)

Definition print_streams (l : list dict) : M unit :=
  for_each l (fun stream => print ("    " +:+ Val.show_items stream)).

Definition without_title (file : dict) : dict :=
  filter (fun kv => negb (String.eqb (fst kv) "title")) file.

(** [list(stream.items())[1:-1]] *)
Definition inner_items (file : dict) : dict := removelast (tail file).

Definition report_input (a : cli) (subfiles_in : list dict) (b : buckets) : M unit :=
  print EmptyString >>
  print ("Input file:  " +:+ " " +:+ input a) >>
  print "  Video:" >>
  print_streams (video_streams_in b) >>
  print "  Audio:" >>
  print_streams (audio_streams_in b) >>
  print "  Subtitles:" >>
  print_streams (subtitle_streams_in b) >>
  (if subtitle a && negb (Nat.eqb (length subfiles_in) 0)
   then print EmptyString >>
        print "Subtitle file:" >>
        print "  Subtitles:" >>
        print_streams (map without_title subfiles_in)
   else ret tt) >>
  print EmptyString.

Definition report_output (a : cli) (output_file : string) (subfiles_in : list dict)
    (b : buckets) : M unit :=
  print EmptyString >>
  print ("Output file: " +:+ " " +:+ output_file) >>
  print "  Video:" >>
  print_streams (video_streams_out b) >>
  print "  Audio:" >>
  print_streams (audio_streams_out b) >>
  (if subtitle a
   then print "  Subtitles:" >>
        print_streams (subtitle_streams_out b) >>
        let s := Z.of_nat (length (subtitle_streams_out b) + length (audio_streams_out b)
                           + length (video_streams_out b)) in
        for_each (enumerate_from 0 subfiles_in)
          (fun '(i, stream) =>
             print ("    index: " +:+ Py.str_int (i + s) +:+ ", "
                    +:+ Val.show_items (inner_items stream)))
   else ret tt) >>
  print EmptyString.

(** *** Lines 240-341: the argument list for the encoder *)

(** [for x in l: cmd.extend(f x)] *)
Fixpoint extend_each {A} (f : A -> result (list string)) (l : list A)
    : result (list string) :=
  match l with
  | [] => Ok []
  | x :: l' =>
      let? here := f x in
      let? rest := extend_each f l' in
      Ok (here ++ rest)
  end.

Definition input_args (file : dict) : result (list string) :=
  let? filename := Val.item file "filename" in
  Ok ["-f"; "srt"; "-i"; Val.str filename].

Definition map_stream (stream : dict) : result (list string) :=
  let? index := Val.item stream "index" in
  Ok ["-map"; "0:" +:+ Val.str index].

Definition map_file (file : dict) : result (list string) :=
  let? index := Val.item file "index" in
  Ok ["-map"; Val.str index +:+ ":0"].

Definition crf_str (crf_value : option Z) : string :=
  match crf_value with
  | Some v => Py.str_int v
  | None => "None"
  end.

Definition video_settings (a : cli) (crf_value : option Z) : list string :=
  match video_codec a with
  | VideoCopy => ["-c:v"; "copy"]
  | Avc => ["-c:v"; "libx264"; "-profile:v"; "high"; "-preset"; "slow";
            "-crf"; crf_str crf_value]
  | Hevc => ["-c:v"; "libx265"; "-preset"; "slow"; "-crf"; crf_str crf_value;
             "-tag:v"; "hvc1"]
  end.

Definition audio_settings (a : cli) : list string :=
  ["-c:a"; audio_codec_name (audio_codec a)]
  ++ (if audio_to_stereo a then ["-ac"; "2"] else []).

(** [if stream.get(key): cmd.extend([f"-metadata:s:a:{stream['index']-1}", ...])] *)
Definition audio_tag (stream : dict) (key : string) : result (list string) :=
  if Val.truthy (default VNone (Val.get stream key))
  then let? index := Val.item stream "index" in
       let? position := Val.minus_one index in
       let? v := Val.item stream key in
       Ok ["-metadata:s:a:" +:+ Py.str_int position; key +:+ "=" +:+ Val.str v]
  else Ok [].

Definition audio_metadata (stream : dict) : result (list string) :=
  let? language := audio_tag stream "language" in
  let? title := audio_tag stream "title" in
  Ok (language ++ title).

(** The body shared by the two loops that label subtitles: the streams
    of the input first, the subtitle files after them. *)
Definition subtitle_metadata (entry : Z * dict) : result (list string) :=
  let '(i, stream) := entry in
  let disposition_parts :=
    (if Val.truthy (Val.get_or stream "forced" (VInt 1)) then ["+forced"] else [])
    ++ (if Val.truthy (Val.get_or stream "sdh" (VInt 1)) then ["+hearing_impaired"] else []) in
  let? language :=
    if Val.truthy (default VNone (Val.get stream "language"))
    then let? v := Val.item stream "language" in
         Ok ["-metadata:s:s:" +:+ Py.str_int i; "language=" +:+ Val.str v]
    else Ok [] in
  let? title :=
    if Val.truthy (default VNone (Val.get stream "title"))
       && negb (Val.is_str (default VNone (Val.get stream "title")) "N/A")
    then let? v := Val.item stream "title" in
         Ok ["-metadata:s:s:" +:+ Py.str_int i; "title=" +:+ Val.str v]
    else Ok [] in
  Ok (language ++ title
      ++ match disposition_parts with
         | [] => []
         | ps => ["-disposition:s:" +:+ Py.str_int i; Py.join EmptyString ps]
         end).

Definition build_cmd (a : cli) (crf_value : option Z) (output_file : string)
    (subfiles_in : list dict) (b : buckets) : result (list string) :=
  let? inputs := if subtitle a then extend_each input_args subfiles_in else Ok [] in
  let? map_video := extend_each map_stream (video_streams_out b) in
  let? map_audio := extend_each map_stream (audio_streams_out b) in
  let? map_subtitle :=
    if subtitle a then extend_each map_stream (subtitle_streams_out b) else Ok [] in
  let? map_files := if subtitle a then extend_each map_file subfiles_in else Ok [] in
  let? audio_meta := extend_each audio_metadata (audio_streams_out b) in
  let? subtitle_meta :=
    if subtitle a
    then let? streams :=
           extend_each subtitle_metadata (enumerate_from 0 (subtitle_streams_out b)) in
         let? files_ :=
           extend_each subtitle_metadata
             (enumerate_from (Z.of_nat (length (subtitle_streams_out b))) subfiles_in) in
         Ok (streams ++ files_)
    else Ok [] in
  Ok (["ffmpeg"; "-i"; input a]
      ++ inputs
      ++ ["-map_metadata"; "-1"; "-map_chapters"; "-1"]
      ++ map_video ++ map_audio ++ map_subtitle ++ map_files
      ++ video_settings a crf_value
      ++ (if rescale_to_720 a then ["-vf"; "scale=-2:720"] else [])
      ++ audio_settings a
      ++ (if subtitle a then ["-c:s"; "mov_text"] else [])
      ++ audio_meta
      ++ subtitle_meta
      ++ [output_file]).

(** *** [main], phase by phase *)

(** What [main] has decided when it is about to ask for confirmation. *)
Record plan := Plan {
  output_file : string;
  counter : Z;
  subfiles_in : list dict;
  selected : buckets;
  cmd : list string
}.

(** Lines 72-82: a subtitle file named after the input; the variable is
    never read afterwards. *)
Definition find_subfile (base : string) : M (option string) :=
  let* plain := isfile (base +:+ ".srt") in
  if plain then ret (Some (base +:+ ".srt"))
  else
    let* en := isfile (base +:+ ".en.srt") in
    if en then ret (Some (base +:+ ".en.srt"))
    else
      let* eng := isfile (base +:+ ".eng.srt") in
      if eng then ret (Some (base +:+ ".eng.srt")) else ret None.

(** Lines 44-349: everything up to the confirmation. *)
Definition prepare (a : cli) (w : world) : M plan :=
  let* crf_value := parse_crf (crf_text a) in
  let* crf_value := validate_crf (video_codec a) crf_value in
  let input_file := input a in
  let* readable := isfile input_file in
  if negb readable
  then print ("Error: Cannot read file '" +:+ input_file +:+ "'") >> stop (Exited 1)
  else
    let base := fst (OsPath.splitext input_file) in
    let* (output_file, counter) := choose_output base (container_name (container a)) in
    let* _ := find_subfile base in
    let directory := subtitle_directory input_file in
    let base_name := subtitle_base_name input_file in
    let* names := os_listdir w directory in
    let subfiles_in := scan_subfiles directory base_name names 1 in
    emit (Probe (ffprobe_cmd input_file)) >>
    match probe w with
    | NotJson | JsonObject None => stop Returned
    | JsonOther => stop (Raised TypeError)
    | JsonObject (Some streams) =>
        let* b := lift (add_streams a no_streams streams) in
        report_input a subfiles_in b >>
        report_output a output_file subfiles_in b >>
        let* cmd := lift (build_cmd a crf_value output_file subfiles_in b) in
        print (String "010" "The command will be:") >>
        print (Py.join " " cmd) >>
        print EmptyString >>
        (if delete a
         then print "The input file(s) will be deleted after conversion."
         else ret tt) >>
        print EmptyString >>
        ret (Plan output_file counter subfiles_in b cmd)
    end.

Definition prompt_text : string :=
  "Proceed? [Y] to continue, any other key to terminate: ".

(** Lines 351-356 *)
Definition confirm (a : cli) (w : world) : M unit :=
  if no_prompt a then ret tt
  else
    emit (Prompt prompt_text) >>
    match stdin w with
    | None => stop (Raised EOFError)
    | Some line =>
        let proceed := Py.lower (Py.strip line) in
        if String.eqb proceed "y" then ret tt
        else print "Aborted." >> stop (Exited 0)
    end.

(** Lines 358-364.  A successful encoder has written its output file. *)
Definition encode (w : world) (p : plan) : M unit :=
  emit (Encode (cmd p)) >>
  if encoder_status w =? 0
  then fun s => (Ok tt, State (files s ∪ {[output_file p]}) (trace s))
  else emit (PrintEncoderError (cmd p) (encoder_status w)) >> stop (Exited 1).

(** Lines 381-385, one subtitle file. *)
Definition delete_subfile (subfile : dict) : M unit :=
  match Val.get subfile "filename" with
  | Some (VStr subtitle_file) =>
      let* present := isfile subtitle_file in
      if negb (String.eqb subtitle_file EmptyString) && present
      then print ("Deleting:  " +:+ subtitle_file) >> os_remove subtitle_file
      else ret tt
  | _ => ret tt
  end.

(** Lines 367-385 *)
Definition cleanup (a : cli) (p : plan) : M unit :=
  if delete a then
    let input_file := input a in
    let* present := isfile input_file in
    (if negb (String.eqb input_file EmptyString) && present
     then print ("Deleting:  " +:+ input_file) >> os_remove input_file
     else ret tt) >>
    let base := fst (OsPath.splitext input_file) in
    let '(output_base, output_ext) := OsPath.splitext (output_file p) in
    (if Py.endswith output_base ("." +:+ Py.str_int (counter p - 1))
        && String.eqb output_ext ("." +:+ container_name (container a))
     then
       let new_input_file := base +:+ "." +:+ container_name (container a) in
       print ("Renaming:  " +:+ output_file p +:+ " -> " +:+ new_input_file) >>
       os_rename (output_file p) new_input_file
     else ret tt) >>
    for_each (subfiles_in p) delete_subfile
  else ret tt.

Definition main (a : cli) (w : world) : M unit :=
  let* p := prepare a w in
  confirm a w >>
  encode w p >>
  cleanup a p.

(** A run from a set of existing files: how it ended, and the final state. *)
Definition run (a : cli) (w : world) (existing : gset string) : result unit * state :=
  main a w (State existing []).

End Movieconvert.

(** ** The wizard, [ffmpegfe.py] *)

Module Ffmpegfe.

Definition get_output_filename (file_path : string) : string :=
  let '(base, ext) := OsPath.splitext file_path in
  if String.eqb (Py.lower ext) ".mp4" then base +:+ ".1.mp4" else base +:+ ".mp4".

(** *** The pattern of [get_srt_filenames]

    [^(.+?)(?:\.([a-z]{2}))?(?:\.(forced))?(?:\.(sdh))?\.srt$], matched
    the way the backtracking engine does: the first group as short as
    possible, every optional group tried present before absent. *)

Definition newline : ascii := "010".

(** [s] with the literal [p] removed from its front *)
Definition eat (p s : string) : option string :=
  if String.prefix p s then Some (Py.drop (String.length p) s) else None.

(** [\.srt$]: the end of the text, or the line break that ends it *)
Definition match_end (s : string) : bool :=
  String.eqb s ".srt" || String.eqb s (".srt" +:+ String newline EmptyString).

Definition or_else {A} (x y : option A) : option A :=
  match x with
  | Some _ => x
  | None => y
  end.

(** [(?:\.(sdh))?\.srt$]: is group 4 set? *)
Definition match_sdh (s : string) : option bool :=
  or_else
    (match eat ".sdh" s with
     | Some r => if match_end r then Some true else None
     | None => None
     end)
    (if match_end s then Some false else None).

(** [(?:\.(forced))?] and what follows: are groups 3 and 4 set? *)
Definition match_forced (s : string) : option (bool * bool) :=
  or_else
    (match eat ".forced" s with
     | Some r => pair true <$> match_sdh r
     | None => None
     end)
    (pair false <$> match_sdh s).

(** [(?:\.([a-z]{2}))?] and what follows: group 2, and are 3 and 4 set? *)
Definition match_lang (s : string) : option (option string * (bool * bool)) :=
  or_else
    (match s with
     | String c0 (String c1 (String c2 r)) =>
         if Ascii.eqb c0 "." && Py.is_lower c1 && Py.is_lower c2
         then pair (Some (String c1 (String c2 EmptyString))) <$> match_forced r
         else None
     | _ => None
     end)
    (pair None <$> match_forced s).

(** [^(.+?)] and what follows: one more character, not a line break,
    joins group 1 each time the rest does not match. *)
Fixpoint match_name (s : string) : option (option string * (bool * bool)) :=
  match s with
  | EmptyString => None
  | String c s' =>
      if Ascii.eqb c newline then None
      else or_else (match_lang s') (match_name s')
  end.

(** *** [get_srt_filenames] *)

Definition srt_file : Type := string * string * Z * Z.

Definition classify (filename : string) : option (string * Z * Z) :=
  match match_name (Py.lower filename) with
  | Some (group2, (group3, group4)) =>
      Some (default "en" group2, if group3 then 1 else 0, if group4 then 1 else 0)
  | None => None
  end.

Fixpoint collect (directory base : string) (names : list string) : list srt_file :=
  match names with
  | [] => []
  | filename :: rest =>
      if Py.endswith (Py.lower filename) ".srt" && Py.contains base filename
      then match classify filename with
           | Some (lang, forced, sdh) =>
               (OsPath.join directory filename, lang, forced, sdh)
               :: collect directory base rest
           | None => collect directory base rest
           end
      else collect directory base rest
  end.

Definition placeholder : srt_file := ("No srt files present", "en", 0, 0).

Definition get_srt_filenames (w : world) (file_path : string) : M (list srt_file) :=
  let base := fst (OsPath.splitext (OsPath.basename file_path)) in
  let directory := OsPath.dirname file_path in
  let* names := os_listdir w directory in
  let subtitle_files := collect directory base names in
  ret (match subtitle_files with
       | [] => [placeholder]
       | _ => subtitle_files
       end).

(** *** [get_streams] *)

(** The tuple [get_streams] returns: two items on the error path, three
    otherwise. *)
Inductive streams_tuple :=
| Two (none : list dict) (message : string)
| Three (video_streams audio_streams subtitle_streams : list dict).

Definition error_message : string := "Error: Could not retrieve stream information.".

Definition add_stream (acc : list dict * list dict * list dict) (s : stream)
    : result (list dict * list dict * list dict) :=
  let '(video_streams, audio_streams, subtitle_streams) := acc in
  let? codec_type := Val.capitalize (Val.get_or (members s) "codec_type" (VStr "Unknown")) in
  let codec_name := Val.get_or (members s) "codec_name" (VStr "Unknown") in
  let resolution :=
    if String.eqb codec_type "Video"
    then VStr (Val.str (Val.get_or (members s) "width" (VStr "N/A")) +:+ "x"
               +:+ Val.str (Val.get_or (members s) "height" (VStr "N/A")))
    else VNone in
  let s_tags := default [] (tags s) in
  let language := Val.get_or s_tags "language" (VStr "N/A") in
  let title := Val.get_or s_tags "title" (VStr "N/A") in
  let forced := Val.get_or s_tags "forced" (VStr "N/A") in
  let index := Val.get_or (members s) "index" (VStr "N/A") in
  if String.eqb codec_type "Video" then
    Ok (video_streams ++ [[("index", index); ("codec_name", codec_name);
                            ("resolution", resolution)]],
        audio_streams, subtitle_streams)
  else if String.eqb codec_type "Audio" then
    Ok (video_streams,
        audio_streams ++ [[("index", index); ("codec_name", codec_name);
                            ("language", language); ("title", title)]],
        subtitle_streams)
  else if String.eqb codec_type "Subtitle" then
    Ok (video_streams, audio_streams,
        subtitle_streams ++ [[("index", index); ("language", language);
                               ("forced", forced); ("title", title)]])
  else Ok acc.

Fixpoint add_streams (acc : list dict * list dict * list dict) (streams : list stream)
    : result (list dict * list dict * list dict) :=
  match streams with
  | [] => Ok acc
  | s :: rest => let? acc' := add_stream acc s in add_streams acc' rest
  end.

Definition get_streams (w : world) (file_path : string) : M streams_tuple :=
  emit (Probe (ffprobe_cmd file_path)) >>
  match probe w with
  | NotJson | JsonObject None => ret (Two [] error_message)
  | JsonOther => stop (Raised TypeError)
  | JsonObject (Some streams) =>
      let* (video_streams, audio_streams, subtitle_streams) :=
        lift (add_streams ([], [], []) streams) in
      ret (Three video_streams audio_streams subtitle_streams)
  end.

(** *** [main], up to the point where the terminal interface starts *)

Record wizard := Wizard {
  wizard_output_file : string;
  wizard_srt_files : list srt_file;
  wizard_video_streams : list dict;
  wizard_audio_streams : list dict;
  wizard_subtitle_streams : list dict
}.

(** [args] is [sys.argv] without the name of the script.  The unpacking
    of the result of [get_streams] into three names raises [ValueError]
    on a tuple of two. *)
Definition main (args : list string) (w : world) : M wizard :=
  match args with
  | [file_path] =>
      let output_file := get_output_filename file_path in
      let* srt_files := get_srt_filenames w file_path in
      let* streams := get_streams w file_path in
      match streams with
      | Three video_streams audio_streams subtitle_streams =>
          ret (Wizard output_file srt_files video_streams audio_streams subtitle_streams)
      | Two _ _ => stop (Raised ValueError)
      end
  | _ => print "Usage: python script.py <video_file>" >> stop (Exited 1)
  end.

Definition run (args : list string) (w : world) (existing : gset string)
    : result wizard * state :=
  main args w (State existing []).

End Ffmpegfe.

(** ** The panes of the wizard, [ffmpegfe.py] lines 117-138

    The texts of the widgets [main] builds from what the three helpers
    returned, before the terminal interface takes over. *)

Module Screen.

(** [[f x for x in l]] *)
Fixpoint map_each {A B} (f : A -> result B) (l : list A) : result (list B) :=
  match l with
  | [] => Ok []
  | x :: l' =>
      let? y := f x in
      let? ys := map_each f l' in
      Ok (y :: ys)
  end.

(** [k in d] *)
Definition has_key (d : dict) (k : string) : bool :=
  match Val.get d k with
  | Some _ => true
  | None => false
  end.

(** [video_streams[0]['resolution'] if video_streams else '1280x768'] *)
Definition video_resolution (video_streams : list dict) : result val :=
  match video_streams with
  | [] => Ok (VStr "1280x768")
  | first :: _ => Val.item first "resolution"
  end.

Definition audio_language (audio_streams : list dict) : result val :=
  match audio_streams with
  | [] => Ok (VStr "eng")
  | first :: _ => Val.item first "language"
  end.

Definition subtitle_language (subtitle_streams : list dict) : result val :=
  match subtitle_streams with
  | [] => Ok (VStr "en")
  | first :: _ => Val.item first "language"
  end.

(** The list [srt_files] never equals the text it is compared with, so
    the comprehension is what runs. *)
Definition subtitle_widgets (srt_files : list Ffmpegfe.srt_file) : list string :=
  map (fun entry : Z * Ffmpegfe.srt_file =>
         "Srt #" +:+ Py.str_int (fst entry) +:+ " : " +:+ fst (fst (fst (snd entry))))
      (enumerate_from 0 srt_files).

Definition stream_widget (resolution language : val) (entry : Z * dict) : result string :=
  let '(index, stream) := entry in
  let? codec_name := Val.item stream "codec_name" in
  Ok ("Stream #" +:+ Py.str_int index +:+ " : " +:+ Val.str codec_name +:+ ", "
      +:+ Val.str (if has_key stream "resolution" then resolution else language)).

Definition stream_widgets (resolution language : val) (video_streams audio_streams : list dict)
    : result (list string) :=
  map_each (stream_widget resolution language)
    (enumerate_from 0 (video_streams ++ audio_streams)).

Definition codec_widgets (resolution language : val) : list string :=
  [ "Stream #0 : video, " +:+ "hevc" +:+ ", " +:+ Val.str resolution;
    "Stream #1 : audio, " +:+ "ac3" +:+ ", " +:+ Val.str language ].

(** The lines of the pane titled [Input] and of the pane titled [Output]. *)
Definition panes (file_path : string) (wz : Ffmpegfe.wizard)
    : result (list string * list string) :=
  let? resolution := video_resolution (Ffmpegfe.wizard_video_streams wz) in
  let? language := audio_language (Ffmpegfe.wizard_audio_streams wz) in
  let? _ := subtitle_language (Ffmpegfe.wizard_subtitle_streams wz) in
  let input_text := "Input  : " +:+ file_path in
  let blank_line := EmptyString in
  let subtitles := subtitle_widgets (Ffmpegfe.wizard_srt_files wz) in
  let? streams :=
    stream_widgets resolution language
      (Ffmpegfe.wizard_video_streams wz) (Ffmpegfe.wizard_audio_streams wz) in
  let output_text := "Output : " +:+ Ffmpegfe.wizard_output_file wz in
  Ok ([blank_line; input_text; blank_line] ++ streams ++ [blank_line] ++ subtitles,
      [blank_line; output_text; blank_line] ++ codec_widgets resolution language).

End Screen.

(** ** Vocabulary of the statements *)

(** The names the output loop tries, in order: [base.container], then
    [base.1.container], [base.2.container], ... *)
Definition candidate (base cont : string) (k : Z) : string :=
  if k =? 0 then base +:+ "." +:+ cont else Movieconvert.numbered base k cont.

(** The names tried before round [j]. *)
Definition tried (base cont : string) (j : nat) : list string :=
  map (fun i => candidate base cont (Z.of_nat i)) (seq 0 j).

(** Kinds of events. *)
Definition informational (e : event) : Prop :=
  match e with
  | Print _ | UsageError _ | Probe _ => True
  | _ => False
  end.

Definition conversational (e : event) : Prop :=
  match e with
  | Print _ | UsageError _ | Probe _ | Prompt _ => True
  | _ => False
  end.

Definition leaves_files_alone (e : event) : Prop :=
  match e with
  | Encode _ | Remove _ | Rename _ _ => False
  | _ => True
  end.

Definition keeps_every_file (e : event) : Prop :=
  match e with
  | Remove _ | Rename _ _ => False
  | _ => True
  end.

Definition is_encode (e : event) : Prop :=
  match e with
  | Encode _ => True
  | _ => False
  end.

Definition emits_only (P : event -> Prop) {A} (m : M A) : Prop :=
  forall s, exists evs, trace (snd (m s)) = trace s ++ evs /\ Forall P evs.

Definition keeps_files {A} (m : M A) : Prop :=
  forall s, files (snd (m s)) = files s.

Definition crf_accepted (a : Movieconvert.cli) : Prop :=
  match Movieconvert.crf_text a with
  | None => True
  | Some value => exists ivalue, Movieconvert.crf_range value = Movieconvert.CrfValue ivalue
  end.


(** The naming convention of subtitle files: the name of the input, then
    an optional language code, [.forced], [.sdh], and [.srt]. *)
Definition flags_suffix (forced sdh : bool) : string :=
  (if forced then ".forced" else EmptyString)
  +:+ (if sdh then ".sdh" else EmptyString) +:+ ".srt".

Definition srt_suffix (language : option string) (forced sdh : bool) : string :=
  match language with
  | Some l => String "." l
  | None => EmptyString
  end +:+ flags_suffix forced sdh.

Definition flag (b : bool) : Z := if b then 1 else 0.

Fixpoint no_dot (s : string) : bool :=
  match s with
  | EmptyString => true
  | String c s' => negb (Ascii.eqb c ".") && no_dot s'
  end.

Fixpoint no_newline (s : string) : bool :=
  match s with
  | EmptyString => true
  | String c s' => negb (Ascii.eqb c Ffmpegfe.newline) && no_newline s'
  end.

Definition two_letters (c : string) : Prop :=
  exists c1 c2, c = String c1 (String c2 EmptyString)
                /\ Py.is_lower c1 = true /\ Py.is_lower c2 = true.

Definition tag_like (c : string) : Prop :=
  c = "forced" \/ c = "sdh" \/ two_letters c.

Definition plain_stem (stem : string) : Prop :=
  forall p c, tag_like c -> stem <> p +:+ String "." c.

(** The texts the tail of the pattern of [get_srt_filenames] accepts. *)
Inductive tail_shape : string -> Prop :=
| shape_end : tail_shape ".srt"
| shape_end_line : tail_shape (".srt" +:+ String Ffmpegfe.newline EmptyString)
| shape_tag (c rest : string) :
    tag_like c -> tail_shape rest -> tail_shape (String "." (c +:+ rest)).

(** ** Sample runs *)
Module Sample.
Import Movieconvert.

Definition movie : string := "/v/movie.mkv".

Definition options : cli :=
  Cli movie Mp4 Hevc false None Eac3 false true false false false.

(** [-c 52] *)
Definition options_crf_52 : cli :=
  Cli movie Mp4 Hevc false (Some "52") Eac3 false true false false false.

(** [-s -d -y]: leave the subtitles out, delete the input, do not ask. *)
Definition options_no_subtitles_delete : cli :=
  Cli movie Mp4 Hevc false None Eac3 false false true true false.

Definition video_stream : stream :=
  Stream [("index", VInt 0); ("codec_type", VStr "video"); ("codec_name", VStr "h264");
          ("width", VInt 1920); ("height", VInt 1080)]
         None (Some [("default", VInt 1); ("forced", VInt 0)]).

Definition audio_stream : stream :=
  Stream [("index", VInt 1); ("codec_type", VStr "audio"); ("codec_name", VStr "ac3");
          ("channels", VInt 6)]
         (Some [("language", VStr "eng")])
         (Some [("default", VInt 1); ("forced", VInt 0)]).

Definition directory (d : string) : option (list string) :=
  if String.eqb d "/v" then Some ["movie.mkv"; "movie.srt"] else None.

Definition existing : gset string := {[ "/v/movie.mkv"; "/v/movie.srt" ]}.

(** The operator answers [n]; the encoder would succeed. *)
Definition world_declined : world :=
  World directory (JsonObject (Some [video_stream; audio_stream])) (Some "n") 0.

(** The operator answers [y]; the encoder fails with status 1. *)
Definition world_encoder_fails : world :=
  World directory (JsonObject (Some [video_stream; audio_stream])) (Some "y") 1.

(** The encoder succeeds. *)
Definition world_success : world :=
  World directory (JsonObject (Some [video_stream; audio_stream])) (Some "y") 0.

(** The inspection prints nothing that parses. *)
Definition world_probe_fails : world :=
  World directory NotJson (Some "y") 0.

(** The input exists but cannot be opened: the inspection fails on it and
    prints an object without a stream list. *)
Definition world_unreadable : world :=
  World directory (JsonObject None) (Some "y") 0.

End Sample.

(** ** Vocabulary of the further properties *)

(** [l] ends with [x]. *)
Definition ends_with {A} (x : A) (l : list A) : Prop := exists m, l = m ++ [x].

(** What the clean-up of plan [p] may do: print, remove the input or a
    subtitle file of the plan, rename the output to [base.container]. *)
Definition cleanup_event (a : Movieconvert.cli) (p : Movieconvert.plan) (e : event) : Prop :=
  match e with
  | Print _ => True
  | Remove path =>
      Movieconvert.delete a = true
      /\ (path = Movieconvert.input a
          \/ exists file, In file (Movieconvert.subfiles_in p)
                          /\ Val.get file "filename" = Some (VStr path))
  | Rename src dst =>
      Movieconvert.delete a = true
      /\ src = Movieconvert.output_file p
      /\ dst = fst (OsPath.splitext (Movieconvert.input a)) +:+ "."
               +:+ Movieconvert.container_name (Movieconvert.container a)
  | _ => False
  end.

Definition changes_files (e : event) : Prop :=
  match e with
  | Remove _ | Rename _ _ => True
  | _ => False
  end.

Definition is_prompt (e : event) : Prop :=
  match e with
  | Prompt _ => True
  | _ => False
  end.



(** [l] holds the items of [block], one after the other. *)
Definition has_block {A} (block l : list A) : Prop :=
  exists pre post, l = pre ++ block ++ post.

(** The lists of the batch tool and of the wizard hold the same streams:
    the same indexes and, for video and audio, the same codec names. *)
Definition same_streams (b : Movieconvert.buckets)
    (acc : list dict * list dict * list dict) : Prop :=
  let '(video_streams, audio_streams, subtitle_streams) := acc in
  map (fun d => Val.get d "index") video_streams
  = map (fun d => Val.get d "index") (Movieconvert.video_streams_in b)
  /\ map (fun d => Val.get d "codec_name") video_streams
     = map (fun d => Val.get d "codec") (Movieconvert.video_streams_in b)
  /\ map (fun d => Val.get d "index") audio_streams
     = map (fun d => Val.get d "index") (Movieconvert.audio_streams_in b)
  /\ map (fun d => Val.get d "codec_name") audio_streams
     = map (fun d => Val.get d "codec") (Movieconvert.audio_streams_in b)
  /\ map (fun d => Val.get d "index") subtitle_streams
     = map (fun d => Val.get d "index") (Movieconvert.subtitle_streams_in b).

(** The line the wizard shows for stream [entry], with [shown] as its last
    item. *)
Definition stream_line (shown : val) (entry : Z * dict) : string :=
  "Stream #" +:+ Py.str_int (fst entry) +:+ " : "
  +:+ Val.str (Val.get_or (snd entry) "codec_name" VNone) +:+ ", " +:+ Val.str shown.

(** The entries the wizard makes for a video, an audio and a subtitle
    stream. *)
Definition video_entry (d : dict) : Prop :=
  exists index codec_name resolution,
    d = [("index", index); ("codec_name", codec_name); ("resolution", resolution)].

Definition audio_entry (d : dict) : Prop :=
  exists index codec_name language title,
    d = [("index", index); ("codec_name", codec_name); ("language", language);
         ("title", title)].

Definition subtitle_entry (d : dict) : Prop :=
  exists index language forced title,
    d = [("index", index); ("language", language); ("forced", forced); ("title", title)].

(** The options [a] with [--verbose] set to [v]. *)
Definition with_verbose (v : bool) (a : Movieconvert.cli) : Movieconvert.cli :=
  Movieconvert.Cli (Movieconvert.input a) (Movieconvert.container a)
    (Movieconvert.video_codec a) (Movieconvert.rescale_to_720 a) (Movieconvert.crf_text a)
    (Movieconvert.audio_codec a) (Movieconvert.audio_to_stereo a) (Movieconvert.subtitle a)
    (Movieconvert.delete a) (Movieconvert.no_prompt a) v.

(** * Proofs *)

(** ** The primitives on small inputs *)

Section Examples.

Example splitext_plain :
  OsPath.splitext "/v/Movie.2020.mkv" = ("/v/Movie.2020", ".mkv").
Proof. reflexivity. Qed.

Example splitext_hidden : OsPath.splitext "/v/.hidden" = ("/v/.hidden", EmptyString).
Proof. reflexivity. Qed.

Example splitext_dot_in_directory :
  OsPath.splitext "/v.d/movie" = ("/v.d/movie", EmptyString).
Proof. reflexivity. Qed.

Example dirname_bare : OsPath.dirname "movie.mkv" = EmptyString.
Proof. reflexivity. Qed.

Example dirname_nested : OsPath.dirname "/a//movie.mkv" = "/a".
Proof. reflexivity. Qed.

Example dirname_root : OsPath.dirname "/movie.mkv" = "/".
Proof. reflexivity. Qed.

Example join_plain : OsPath.join "/v" "movie.srt" = "/v/movie.srt".
Proof. reflexivity. Qed.

Example split_parts :
  Py.split "." ".en.forced.srt" = [EmptyString; "en"; "forced"; "srt"].
Proof. reflexivity. Qed.

Example int_examples :
  (Py.int " 5 ", Py.int "-3", Py.int "1_0", Py.int "1__0", Py.int "x", Py.int "+07")
  = (Some 5, Some (-3), Some 10, None, None, Some 7).
Proof. reflexivity. Qed.

(** A file separator (character 28) is white space for [str.strip] but
    not for [int]. *)
Example int_keeps_separators :
  (Py.int (String "028" "5"), Py.int ("5" +:+ String "031" EmptyString),
   Py.int (String "011" ("5" +:+ String "012" EmptyString)),
   Py.strip (String "028" "5"))
  = (None, None, Some 5, "5").
Proof. reflexivity. Qed.

Example strip_example : Py.strip "  Y es  " = "Y es".
Proof. reflexivity. Qed.

Example crf_range_examples :
  (Movieconvert.crf_range "0", Movieconvert.crf_range "51", Movieconvert.crf_range "abc",
   Movieconvert.crf_range (String "028" "5"))
  = (Movieconvert.CrfValue 0, Movieconvert.CrfValue 51, Movieconvert.CrfValueError,
     Movieconvert.CrfValueError).
Proof. reflexivity. Qed.

Example wizard_pattern_examples :
  map Ffmpegfe.classify
    ["movie.srt"; "movie.fr.srt"; "Movie.EN.Forced.SDH.srt"; "movie.eng.srt"; ".srt"]
  = [Some ("en", 0, 0); Some ("fr", 0, 0); Some ("en", 1, 1); Some ("en", 0, 0); None].
Proof. reflexivity. Qed.

Example wizard_reads_base_name_as_tag :
  Ffmpegfe.classify "a.sdh.srt" = Some ("en", 0, 1).
Proof. reflexivity. Qed.

Example first_free_name :
  Movieconvert.next_free 3 {[ "/v/movie.mp4"; "/v/movie.1.mp4" ]} "/v/movie" "mp4"
    "/v/movie.mp4" 1
  = Some ("/v/movie.2.mp4", 3).
Proof. vm_compute. reflexivity. Qed.

End Examples.

(** ** Facts about strings *)

Section Strings.

Lemma str_app_cons (a : ascii) (s t : string) : String a s +:+ t = String a (s +:+ t).
Proof. reflexivity. Qed.

Lemma str_app_nil_r (s : string) : s +:+ EmptyString = s.
Proof. induction s as [|a s IH]; [reflexivity|]. rewrite str_app_cons, IH. reflexivity. Qed.

Lemma str_app_assoc (s t u : string) : (s +:+ t) +:+ u = s +:+ t +:+ u.
Proof. induction s as [|a s IH]; [reflexivity|]. rewrite !str_app_cons, IH. reflexivity. Qed.

Lemma str_length_app (s t : string) :
  String.length (s +:+ t) = (String.length s + String.length t)%nat.
Proof. induction s as [|a s IH]; [reflexivity|]. rewrite str_app_cons. simpl. rewrite IH. reflexivity. Qed.

Lemma str_app_inv_tail (s1 s2 t : string) : s1 +:+ t = s2 +:+ t -> s1 = s2.
Proof.
  revert s2. induction s1 as [|a s1 IH]; intros [|b s2] H.
  - reflexivity.
  - apply (f_equal String.length) in H. rewrite !str_length_app in H. simpl in H. lia.
  - apply (f_equal String.length) in H. rewrite !str_length_app in H. simpl in H. lia.
  - rewrite !str_app_cons in H. injection H as -> H. f_equal. apply IH, H.
Qed.

End Strings.

Section OutputName.

Variables (base cont : string) (existing : gset string).

Lemma candidate_succ (k : Z) :
  0 <= k -> candidate base cont (k + 1) = Movieconvert.numbered base (k + 1) cont.
Proof. intros Hk. unfold candidate. destruct (Z.eqb_spec (k + 1) 0); [lia | reflexivity]. Qed.

Lemma candidate_inj (j k : Z) :
  0 <= j -> 0 <= k -> candidate base cont j = candidate base cont k -> j = k.
Proof.
  intros Hj Hk. unfold candidate, Movieconvert.numbered, Py.str_int.
  destruct (Z.eqb_spec j 0) as [->|Hj0], (Z.eqb_spec k 0) as [->|Hk0]; intros H.
  - reflexivity.
  - apply String.app_inj, String.app_inj in H.
    apply (f_equal String.length) in H. rewrite !str_length_app in H. simpl in H. lia.
  - apply String.app_inj, String.app_inj in H.
    apply (f_equal String.length) in H. rewrite !str_length_app in H. simpl in H. lia.
  - apply String.app_inj, String.app_inj in H.
    rewrite <- !str_app_assoc in H. apply str_app_inv_tail, str_app_inv_tail in H.
    apply (inj pretty) in H. exact H.
Qed.

Lemma tried_NoDup (j : nat) : NoDup (tried base cont j).
Proof.
  unfold tried. apply NoDup_fmap_2_strong; [|apply NoDup_seq].
  intros x y _ _ H. apply candidate_inj in H; lia.
Qed.

Lemma tried_bound (j : nat) :
  (forall i, (i < j)%nat -> candidate base cont (Z.of_nat i) ∈ existing) ->
  (j <= size existing)%nat.
Proof.
  intros H.
  assert (length (tried base cont j) = j) as Hlen
    by (unfold tried; rewrite length_map, length_seq; reflexivity).
  rewrite <- Hlen at 1.
  rewrite <- (size_list_to_set (C := gset string)) by apply tried_NoDup.
  apply subseteq_size. intros x Hx. apply elem_of_list_to_set in Hx.
  unfold tried in Hx. apply list_elem_of_fmap in Hx as (i & -> & Hi).
  apply elem_of_seq in Hi. apply H. lia.
Qed.

Lemma next_free_spec (fuel j : nat) :
  (size existing < fuel + j)%nat ->
  (forall i, (i < j)%nat -> candidate base cont (Z.of_nat i) ∈ existing) ->
  exists n : nat,
    Movieconvert.next_free fuel existing base cont
      (candidate base cont (Z.of_nat j)) (Z.of_nat j + 1)
    = Some (candidate base cont (Z.of_nat n), Z.of_nat n + 1)
    /\ (candidate base cont (Z.of_nat n) ∉ existing)
    /\ forall i, (i < n)%nat -> candidate base cont (Z.of_nat i) ∈ existing.
Proof.
  revert j. induction fuel as [|fuel IH]; intros j Hfuel Hj.
  - apply tried_bound in Hj. lia.
  - simpl. case_bool_decide as Hin.
    + rewrite <- candidate_succ by lia.
      replace (Z.of_nat j + 1) with (Z.of_nat (S j)) by lia.
      apply IH; [lia|].
      intros i Hi. destruct (decide (i = j)) as [->|]; [exact Hin | apply Hj; lia].
    + exists j. auto.
Qed.

End OutputName.


Section EmitsOnly.

Variable P : event -> Prop.

Lemma emits_only_ret {A} (a : A) : emits_only P (ret a).
Proof. intros s. exists []. rewrite List.app_nil_r. auto. Qed.

Lemma emits_only_stop {A} (h : halt) : emits_only P (@stop A h).
Proof. intros s. exists []. rewrite List.app_nil_r. auto. Qed.

Lemma emits_only_lift {A} (r : result A) : emits_only P (lift r).
Proof. intros s. exists []. rewrite List.app_nil_r. auto. Qed.

Lemma emits_only_isfile (p : string) : emits_only P (isfile p).
Proof. intros s. exists []. rewrite List.app_nil_r. auto. Qed.

Lemma emits_only_emit (e : event) : P e -> emits_only P (emit e).
Proof. intros He s. exists [e]. auto. Qed.

Lemma emits_only_remove (p : string) : P (Remove p) -> emits_only P (os_remove p).
Proof.
  intros He s. unfold os_remove. case_bool_decide.
  - exists [Remove p]. auto.
  - exists []. rewrite List.app_nil_r. auto.
Qed.

Lemma emits_only_rename (src dst : string) :
  P (Rename src dst) -> emits_only P (os_rename src dst).
Proof.
  intros He s. unfold os_rename. case_bool_decide.
  - exists [Rename src dst]. auto.
  - exists []. rewrite List.app_nil_r. auto.
Qed.

Lemma emits_only_bind {A B} (m : M A) (k : A -> M B) :
  emits_only P m -> (forall a, emits_only P (k a)) -> emits_only P (bindM m k).
Proof.
  intros Hm Hk s. unfold bindM. specialize (Hm s).
  destruct (m s) as [[a|h] s1]; simpl in Hm; [|exact Hm].
  destruct Hm as (evs & Ht & Hevs).
  destruct (Hk a s1) as (evs' & Ht' & Hevs').
  exists (evs ++ evs').
  rewrite Ht', Ht, <- List.app_assoc. split; [reflexivity | apply Forall_app; auto].
Qed.

Lemma emits_only_for_each {A} (l : list A) (body : A -> M unit) :
  (forall x, emits_only P (body x)) -> emits_only P (for_each l body).
Proof.
  intros H. induction l as [|x l IH]; simpl.
  - apply emits_only_ret.
  - apply emits_only_bind; auto.
Qed.

Lemma emits_only_listdir (w : world) (d : string) : emits_only P (os_listdir w d).
Proof.
  unfold os_listdir. destruct (String.eqb d EmptyString); [apply emits_only_stop|].
  destruct (listing w d); [apply emits_only_ret | apply emits_only_stop].
Qed.

Lemma emits_only_choose_output (base cont : string) :
  emits_only P (Movieconvert.choose_output base cont).
Proof.
  intros s. unfold Movieconvert.choose_output.
  destruct (Movieconvert.next_free _ _ _ _ _ _);
    exists []; rewrite List.app_nil_r; auto.
Qed.

End EmitsOnly.

Lemma emits_only_mono (P Q : event -> Prop) {A} (m : M A) :
  (forall e, P e -> Q e) -> emits_only P m -> emits_only Q m.
Proof.
  intros HPQ Hm s. destruct (Hm s) as (evs & Ht & Hevs).
  exists evs. split; [exact Ht|]. eapply Forall_impl; eauto.
Qed.

Section KeepsFiles.

Lemma keeps_files_ret {A} (a : A) : keeps_files (ret a).
Proof. intros s. reflexivity. Qed.

Lemma keeps_files_stop {A} (h : halt) : keeps_files (@stop A h).
Proof. intros s. reflexivity. Qed.

Lemma keeps_files_lift {A} (r : result A) : keeps_files (lift r).
Proof. intros s. reflexivity. Qed.

Lemma keeps_files_isfile (p : string) : keeps_files (isfile p).
Proof. intros s. reflexivity. Qed.

Lemma keeps_files_emit (e : event) : keeps_files (emit e).
Proof. intros s. reflexivity. Qed.

Lemma keeps_files_bind {A B} (m : M A) (k : A -> M B) :
  keeps_files m -> (forall a, keeps_files (k a)) -> keeps_files (bindM m k).
Proof.
  intros Hm Hk s. unfold bindM. specialize (Hm s).
  destruct (m s) as [[a|h] s1]; simpl in Hm; [|exact Hm].
  rewrite (Hk a s1). exact Hm.
Qed.

Lemma keeps_files_for_each {A} (l : list A) (body : A -> M unit) :
  (forall x, keeps_files (body x)) -> keeps_files (for_each l body).
Proof.
  intros H. induction l as [|x l IH]; simpl.
  - apply keeps_files_ret.
  - apply keeps_files_bind; auto.
Qed.

Lemma keeps_files_listdir (w : world) (d : string) : keeps_files (os_listdir w d).
Proof.
  unfold os_listdir. destruct (String.eqb d EmptyString); [apply keeps_files_stop|].
  destruct (listing w d); [apply keeps_files_ret | apply keeps_files_stop].
Qed.

Lemma keeps_files_choose_output (base cont : string) :
  keeps_files (Movieconvert.choose_output base cont).
Proof.
  intros s. unfold Movieconvert.choose_output.
  destruct (Movieconvert.next_free _ _ _ _ _ _); reflexivity.
Qed.

End KeepsFiles.

Ltac emits_only_step :=
  first
    [ apply emits_only_ret
    | apply emits_only_stop
    | apply emits_only_lift
    | apply emits_only_isfile
    | apply emits_only_listdir
    | apply emits_only_choose_output
    | apply emits_only_emit; exact I
    | apply emits_only_remove; exact I
    | apply emits_only_rename; exact I
    | apply emits_only_for_each; intros
    | apply emits_only_bind; [|intros]
    | match goal with
      | |- emits_only _ (if ?b then _ else _) => destruct b
      | |- emits_only _ (match ?x with _ => _ end) => destruct x
      end ].

Ltac keeps_files_step :=
  first
    [ apply keeps_files_ret
    | apply keeps_files_stop
    | apply keeps_files_lift
    | apply keeps_files_isfile
    | apply keeps_files_listdir
    | apply keeps_files_choose_output
    | apply keeps_files_emit
    | apply keeps_files_for_each; intros
    | apply keeps_files_bind; [|intros]
    | match goal with
      | |- keeps_files (if ?b then _ else _) => destruct b
      | |- keeps_files (match ?x with _ => _ end) => destruct x
      end ].

Section Phases.
Import Movieconvert.

Lemma print_streams_informational (l : list dict) :
  emits_only informational (print_streams l).
Proof. unfold print_streams, print. repeat emits_only_step. Qed.

Lemma prepare_informational a w : emits_only informational (prepare a w).
Proof.
  unfold prepare, parse_crf, validate_crf, find_subfile, report_input, report_output, print.
  repeat first [ apply print_streams_informational | emits_only_step ].
Qed.

Lemma prepare_keeps_files a w : keeps_files (prepare a w).
Proof.
  unfold prepare, parse_crf, validate_crf, find_subfile, report_input, report_output,
    print_streams, print.
  repeat keeps_files_step.
Qed.

Lemma confirm_conversational a w : emits_only conversational (confirm a w).
Proof. unfold confirm, print. repeat emits_only_step. Qed.

Lemma confirm_keeps_files a w : keeps_files (confirm a w).
Proof. unfold confirm, print. repeat keeps_files_step. Qed.

Lemma cleanup_never_encodes a p : emits_only (fun e => ~ is_encode e) (cleanup a p).
Proof.
  unfold cleanup, delete_subfile, print.
  repeat first [ emits_only_step
               | apply emits_only_emit; simpl; tauto
               | apply emits_only_remove; simpl; tauto
               | apply emits_only_rename; simpl; tauto ].
Qed.
End Phases.

Section Runs.
Import Movieconvert.

Lemma informational_conversational e : informational e -> conversational e.
Proof. destruct e; simpl; auto. Qed.

Lemma conversational_leaves_files_alone e : conversational e -> leaves_files_alone e.
Proof. destruct e; simpl; auto. Qed.

Lemma conversational_not_encode e : conversational e -> ~ is_encode e.
Proof. destruct e; simpl; auto. Qed.

(** What [prepare] leaves behind, whatever its result. *)
Lemma prepare_state a w existing :
  files (snd (prepare a w (State existing []))) = existing
  /\ Forall informational (trace (snd (prepare a w (State existing [])))).
Proof.
  split.
  - apply (prepare_keeps_files a w).
  - destruct (prepare_informational a w (State existing [])) as (evs & -> & H). exact H.
Qed.

Lemma confirm_declined a w line s :
  no_prompt a = false -> stdin w = Some line ->
  Py.lower (Py.strip line) <> "y" ->
  confirm a w s
  = (Halt (Exited 0), State (files s) (trace s ++ [Prompt prompt_text; Print "Aborted."])).
Proof.
  intros Hn Hl Hy. unfold confirm. rewrite Hn, Hl.
  destruct (String.eqb_spec (Py.lower (Py.strip line)) "y") as [E|_]; [contradiction|].
  unfold bindM, emit, print, emit, stop. simpl. rewrite <- List.app_assoc. reflexivity.
Qed.

Lemma encode_failed w p s :
  encoder_status w <> 0 ->
  encode w p s
  = (Halt (Exited 1),
     State (files s)
       (trace s ++ [Encode (cmd p); PrintEncoderError (cmd p) (encoder_status w)])).
Proof.
  intros Hrc. unfold encode.
  destruct (Z.eqb_spec (encoder_status w) 0) as [E|_]; [contradiction|].
  unfold bindM, emit, stop. simpl. rewrite <- List.app_assoc. reflexivity.
Qed.

(** Claim C5.  When [--no-prompt] is not given and the line the operator
    types, stripped and lower-cased, is not [y], the run leaves the set of
    files as it was, never starts the encoder and never removes or renames
    a file; and if the run got as far as the question, it ends with
    [sys.exit(0)]. *)
Theorem declined_confirmation_exits_cleanly a w existing line :
  no_prompt a = false ->
  stdin w = Some line ->
  Py.lower (Py.strip line) <> "y" ->
  files (snd (run a w existing)) = existing
  /\ Forall leaves_files_alone (trace (snd (run a w existing)))
  /\ (In (Prompt prompt_text) (trace (snd (run a w existing))) ->
      fst (run a w existing) = Halt (Exited 0)).
Proof.
  intros Hn Hl Hy. unfold run, main, bindM.
  destruct (prepare_state a w existing) as (Hf & Ht).
  destruct (prepare a w (State existing [])) as [[p|h] s1]; simpl in Hf, Ht.
  - rewrite (confirm_declined a w line s1 Hn Hl Hy). simpl.
    split; [exact Hf|]. split; [|reflexivity].
    apply Forall_app. split.
    + eapply Forall_impl; [exact Ht|].
      intros e He. apply conversational_leaves_files_alone, informational_conversational, He.
    + repeat constructor.
  - simpl. split; [exact Hf|]. split.
    + eapply Forall_impl; [exact Ht|].
      intros e He. apply conversational_leaves_files_alone, informational_conversational, He.
    + intros Hin. rewrite List.Forall_forall in Ht. apply Ht in Hin. destruct Hin.
Qed.

Lemma confirm_agreed a w s :
  no_prompt a = true
  \/ (exists line, stdin w = Some line /\ Py.lower (Py.strip line) = "y") ->
  confirm a w s
  = (Ok tt, State (files s)
              (trace s ++ (if no_prompt a then [] else [Prompt prompt_text]))).
Proof.
  unfold confirm. destruct (no_prompt a).
  - intros _. unfold ret. rewrite List.app_nil_r. destruct s; reflexivity.
  - intros [H|(line & Hl & Hy)]; [discriminate|].
    rewrite Hl. cbv zeta. rewrite Hy. reflexivity.
Qed.

(** Claim C6.  When the encoder exits with a status other than zero, no
    file is removed or renamed and the set of files is unchanged, whatever
    the options.  A run whose plan is made and whose operator agrees (or is
    not asked) starts the encoder once, prints the failure right after it
    and ends with [sys.exit(1)], and that is all it does after the plan;
    no run starts the encoder in any other way or a second time. *)
Theorem encoder_failure_is_terminal a w existing :
  encoder_status w <> 0 ->
  files (snd (run a w existing)) = existing
  /\ Forall keeps_every_file (trace (snd (run a w existing)))
  /\ (forall c, In (Encode c) (trace (snd (run a w existing))) ->
        fst (run a w existing) = Halt (Exited 1)
        /\ exists before,
             trace (snd (run a w existing))
             = before ++ [Encode c; PrintEncoderError c (encoder_status w)]
             /\ Forall (fun e => ~ is_encode e) before)
  /\ (forall p s1,
        prepare a w (State existing []) = (Ok p, s1) ->
        no_prompt a = true
        \/ (exists line, stdin w = Some line /\ Py.lower (Py.strip line) = "y") ->
        run a w existing
        = (Halt (Exited 1),
           State existing
             ((trace s1 ++ (if no_prompt a then [] else [Prompt prompt_text]))
              ++ [Encode (cmd p); PrintEncoderError (cmd p) (encoder_status w)]))).
Proof.
  intros Hrc. unfold run, main, bindM.
  destruct (prepare_state a w existing) as (Hf & Ht).
  destruct (prepare a w (State existing [])) as [[p|h] s1]; simpl in Hf, Ht.
  - pose proof (confirm_keeps_files a w s1) as Hcf.
    pose proof (confirm_agreed a w s1) as Hagreed.
    destruct (confirm_conversational a w s1) as (evs & Hct & Hevs).
    assert (Forall conversational (trace (snd (confirm a w s1)))) as Hall.
    { rewrite Hct. apply Forall_app. split; [|exact Hevs].
      eapply Forall_impl; [exact Ht|]. apply informational_conversational. }
    destruct (confirm a w s1) as [[[]|h] s2]; simpl in Hcf, Hall.
    + rewrite (encode_failed w p s2 Hrc). simpl.
      split; [congruence|]. split; [|split].
      * apply Forall_app. split; [|repeat constructor].
        eapply Forall_impl; [exact Hall|]. intros e; destruct e; simpl; auto.
      * intros c Hin. split; [reflexivity|].
        apply in_app_iff in Hin as [Hin|Hin].
        { rewrite List.Forall_forall in Hall. apply Hall in Hin. destruct Hin. }
        destruct Hin as [E|[E|[]]]; [|discriminate]. injection E as <-.
        exists (trace s2). split; [reflexivity|].
        eapply Forall_impl; [exact Hall|]. apply conversational_not_encode.
      * intros p' s1' [= <- <-] Hyes. specialize (Hagreed Hyes).
        injection Hagreed as ->. simpl. rewrite Hf. reflexivity.
    + simpl. split; [congruence|]. split; [|split].
      * eapply Forall_impl; [exact Hall|]. intros e; destruct e; simpl; auto.
      * intros c Hin. rewrite List.Forall_forall in Hall. apply Hall in Hin. destruct Hin.
      * intros p' s1' [= <- <-] Hyes. specialize (Hagreed Hyes). discriminate Hagreed.
  - simpl. split; [exact Hf|]. split; [|split].
    + eapply Forall_impl; [exact Ht|]. intros e; destruct e; simpl; auto.
    + intros c Hin. rewrite List.Forall_forall in Ht. apply Ht in Hin. destruct Hin.
    + intros p' s1' E. discriminate E.
Qed.

Lemma crf_range_value value ivalue :
  crf_range value = CrfValue ivalue ->
  Py.int value = Some ivalue /\ 0 <= ivalue <= 51.
Proof.
  unfold crf_range. destruct (Py.int value) as [z|]; [|discriminate].
  destruct (Z.ltb_spec z 0), (Z.ltb_spec 51 z); simpl; try discriminate.
  intros [= <-]. split; [reflexivity | lia].
Qed.

Lemma crf_phase a s :
  crf_accepted a ->
  exists crf_value,
    bindM (parse_crf (crf_text a)) (validate_crf (video_codec a)) s = (Ok crf_value, s).
Proof.
  unfold crf_accepted, parse_crf, bindM. destruct (crf_text a) as [value|].
  - intros [z Hz]. rewrite Hz. simpl.
    apply crf_range_value in Hz as [_ Hz].
    destruct (Z.ltb_spec z 0), (Z.ltb_spec 51 z); try lia. simpl. eauto.
  - intros _. simpl. eauto.
Qed.

(** Claim C7, as amended.  When the input path does not name an existing
    file (and the command line itself was accepted), the run prints the
    error, ends with [sys.exit(1)], and has started neither the inspection
    nor the encoder: the message is its only action.  Existence is all
    that [os.path.isfile] tests; whether the file can be read is not
    looked at. *)
Theorem missing_input_stops_before_any_process a w existing :
  input a ∉ existing ->
  crf_accepted a ->
  run a w existing
  = (Halt (Exited 1),
     State existing [Print ("Error: Cannot read file '" +:+ input a +:+ "'")]).
Proof.
  intros Hin Hcrf.
  destruct (crf_phase a (State existing []) Hcrf) as [crf Hphase].
  unfold run, main, prepare.
  unfold bindM in *.
  destruct (parse_crf (crf_text a) (State existing [])) as [[c|h] s1]; [|discriminate].
  rewrite Hphase. unfold isfile. simpl.
  rewrite bool_decide_eq_false_2 by exact Hin. reflexivity.
Qed.

End Runs.

Section SubtitleNames.

Lemma drop_app (b rest : string) : Py.drop (String.length b) (b +:+ rest) = rest.
Proof. induction b as [|a b IH]; [reflexivity|]. rewrite str_app_cons. simpl. exact IH. Qed.

Lemma lower_app (s t : string) : Py.lower (s +:+ t) = Py.lower s +:+ Py.lower t.
Proof.
  induction s as [|a s IH]; [reflexivity|].
  rewrite str_app_cons. simpl. rewrite IH. reflexivity.
Qed.

Lemma split_no_dot (l r : string) :
  no_dot l = true -> Py.split "." (l +:+ String "." r) = l :: Py.split "." r.
Proof.
  induction l as [|a l IH]; intros H.
  - reflexivity.
  - simpl in H. apply andb_true_iff in H as [Ha Hl].
    rewrite str_app_cons. simpl. destruct (Ascii.eqb a "."); [discriminate|].
    rewrite (IH Hl). reflexivity.
Qed.

Lemma flags_suffix_dot (forced sdh : bool) :
  exists r, flags_suffix forced sdh = String "." r.
Proof. destruct forced, sdh; eexists; reflexivity. Qed.

Lemma tag_step_language (t : Movieconvert.srt_tags) (l : string) :
  l <> "forced" -> l <> "sdh" ->
  Movieconvert.lang t = "eng" ->
  Movieconvert.lang (Movieconvert.tag_step t l) = "eng"
  /\ Movieconvert.forced (Movieconvert.tag_step t l) = Movieconvert.forced t
  /\ Movieconvert.sdh (Movieconvert.tag_step t l) = Movieconvert.sdh t.
Proof.
  intros Hf Hs Ht. apply String.eqb_neq in Hf, Hs.
  unfold Movieconvert.tag_step. rewrite Hf, Hs.
  destruct (String.eqb l "en" || String.eqb l "eng"); simpl; auto.
Qed.

Lemma fold_flags (t : Movieconvert.srt_tags) (forced sdh : bool) :
  let t' := fold_left Movieconvert.tag_step
              (Py.split "." (Py.drop 1 (flags_suffix forced sdh))) t in
  Movieconvert.lang t' = Movieconvert.lang t
  /\ Movieconvert.forced t' = (if forced then 1 else Movieconvert.forced t)
  /\ Movieconvert.sdh t' = (if sdh then 1 else Movieconvert.sdh t).
Proof. destruct forced, sdh; repeat split; reflexivity. Qed.

Lemma batch_classify (base_name rest : string) (language : option string)
    (forced sdh : bool) :
  Py.lower rest = srt_suffix language forced sdh ->
  (forall l, language = Some l -> no_dot l = true /\ l <> "forced" /\ l <> "sdh") ->
  Movieconvert.lang (Movieconvert.classify base_name (base_name +:+ rest)) = "eng"
  /\ Movieconvert.forced (Movieconvert.classify base_name (base_name +:+ rest)) = flag forced
  /\ Movieconvert.sdh (Movieconvert.classify base_name (base_name +:+ rest)) = flag sdh.
Proof.
  intros Hrest Hlang. unfold Movieconvert.classify. rewrite drop_app, Hrest.
  destruct language as [l|].
  - destruct (Hlang l eq_refl) as (Hdot & Hf & Hs).
    unfold srt_suffix. rewrite str_app_cons.
    change (Py.split "." (String "." (l +:+ flags_suffix forced sdh)))
      with (EmptyString :: Py.split "." (l +:+ flags_suffix forced sdh)).
    assert (flags_suffix forced sdh = String "." (Py.drop 1 (flags_suffix forced sdh))) as ->
      by (destruct forced, sdh; reflexivity).
    rewrite (split_no_dot l _ Hdot).
    change (fold_left Movieconvert.tag_step (EmptyString :: l :: ?rest) ?t)
      with (fold_left Movieconvert.tag_step rest
              (Movieconvert.tag_step (Movieconvert.tag_step t EmptyString) l)).
    set (t0 := Movieconvert.tag_step (Movieconvert.SrtTags "eng" 0 0 []) EmptyString).
    destruct (tag_step_language t0 l Hf Hs eq_refl) as (H1 & H2 & H3).
    destruct (fold_flags (Movieconvert.tag_step t0 l) forced sdh) as (G1 & G2 & G3).
    rewrite G1, G2, G3, H1, H2, H3. destruct forced, sdh; repeat split; reflexivity.
  - destruct forced, sdh; repeat split; reflexivity.
Qed.

Lemma prefix_app (p s : string) :
  String.prefix p s = true -> s = p +:+ Py.drop (String.length p) s.
Proof.
  revert s. induction p as [|a p IH]; intros s H; [reflexivity|].
  destruct s as [|b s]; [discriminate|]. simpl in H.
  destruct (ascii_dec a b) as [->|]; [|discriminate].
  rewrite str_app_cons. simpl. f_equal. apply IH, H.
Qed.

Lemma eat_app (p s r : string) : Ffmpegfe.eat p s = Some r -> s = p +:+ r.
Proof.
  unfold Ffmpegfe.eat. destruct (String.prefix p s) eqn:H; [|discriminate].
  intros [= <-]. apply prefix_app, H.
Qed.

Lemma match_end_shape (s : string) : Ffmpegfe.match_end s = true -> tail_shape s.
Proof.
  unfold Ffmpegfe.match_end. intros H. apply orb_true_iff in H as [H|H];
    apply String.eqb_eq in H; subst s; constructor.
Qed.

Lemma match_sdh_shape (s : string) (r : bool) :
  Ffmpegfe.match_sdh s = Some r -> tail_shape s.
Proof.
  unfold Ffmpegfe.match_sdh, Ffmpegfe.or_else.
  destruct (Ffmpegfe.eat ".sdh" s) as [t|] eqn:He.
  - apply eat_app in He. destruct (Ffmpegfe.match_end t) eqn:Ht.
    + intros _. subst s. apply (shape_tag "sdh" t); [right; left; reflexivity|].
      apply match_end_shape, Ht.
    + destruct (Ffmpegfe.match_end s) eqn:Hs; [|discriminate].
      intros _. apply match_end_shape, Hs.
  - destruct (Ffmpegfe.match_end s) eqn:Hs; [|discriminate].
    intros _. apply match_end_shape, Hs.
Qed.

Lemma match_forced_shape (s : string) (r : bool * bool) :
  Ffmpegfe.match_forced s = Some r -> tail_shape s.
Proof.
  unfold Ffmpegfe.match_forced, Ffmpegfe.or_else.
  destruct (Ffmpegfe.eat ".forced" s) as [t|] eqn:He.
  - apply eat_app in He. destruct (Ffmpegfe.match_sdh t) as [d|] eqn:Ht; simpl.
    + intros _. subst s. apply (shape_tag "forced" t); [left; reflexivity|].
      eapply match_sdh_shape, Ht.
    + destruct (Ffmpegfe.match_sdh s) as [d|] eqn:Hs; [|discriminate].
      intros _. eapply match_sdh_shape, Hs.
  - destruct (Ffmpegfe.match_sdh s) as [d|] eqn:Hs; [|discriminate].
    intros _. eapply match_sdh_shape, Hs.
Qed.

Lemma or_else_some {A} (x y : option A) (r : A) :
  Ffmpegfe.or_else x y = Some r -> x = Some r \/ y = Some r.
Proof. destruct x; simpl; auto. Qed.

Lemma match_lang_shape (s : string) (r : option string * (bool * bool)) :
  Ffmpegfe.match_lang s = Some r -> tail_shape s.
Proof.
  unfold Ffmpegfe.match_lang. intros H. apply or_else_some in H as [H|H].
  - destruct s as [|c0 [|c1 [|c2 t]]]; try discriminate.
    destruct (Ascii.eqb_spec c0 "."); [subst c0|discriminate].
    destruct (Py.is_lower c1) eqn:H1; [|discriminate].
    destruct (Py.is_lower c2) eqn:H2; [|discriminate]. simpl in H.
    destruct (Ffmpegfe.match_forced t) as [fd|] eqn:Ht; [|discriminate].
    apply (shape_tag (String c1 (String c2 EmptyString)) t).
    + right; right. exists c1, c2. auto.
    + eapply match_forced_shape, Ht.
  - destruct (Ffmpegfe.match_forced s) as [fd|] eqn:Hs; [|discriminate].
    eapply match_forced_shape, Hs.
Qed.

Lemma tag_like_no_dot (c : string) : tag_like c -> no_dot c = true.
Proof.
  intros [->|[->|(c1 & c2 & -> & H1 & H2)]]; [reflexivity..|].
  simpl. destruct (Ascii.eqb_spec c1 ".") as [->|_]; [discriminate|].
  destruct (Ascii.eqb_spec c2 ".") as [->|_]; [discriminate|]. reflexivity.
Qed.

Lemma tail_shape_dot (s : string) : tail_shape s -> exists r, s = String "." r.
Proof. intros [| |c rest _ _]; eexists; reflexivity. Qed.

(** A text without dots cannot be cut in front of a dot. *)
Lemma no_dot_not_cut (s q t : string) :
  no_dot s = true -> s <> q +:+ String "." t.
Proof.
  revert q. induction s as [|a s IH]; intros q H E.
  - destruct q; discriminate.
  - simpl in H. apply andb_true_iff in H as [Ha Hs].
    destruct q as [|b q].
    + injection E as -> _. discriminate.
    + rewrite str_app_cons in E. injection E as _ E. exact (IH q Hs E).
Qed.

(** Where a dot-free component is followed by a dot, a cut in front of a
    dot falls after the component. *)
Lemma cut_after_component (c r q t : string) :
  no_dot c = true ->
  c +:+ String "." r = q +:+ String "." t ->
  exists q', q = c +:+ q' /\ String "." r = q' +:+ String "." t.
Proof.
  revert q. induction c as [|a c IH]; intros q H E.
  - exists q. auto.
  - simpl in H. apply andb_true_iff in H as [Ha Hc].
    rewrite str_app_cons in E. destruct q as [|b q].
    + injection E as -> _. discriminate.
    + rewrite str_app_cons in E. injection E as -> E.
      destruct (IH q Hc E) as (q' & -> & E'). exists q'. auto.
Qed.

(** A cut of a well-shaped tail in front of a dot leaves, on the left,
    nothing or a text that ends with a tag. *)
Lemma tail_shape_cut (s : string) :
  tail_shape s ->
  forall q t, s = q +:+ String "." t ->
    q = EmptyString \/ exists q' c, tag_like c /\ q = q' +:+ String "." c.
Proof.
  induction 1 as [| |c rest Hc Hrest IH]; intros q t E.
  - destruct q as [|b q]; [left; reflexivity|].
    rewrite str_app_cons in E. injection E as _ E.
    exfalso. exact (no_dot_not_cut "srt" q t eq_refl E).
  - destruct q as [|b q]; [left; reflexivity|].
    rewrite str_app_cons in E. injection E as _ E.
    exfalso.
    exact (no_dot_not_cut ("srt" +:+ String Ffmpegfe.newline EmptyString) q t eq_refl E).
  - destruct q as [|b q]; [left; reflexivity|].
    rewrite str_app_cons in E. injection E as <- E.
    destruct (tail_shape_dot rest Hrest) as [r ->].
    destruct (cut_after_component c r q t (tag_like_no_dot c Hc) E) as (q' & -> & E').
    right. destruct (IH q' t E') as [->|(q'' & c' & Hc' & ->)].
    + exists EmptyString, c. rewrite str_app_nil_r. auto.
    + exists (String "." (c +:+ q'')), c'. split; [exact Hc'|].
      rewrite !str_app_cons, str_app_assoc. reflexivity.
Qed.

Lemma plain_stem_suffix (stem p q t : string) (r : option string * (bool * bool)) :
  plain_stem stem -> stem = p +:+ q -> q <> EmptyString ->
  Ffmpegfe.match_lang (q +:+ String "." t) = Some r -> False.
Proof.
  intros Hplain -> Hq Hm. apply match_lang_shape in Hm.
  destruct (tail_shape_cut _ Hm q t eq_refl) as [->|(q' & c & Hc & ->)]; [congruence|].
  apply (Hplain (p +:+ q') c Hc). rewrite str_app_assoc. reflexivity.
Qed.

Lemma match_name_stem (stem t : string) (r : option string * (bool * bool)) :
  stem <> EmptyString -> no_newline stem = true ->
  (forall p q r', stem = p +:+ q -> p <> EmptyString -> q <> EmptyString ->
                  Ffmpegfe.match_lang (q +:+ t) = Some r' -> False) ->
  Ffmpegfe.match_lang t = Some r ->
  Ffmpegfe.match_name (stem +:+ t) = Some r.
Proof.
  intros Hne Hnl Hcut Ht. induction stem as [|a stem IH]; [congruence|].
  simpl in Hnl. apply andb_true_iff in Hnl as [Ha Hnl].
  rewrite str_app_cons. simpl.
  destruct (Ascii.eqb a Ffmpegfe.newline); [discriminate|].
  destruct stem as [|b stem].
  - change (EmptyString +:+ t) with t. rewrite Ht. reflexivity.
  - destruct (Ffmpegfe.match_lang (String b stem +:+ t)) as [r'|] eqn:Hm.
    + exfalso. apply (Hcut (String a EmptyString) (String b stem) r'); try discriminate; auto.
    + simpl. apply IH; [discriminate | exact Hnl |].
      intros p q r' E Hp Hq. apply (Hcut (String a p) q r'); try discriminate; auto.
      rewrite str_app_cons, E. reflexivity.
Qed.

Lemma match_lang_suffix (language : option string) (forced sdh : bool) :
  (forall l, language = Some l -> two_letters l) ->
  Ffmpegfe.match_lang (srt_suffix language forced sdh) = Some (language, (forced, sdh)).
Proof.
  intros Hl. destruct language as [l|].
  - destruct (Hl l eq_refl) as (c1 & c2 & -> & H1 & H2).
    unfold srt_suffix, Ffmpegfe.match_lang. rewrite !str_app_cons.
    change (EmptyString +:+ flags_suffix forced sdh) with (flags_suffix forced sdh).
    rewrite H1, H2. simpl.
    destruct forced, sdh; reflexivity.
  - destruct forced, sdh; reflexivity.
Qed.

Lemma wizard_classify (filename stem : string) (language : option string)
    (forced sdh : bool) :
  Py.lower filename = stem +:+ srt_suffix language forced sdh ->
  stem <> EmptyString -> no_newline stem = true -> plain_stem stem ->
  (forall l, language = Some l -> two_letters l) ->
  Ffmpegfe.classify filename = Some (default "en" language, flag forced, flag sdh).
Proof.
  intros Hname Hne Hnl Hplain Hl. unfold Ffmpegfe.classify. rewrite Hname.
  assert (exists t, srt_suffix language forced sdh = String "." t) as [t Ht].
  { destruct language as [l|]; [eexists; reflexivity|]. apply flags_suffix_dot. }
  rewrite (match_name_stem stem _ (language, (forced, sdh)) Hne Hnl).
  - destruct forced, sdh; reflexivity.
  - intros p q r' E Hp Hq Hm. rewrite Ht in Hm.
    exact (plain_stem_suffix stem p q t r' Hplain E Hq Hm).
  - apply match_lang_suffix, Hl.
Qed.

Lemma no_newline_lower (s : string) :
  no_newline s = true -> no_newline (Py.lower s) = true.
Proof.
  induction s as [|a s IH]; [reflexivity|]. simpl.
  intros H. apply andb_true_iff in H as [Ha Hs]. rewrite (IH Hs), andb_true_r.
  unfold Py.lower_char. destruct (Py.is_upper a) eqn:Hu; [|exact Ha].
  destruct a as [[] [] [] [] [] [] [] []]; try discriminate; reflexivity.
Qed.

Lemma no_dot_plain_stem (stem : string) : no_dot stem = true -> plain_stem stem.
Proof. intros H p c _. apply no_dot_not_cut, H. Qed.

End SubtitleNames.

Section Determinism.
Import Movieconvert.

Lemma encode_trace w p s :
  exists evs,
    trace (snd (encode w p s)) = trace s ++ Encode (cmd p) :: evs
    /\ Forall (fun e => ~ is_encode e) evs
    /\ (forall u s', encode w p s = (Ok u, s') -> trace s' = trace s ++ [Encode (cmd p)]).
Proof.
  unfold encode, bindM, emit, stop. simpl.
  destruct (encoder_status w =? 0); simpl.
  - exists []. split; [reflexivity|]. split; [constructor|]. intros u s' [= _ <-]. reflexivity.
  - exists [PrintEncoderError (cmd p) (encoder_status w)].
    rewrite <- List.app_assoc. split; [reflexivity|].
    split; [repeat constructor; simpl; tauto|]. intros u s' [=].
Qed.

Lemma run_encodes_plan a w existing c :
  In (Encode c) (trace (snd (run a w existing))) ->
  exists p s1, prepare a w (State existing []) = (Ok p, s1) /\ c = cmd p.
Proof.
  unfold run, main, bindM.
  destruct (prepare_state a w existing) as (_ & Ht).
  destruct (prepare a w (State existing [])) as [[p|h] s1]; simpl in Ht.
  - intros Hin. exists p, s1. split; [reflexivity|].
    destruct (confirm_conversational a w s1) as (evs & Hct & Hevs).
    assert (Forall (fun e => ~ is_encode e) (trace (snd (confirm a w s1)))) as Hall.
    { rewrite Hct. apply Forall_app. split.
      - eapply Forall_impl; [exact Ht|].
        intros e He. apply conversational_not_encode, informational_conversational, He.
      - eapply Forall_impl; [exact Hevs|]. apply conversational_not_encode. }
    destruct (confirm a w s1) as [[[]|h] s2]; simpl in Hall.
    + destruct (encode_trace w p s2) as (evs2 & Het & Hevs2 & Hok).
      assert (In (Encode c) (trace s2 ++ Encode (cmd p) :: evs2)
              \/ exists evs3, Forall (fun e => ~ is_encode e) evs3
                   /\ In (Encode c) ((trace s2 ++ [Encode (cmd p)]) ++ evs3)) as Hcases.
      { destruct (encode w p s2) as [[[]|h] s3] eqn:He; simpl in *.
        - right. destruct (cleanup_never_encodes a p s3) as (evs3 & Hc3 & Hevs3).
          exists evs3. split; [exact Hevs3|].
          rewrite <- (Hok tt s3 eq_refl), <- Hc3. exact Hin.
        - left. rewrite <- Het. exact Hin. }
      rewrite List.Forall_forall in Hall, Hevs2.
      destruct Hcases as [H|(evs3 & Hevs3 & H)].
      * apply in_app_iff in H as [H|[H|H]].
        -- destruct (Hall _ H I).
        -- congruence.
        -- destruct (Hevs2 _ H I).
      * rewrite List.Forall_forall in Hevs3.
        apply in_app_iff in H as [H|H]; [|destruct (Hevs3 _ H I)].
        apply in_app_iff in H as [H|[H|[]]]; [destruct (Hall _ H I) | congruence].
    + simpl in Hin. rewrite List.Forall_forall in Hall. destruct (Hall _ Hin I).
  - simpl. intros Hin. rewrite List.Forall_forall in Ht. apply Ht in Hin. destruct Hin.
Qed.

Lemma os_listdir_ext w1 w2 d :
  (forall d, listing w1 d = listing w2 d) -> os_listdir w1 d = os_listdir w2 d.
Proof. intros H. unfold os_listdir. rewrite (H d). reflexivity. Qed.

(** Claim C3.  Two runs with the same options and the same existing
    files, in worlds with the same directory listings and the same
    inspection output, decide the same plan (output file, counter,
    subtitle files, selected streams, argument list) and print the same
    report, whatever the operator types and however the encoder ends; and
    if both start the encoder, they start it with the same arguments. *)
Theorem plan_is_deterministic a w1 w2 existing :
  (forall d, listing w1 d = listing w2 d) ->
  probe w1 = probe w2 ->
  prepare a w1 (State existing []) = prepare a w2 (State existing [])
  /\ forall c1 c2,
       In (Encode c1) (trace (snd (run a w1 existing))) ->
       In (Encode c2) (trace (snd (run a w2 existing))) ->
       c1 = c2.
Proof.
  intros Hl Hp.
  assert (prepare a w1 = prepare a w2) as Heq.
  { unfold prepare. rewrite Hp.
    rewrite (os_listdir_ext w1 w2 (subtitle_directory (input a)) Hl). reflexivity. }
  split; [rewrite Heq; reflexivity|].
  intros c1 c2 H1 H2.
  apply run_encodes_plan in H1 as (p1 & s1 & E1 & ->).
  apply run_encodes_plan in H2 as (p2 & s2 & E2 & ->).
  rewrite Heq in E1. congruence.
Qed.

End Determinism.


Section Claims.
Import Movieconvert.

(** Claim C1, as amended.  A CRF text whose integer value lies outside
    0..51, or that is no integer at all, is rejected by the converter of the
    option, so the argument parser ends the run with status 2 after its
    usage message; an integer within 0..51 is accepted unchanged and
    reaches [main] as it is. *)
Theorem crf_rejection_is_a_usage_error a w existing value :
  crf_text a = Some value ->
  (forall ivalue, Py.int value = Some ivalue -> ivalue < 0 \/ 51 < ivalue ->
     run a w existing = (Halt (Exited 2), State existing [UsageError value]))
  /\ (Py.int value = None ->
      run a w existing = (Halt (Exited 2), State existing [UsageError value]))
  /\ (forall ivalue, Py.int value = Some ivalue -> 0 <= ivalue <= 51 ->
      crf_range value = CrfValue ivalue
      /\ bindM (parse_crf (crf_text a)) (validate_crf (video_codec a)) (State existing [])
         = (Ok (Some ivalue), State existing [])).
Proof.
  intros Htext.
  assert (Hreject : (forall iv, crf_range value <> CrfValue iv) ->
            run a w existing = (Halt (Exited 2), State existing [UsageError value])).
  { intros Hno. unfold run, main, prepare, bindM, parse_crf. rewrite Htext.
    destruct (crf_range value) as [iv| |m]; [destruct (Hno iv eq_refl)|reflexivity..]. }
  split; [|split].
  - intros iv Hint Hout. apply Hreject. intros iv' E.
    apply crf_range_value in E as [E ?]. rewrite Hint in E. injection E as ->. lia.
  - intros Hint. apply Hreject. intros iv' E.
    apply crf_range_value in E as [E ?]. congruence.
  - intros iv Hint Hin.
    assert (crf_range value = CrfValue iv) as Hv.
    { unfold crf_range. rewrite Hint.
      destruct (Z.ltb_spec iv 0), (Z.ltb_spec 51 iv); simpl; try lia. reflexivity. }
    split; [exact Hv|].
    unfold bindM, parse_crf. rewrite Htext, Hv. simpl.
    destruct (Z.ltb_spec iv 0), (Z.ltb_spec 51 iv); simpl; try lia. reflexivity.
Qed.

(** [-c 52] is such a text. *)
Lemma crf_rejection_witness :
  crf_text Sample.options_crf_52 = Some "52"
  /\ run Sample.options_crf_52 Sample.world_success Sample.existing
     = (Halt (Exited 2), State Sample.existing [UsageError "52"]).
Proof.
  split; [reflexivity|].
  refine (proj1 (crf_rejection_is_a_usage_error Sample.options_crf_52 Sample.world_success
                   Sample.existing "52" eq_refl) 52 eq_refl _).
  right. lia.
Defined.

(** Against claim C1 as stated: [-c 52] ends the run with status 2, not 1. *)
Lemma crf_52_does_not_exit_with_1 :
  fst (run Sample.options_crf_52 Sample.world_success Sample.existing) = Halt (Exited 2)
  /\ fst (run Sample.options_crf_52 Sample.world_success Sample.existing) <> Halt (Exited 1).
Proof. split; [vm_compute; reflexivity | vm_compute; discriminate]. Qed.

(** Claim C2, as amended.  For a file named after the input with an
    optional language code, [.forced], [.sdh] and [.srt] (in any case):
    the batch tool reports the language [eng] whatever the code says, and
    sets [forced] and [sdh] exactly when the tags are there; the wizard
    reports the two-letter code ([en] without one) and the same two flags,
    provided the name of the input does not itself end in something that
    reads as a tag. *)
Theorem subtitle_names_classified :
  (forall base_name rest language forced sdh,
     Py.lower rest = srt_suffix language forced sdh ->
     (forall l, language = Some l -> no_dot l = true /\ l <> "forced" /\ l <> "sdh") ->
     lang (classify base_name (base_name +:+ rest)) = "eng"
     /\ Movieconvert.forced (classify base_name (base_name +:+ rest)) = flag forced
     /\ Movieconvert.sdh (classify base_name (base_name +:+ rest)) = flag sdh)
  /\ (forall base_name rest language forced sdh,
      Py.lower rest = srt_suffix language forced sdh ->
      base_name <> EmptyString ->
      no_newline base_name = true ->
      plain_stem (Py.lower base_name) ->
      (forall l, language = Some l -> two_letters l) ->
      Ffmpegfe.classify (base_name +:+ rest)
      = Some (default "en" language, flag forced, flag sdh)).
Proof.
  split.
  - apply batch_classify.
  - intros base_name rest language forced sdh Hrest Hne Hnl Hplain Hl.
    apply (wizard_classify _ (Py.lower base_name)); auto.
    + rewrite lower_app, Hrest. reflexivity.
    + destruct base_name; [congruence | discriminate].
    + apply no_newline_lower, Hnl.
Qed.

(** [Movie.EN.Forced.srt] next to [Movie.mkv]. *)
Lemma subtitle_names_witness :
  Py.lower ".EN.Forced.srt" = srt_suffix (Some "en") true false
  /\ lang (classify "Movie" "Movie.EN.Forced.srt") = "eng"
  /\ Movieconvert.forced (classify "Movie" "Movie.EN.Forced.srt") = 1
  /\ Movieconvert.sdh (classify "Movie" "Movie.EN.Forced.srt") = 0
  /\ Ffmpegfe.classify "Movie.EN.Forced.srt" = Some ("en", 1, 0).
Proof.
  split; [reflexivity|].
  destruct subtitle_names_classified as [Hbatch Hwizard].
  destruct (Hbatch "Movie" ".EN.Forced.srt" (Some "en") true false eq_refl) as (H1 & H2 & H3).
  { intros l [= <-]. split; [reflexivity|]. split; discriminate. }
  split; [exact H1|]. split; [exact H2|]. split; [exact H3|].
  apply (Hwizard "Movie" ".EN.Forced.srt" (Some "en") true false eq_refl).
  - discriminate.
  - reflexivity.
  - apply no_dot_plain_stem. reflexivity.
  - intros l [= <-]. exists "e"%char, "n"%char. split; [reflexivity|]. split; reflexivity.
Defined.

(** Against claim C2 as stated: the batch tool labels [movie.fr.srt]
    as English. *)
Lemma french_subtitle_labelled_english :
  Py.lower ".fr.srt" = srt_suffix (Some "fr") false false
  /\ lang (classify "movie" "movie.fr.srt") = "eng"
  /\ lang (classify "movie" "movie.fr.srt") <> "fr".
Proof. split; [reflexivity|]. split; [reflexivity|]. vm_compute. discriminate. Qed.

End Claims.

Section MoreClaims.
Import Movieconvert.

(** Two worlds that differ in the answer and in the fate of the encoder. *)
Lemma plan_is_deterministic_witness :
  (forall d, listing Sample.world_declined d = listing Sample.world_encoder_fails d)
  /\ probe Sample.world_declined = probe Sample.world_encoder_fails
  /\ prepare Sample.options Sample.world_declined (State Sample.existing [])
     = prepare Sample.options Sample.world_encoder_fails (State Sample.existing []).
Proof.
  split; [intros d; reflexivity|]. split; [reflexivity|].
  exact (proj1 (plan_is_deterministic Sample.options Sample.world_declined
                  Sample.world_encoder_fails Sample.existing
                  (fun d => eq_refl) eq_refl)).
Defined.

(** The operator answers [n]. *)
Lemma declined_confirmation_witness :
  no_prompt Sample.options = false
  /\ stdin Sample.world_declined = Some "n"
  /\ Py.lower (Py.strip "n") <> "y"
  /\ files (snd (run Sample.options Sample.world_declined Sample.existing)) = Sample.existing
  /\ fst (run Sample.options Sample.world_declined Sample.existing) = Halt (Exited 0).
Proof.
  assert (Py.lower (Py.strip "n") <> "y") as Hn by discriminate.
  destruct (declined_confirmation_exits_cleanly Sample.options Sample.world_declined
              Sample.existing "n" eq_refl eq_refl Hn) as (Hf & _ & Hexit).
  split; [reflexivity|]. split; [reflexivity|]. split; [exact Hn|]. split; [exact Hf|].
  apply Hexit. vm_compute. tauto.
Defined.

(** The operator answers [y] and the encoder exits with status 1: the run
    ends with [sys.exit(1)], and the last two things it did were to start
    the encoder and to print its failure. *)
Lemma encoder_failure_witness :
  encoder_status Sample.world_encoder_fails <> 0
  /\ files (snd (run Sample.options Sample.world_encoder_fails Sample.existing))
     = Sample.existing
  /\ Forall keeps_every_file
       (trace (snd (run Sample.options Sample.world_encoder_fails Sample.existing)))
  /\ fst (run Sample.options Sample.world_encoder_fails Sample.existing) = Halt (Exited 1)
  /\ exists c before,
       trace (snd (run Sample.options Sample.world_encoder_fails Sample.existing))
       = before ++ [Prompt prompt_text; Encode c; PrintEncoderError c 1].
Proof.
  assert (encoder_status Sample.world_encoder_fails <> 0) as Hrc by discriminate.
  destruct (encoder_failure_is_terminal Sample.options Sample.world_encoder_fails
              Sample.existing Hrc) as (Hf & Hk & _ & Hrun).
  assert (exists p s1,
            prepare Sample.options Sample.world_encoder_fails (State Sample.existing [])
            = (Ok p, s1)) as (p & s1 & Hp).
  { vm_compute. eexists. eexists. reflexivity. }
  assert (exists line, stdin Sample.world_encoder_fails = Some line
                       /\ Py.lower (Py.strip line) = "y") as Hyes.
  { exists "y". split; reflexivity. }
  specialize (Hrun p s1 Hp (or_intror Hyes)).
  split; [exact Hrc|]. split; [exact Hf|]. split; [exact Hk|].
  rewrite Hrun. split; [reflexivity|].
  exists (cmd p), (trace s1). simpl. rewrite <- List.app_assoc. reflexivity.
Defined.

(** No file exists at all. *)
Lemma missing_input_witness :
  (input Sample.options ∉ (∅ : gset string))
  /\ crf_accepted Sample.options
  /\ run Sample.options Sample.world_success ∅
     = (Halt (Exited 1), State ∅ [Print "Error: Cannot read file '/v/movie.mkv'"]).
Proof.
  assert (input Sample.options ∉ (∅ : gset string)) as Hin by apply not_elem_of_empty.
  split; [exact Hin|]. split; [exact I|].
  exact (missing_input_stops_before_any_process Sample.options Sample.world_success ∅ Hin I).
Defined.

(** Against claim C7 as stated: [/v/movie.mkv] exists but cannot be read.
    The test of line 58 lets it pass, the inspection is started and fails
    on it (it prints an object without a stream list, or nothing that
    parses), and the run ends without a message and with status 0. *)
Lemma unreadable_input_is_inspected :
  input Sample.options ∈ Sample.existing
  /\ run Sample.options Sample.world_unreadable Sample.existing
     = (Halt Returned, State Sample.existing [Probe (ffprobe_cmd Sample.movie)])
  /\ run Sample.options Sample.world_probe_fails Sample.existing
     = (Halt Returned, State Sample.existing [Probe (ffprobe_cmd Sample.movie)])
  /\ exit_status Returned = Some 0
  /\ fst (run Sample.options Sample.world_unreadable Sample.existing) <> Halt (Exited 1).
Proof.
  split; [apply elem_of_union_l, elem_of_singleton; reflexivity|].
  split; [vm_compute; reflexivity|]. split; [vm_compute; reflexivity|].
  split; [reflexivity|]. vm_compute. discriminate.
Qed.

(** Claim C4, at an inspection output that does not parse: the batch
    tool returns from [main] right after the inspection, with nothing
    printed and exit status 0; the wizard stops with an uncaught
    [ValueError] when it unpacks the two-item result. *)
Theorem probe_failure_is_not_reported :
  run Sample.options Sample.world_probe_fails Sample.existing
  = (Halt Returned, State Sample.existing [Probe (ffprobe_cmd Sample.movie)])
  /\ exit_status Returned = Some 0
  /\ Ffmpegfe.run [Sample.movie] Sample.world_probe_fails Sample.existing
     = (Halt (Raised ValueError), State Sample.existing [Probe (ffprobe_cmd Sample.movie)]).
Proof. split; [vm_compute; reflexivity|]. split; [reflexivity | vm_compute; reflexivity]. Qed.

(** Claim C8, with [-s -d -y] and a subtitle file next to the input: the
    conversion succeeds, the subtitle file is not among the arguments of
    the encoder, and it is removed all the same. *)
Theorem unused_subtitle_file_is_deleted :
  exists command,
    In (Encode command)
       (trace (snd (run Sample.options_no_subtitles_delete Sample.world_success
                      Sample.existing)))
    /\ ~ In "/v/movie.srt" command
    /\ In (Remove "/v/movie.srt")
          (trace (snd (run Sample.options_no_subtitles_delete Sample.world_success
                         Sample.existing)))
    /\ fst (run Sample.options_no_subtitles_delete Sample.world_success Sample.existing)
       = Ok tt.
Proof.
  eexists. split; [vm_compute; repeat (first [left; reflexivity | right])|].
  split; [|split; [vm_compute; tauto | vm_compute; reflexivity]].
  vm_compute. intuition discriminate.
Qed.

(** Claim C9.  The loop that picks the output name always ends, on the
    first name of [base.container], [base.1.container],
    [base.2.container], ... that is not an existing file; the state is
    left as it was. *)
Theorem output_name_is_first_free base cont existing log :
  exists n : nat,
    choose_output base cont (State existing log)
    = (Ok (candidate base cont (Z.of_nat n), Z.of_nat n + 1), State existing log)
    /\ (candidate base cont (Z.of_nat n) ∉ existing)
    /\ forall i, (i < n)%nat -> candidate base cont (Z.of_nat i) ∈ existing.
Proof.
  destruct (next_free_spec base cont existing (S (size existing)) 0) as (n & Hn & Hfree & Hbefore).
  - lia.
  - intros i Hi. lia.
  - exists n. unfold choose_output. simpl files.
    change (base +:+ "." +:+ cont) with (candidate base cont (Z.of_nat 0)).
    change 1 with (Z.of_nat 0 + 1). rewrite Hn. auto.
Qed.

(** Claim C10, at an input path without a directory part: the directory
    is the empty path, listing it raises, and [get_srt_filenames] returns
    no list at all; the batch tool lists [.] there. *)
Theorem bare_file_name_raises w s :
  OsPath.dirname "movie.mp4" = EmptyString
  /\ Ffmpegfe.get_srt_filenames w "movie.mp4" s = (Halt (Raised FileNotFoundError), s)
  /\ subtitle_directory "movie.mp4" = ".".
Proof. split; [reflexivity|]. split; reflexivity. Qed.

End MoreClaims.

(** * Further properties *)

(** ** What a plan is made of *)

Section Plans.
Import Movieconvert.

Lemma parse_crf_ok text s c s' :
  parse_crf text s = (Ok c, s') -> s' = s.
Proof.
  unfold parse_crf. destruct text as [value|]; [|intros [= _ <-]; reflexivity].
  destruct (crf_range value); [intros [= _ <-]; reflexivity|discriminate..].
Qed.

Lemma validate_crf_ok vc c s c' s' :
  validate_crf vc c s = (Ok c', s') -> s' = s.
Proof.
  unfold validate_crf. destruct c as [v|]; [|intros [= _ <-]; reflexivity].
  destruct ((v <? 0) || (51 <? v)); [discriminate|intros [= _ <-]; reflexivity].
Qed.

Lemma find_subfile_ok base s : exists r, find_subfile base s = (Ok r, s).
Proof.
  unfold find_subfile, bindM, isfile, ret.
  repeat (case_bool_decide; [eexists; reflexivity|]). eexists; reflexivity.
Qed.

Lemma os_listdir_ok w d s names s' :
  os_listdir w d s = (Ok names, s') -> s' = s /\ listing w d = Some names.
Proof.
  unfold os_listdir. destruct (String.eqb d EmptyString); [discriminate|].
  destruct (listing w d); [intros [= <- <-]; auto|discriminate].
Qed.

Lemma prepare_ok a w existing p s1 :
  prepare a w (State existing []) = (Ok p, s1) ->
  exists crf names streams,
    bindM (parse_crf (crf_text a)) (validate_crf (video_codec a)) (State existing [])
    = (Ok crf, State existing [])
    /\ input a ∈ existing
    /\ next_free (S (size existing)) existing (fst (OsPath.splitext (input a)))
         (container_name (container a))
         (fst (OsPath.splitext (input a)) +:+ "." +:+ container_name (container a)) 1
       = Some (output_file p, counter p)
    /\ listing w (subtitle_directory (input a)) = Some names
    /\ subfiles_in p
       = scan_subfiles (subtitle_directory (input a)) (subtitle_base_name (input a)) names 1
    /\ probe w = JsonObject (Some streams)
    /\ add_streams a no_streams streams = Ok (selected p)
    /\ build_cmd a crf (output_file p) (subfiles_in p) (selected p) = Ok (cmd p).
Proof.
  unfold prepare, bindM. intros H.
  destruct (parse_crf (crf_text a) (State existing [])) as [[c0|h] s] eqn:E1; [|discriminate].
  apply parse_crf_ok in E1 as ->.
  destruct (validate_crf (video_codec a) c0 (State existing [])) as [[crf|h] s] eqn:E2;
    [|discriminate].
  apply validate_crf_ok in E2 as ->.
  unfold isfile in H. simpl in H.
  case_bool_decide as Hin; simpl in H; [|discriminate].
  unfold choose_output in H. simpl files in H.
  destruct (next_free _ _ _ _ _ _) as [[o c]|] eqn:E3; [|discriminate].
  destruct (find_subfile_ok (fst (OsPath.splitext (input a))) (State existing [])) as [r E4].
  rewrite E4 in H.
  destruct (os_listdir w _ _) as [[names|h] s] eqn:E5; [|discriminate].
  apply os_listdir_ok in E5 as [-> E5].
  unfold emit in H. simpl in H.
  destruct (probe w) as [|[streams|]|] eqn:E6; try discriminate.
  unfold lift in H.
  destruct (add_streams a no_streams streams) as [b|h] eqn:E7; [|discriminate].
  destruct (report_input _ _ _ _) as [[[]|h] s2]; [|discriminate].
  destruct (report_output _ _ _ _ _) as [[[]|h] s3]; [|discriminate].
  destruct (build_cmd a crf o _ b) as [command|h] eqn:E8; [|discriminate].
  assert (p = Plan o c
                (scan_subfiles (subtitle_directory (input a))
                   (subtitle_base_name (input a)) names 1) b command) as ->.
  { unfold print, emit, ret in H. destruct (delete a); simpl in H; congruence. }
  exists crf, names, streams. simpl. auto 10.
Qed.

End Plans.


Section EncoderArguments.
Import Movieconvert.

Lemma ends_with_last {A} (x : A) : ends_with x [x].
Proof. exists []. reflexivity. Qed.

Lemma ends_with_app {A} (x : A) (l1 l2 : list A) : ends_with x l2 -> ends_with x (l1 ++ l2).
Proof. intros [m ->]. exists (l1 ++ m). rewrite List.app_assoc. reflexivity. Qed.

Lemma ends_with_cons {A} (x y : A) (l : list A) : ends_with x l -> ends_with x (y :: l).
Proof. intros [m ->]. exists (y :: m). reflexivity. Qed.

Lemma build_cmd_ends a crf out subfiles b command :
  build_cmd a crf out subfiles b = Ok command ->
  exists middle, command = ["ffmpeg"; "-i"; input a] ++ middle ++ [out].
Proof.
  unfold build_cmd, bindR. intros H.
  repeat match type of H with
         | match ?x with _ => _ end = _ => destruct x; [|discriminate]
         end.
  injection H as <-.
  match goal with
  | |- exists middle, _ :: _ :: _ :: ?l = _ => assert (ends_with out l) as [m ->]
  end.
  { repeat first [apply ends_with_last | apply ends_with_app | apply ends_with_cons]. }
  exists m. reflexivity.
Qed.

Theorem encoder_writes_a_new_file a w existing command :
  In (Encode command) (trace (snd (run a w existing))) ->
  exists middle (n : nat),
    command
    = ["ffmpeg"; "-i"; input a] ++ middle
      ++ [candidate (fst (OsPath.splitext (input a))) (container_name (container a))
            (Z.of_nat n)]
    /\ (candidate (fst (OsPath.splitext (input a))) (container_name (container a))
          (Z.of_nat n) ∉ existing)
    /\ (forall i, (i < n)%nat ->
          candidate (fst (OsPath.splitext (input a))) (container_name (container a))
            (Z.of_nat i) ∈ existing)
    /\ input a ∈ existing.
Proof.
  intros Hin. apply run_encodes_plan in Hin as (p & s1 & Hp & ->).
  apply prepare_ok in Hp as (crf & names & streams & _ & Hinput & Hfree & _ & _ & _ & _ & Hcmd).
  set (base := fst (OsPath.splitext (input a))) in *.
  set (cont := container_name (container a)) in *.
  destruct (next_free_spec base cont existing (S (size existing)) 0) as (n & Hn & Hnew & Hold).
  { lia. }
  { intros i Hi. lia. }
  assert (candidate base cont (Z.of_nat 0) = base +:+ "." +:+ cont) as E0 by reflexivity.
  rewrite E0 in Hn. clear E0.
  replace (Z.of_nat 0 + 1) with 1 in Hn by reflexivity.
  rewrite Hfree in Hn. injection Hn as Ho Hc.
  apply build_cmd_ends in Hcmd as [middle Hcmd].
  rewrite Ho in Hcmd. exists middle, n.
  split; [exact Hcmd|]. split; [exact Hnew|]. split; [exact Hold | exact Hinput].
Qed.

End EncoderArguments.

Section CleanUp.
Import Movieconvert.

Lemma emits_only_for_each_in (P : event -> Prop) {A} (l : list A) (body : A -> M unit) :
  (forall x, In x l -> emits_only P (body x)) -> emits_only P (for_each l body).
Proof.
  induction l as [|x l IH]; intros H; simpl.
  - apply emits_only_ret.
  - apply emits_only_bind.
    + apply H. left. reflexivity.
    + intros _. apply IH. intros y Hy. apply H. right. exact Hy.
Qed.

Lemma delete_subfile_events a p file :
  delete a = true -> In file (subfiles_in p) ->
  emits_only (cleanup_event a p) (delete_subfile file).
Proof.
  intros Hd Hin. unfold delete_subfile.
  destruct (Val.get file "filename") as [[| |path]|] eqn:E; try apply emits_only_ret.
  apply emits_only_bind; [apply emits_only_isfile|]. intros present.
  destruct (negb (String.eqb path EmptyString) && present); [|apply emits_only_ret].
  apply emits_only_bind; [apply emits_only_emit; exact I|]. intros _.
  apply emits_only_remove. simpl. split; [exact Hd|]. right. exists file. auto.
Qed.

Lemma cleanup_events a p : emits_only (cleanup_event a p) (cleanup a p).
Proof.
  unfold cleanup. destruct (delete a) eqn:Hd; [|apply emits_only_ret].
  apply emits_only_bind; [apply emits_only_isfile|]. intros present.
  apply emits_only_bind.
  { destruct (negb (String.eqb (input a) EmptyString) && present); [|apply emits_only_ret].
    apply emits_only_bind; [apply emits_only_emit; exact I|]. intros _.
    apply emits_only_remove. simpl. rewrite Hd. auto. }
  intros _. destruct (OsPath.splitext (output_file p)) as [output_base output_ext].
  apply emits_only_bind.
  { destruct (_ && _); [|apply emits_only_ret].
    apply emits_only_bind; [apply emits_only_emit; exact I|]. intros _.
    apply emits_only_rename. simpl. rewrite Hd. auto. }
  intros _. apply emits_only_for_each_in. intros file Hin.
  apply delete_subfile_events; assumption.
Qed.

(** A removal or a renaming in a run is the clean-up of its plan, after a
    successful encoder. *)
Lemma run_file_change a w existing e :
  changes_files e ->
  In e (trace (snd (run a w existing))) ->
  exists p s1,
    prepare a w (State existing []) = (Ok p, s1)
    /\ encoder_status w = 0
    /\ cleanup_event a p e.
Proof.
  intros He. unfold run, main, bindM.
  destruct (prepare_state a w existing) as (_ & Ht).
  destruct (prepare a w (State existing [])) as [[p|h] s1]; simpl in Ht.
  - intros Hin. exists p, s1. split; [reflexivity|].
    destruct (confirm_conversational a w s1) as (evs & Hct & Hevs).
    assert (Forall conversational (trace (snd (confirm a w s1)))) as Hall.
    { rewrite Hct. apply Forall_app. split; [|exact Hevs].
      eapply Forall_impl; [exact Ht|]. apply informational_conversational. }
    rewrite List.Forall_forall in Hall.
    destruct (confirm a w s1) as [[[]|h] s2]; simpl in Hall.
    + unfold encode, bindM, emit, stop in Hin. simpl in Hin.
      destruct (Z.eqb_spec (encoder_status w) 0) as [Hrc|Hrc]; simpl in Hin.
      * split; [exact Hrc|].
        destruct (cleanup_events a p
                    (State (files s2 ∪ {[output_file p]}) (trace s2 ++ [Encode (cmd p)])))
          as (evs3 & Hc3 & Hevs3).
        rewrite Hc3 in Hin. simpl in Hin.
        apply in_app_iff in Hin as [Hin|Hin].
        -- apply in_app_iff in Hin as [Hin|[<-|[]]]; [|destruct He].
           apply Hall in Hin. destruct e; simpl in He, Hin; contradiction.
        -- rewrite List.Forall_forall in Hevs3. apply Hevs3, Hin.
      * exfalso. rewrite <- List.app_assoc in Hin.
        apply in_app_iff in Hin as [Hin|[<-|[<-|[]]]]; try destruct He.
        apply Hall in Hin. destruct e; simpl in He, Hin; contradiction.
    + exfalso. simpl in Hin. apply Hall in Hin. destruct e; simpl in He, Hin; contradiction.
  - simpl. intros Hin. exfalso. rewrite List.Forall_forall in Ht. apply Ht in Hin.
    destruct e; simpl in He, Hin; contradiction.
Qed.

Lemma scan_subfiles_filename directory base_name names i file path :
  In file (scan_subfiles directory base_name names i) ->
  Val.get file "filename" = Some (VStr path) ->
  exists filename,
    In filename names /\ is_subfile base_name filename = true
    /\ path = OsPath.join directory filename.
Proof.
  revert i. induction names as [|name names IH]; intros i Hin Hget; [destruct Hin|].
  simpl in Hin. destruct (is_subfile base_name name) eqn:Hsub.
  - destruct Hin as [<-|Hin].
    + injection Hget as <-. exists name. split; [left; reflexivity|]. auto.
    + destruct (IH _ Hin Hget) as (f & Hf & Hs & ->). exists f. split; [right; exact Hf|]. auto.
  - destruct (IH _ Hin Hget) as (f & Hf & Hs & ->). exists f. split; [right; exact Hf|]. auto.
Qed.

(** A run removes nothing but the input file and subtitle files it found
    next to it, renames nothing but its own output, and does either only
    with [-d] and after a successful encoder. *)
Theorem removals_are_confined a w existing :
  (forall path, In (Remove path) (trace (snd (run a w existing))) ->
     delete a = true /\ encoder_status w = 0
     /\ (path = input a
         \/ exists names filename,
              listing w (subtitle_directory (input a)) = Some names
              /\ In filename names
              /\ is_subfile (subtitle_base_name (input a)) filename = true
              /\ path = OsPath.join (subtitle_directory (input a)) filename))
  /\ (forall src dst, In (Rename src dst) (trace (snd (run a w existing))) ->
        delete a = true /\ encoder_status w = 0
        /\ (src ∉ existing)
        /\ dst = fst (OsPath.splitext (input a)) +:+ "." +:+ container_name (container a)).
Proof.
  split.
  - intros path Hin.
    apply (run_file_change a w existing (Remove path) I) in Hin
      as (p & s1 & Hp & Hrc & Hd & Hpath).
    split; [exact Hd|]. split; [exact Hrc|].
    destruct Hpath as [->|(file & Hfile & Hget)]; [left; reflexivity|right].
    apply prepare_ok in Hp as (crf & names & streams & _ & _ & _ & Hl & Hs & _).
    rewrite Hs in Hfile.
    destruct (scan_subfiles_filename _ _ _ _ _ _ Hfile Hget) as (f & Hf & Hsub & ->).
    exists names, f. auto.
  - intros src dst Hin.
    apply (run_file_change a w existing (Rename src dst) I) in Hin
      as (p & s1 & Hp & Hrc & Hd & -> & ->).
    split; [exact Hd|]. split; [exact Hrc|]. split; [|reflexivity].
    apply prepare_ok in Hp as (crf & names & streams & _ & _ & Hfree & _).
    clear -Hfree. revert Hfree.
    generalize (fst (OsPath.splitext (input a)) +:+ "." +:+ container_name (container a)).
    generalize 1. generalize (S (size existing)).
    induction n as [|n IH]; intros c o; simpl; [discriminate|].
    case_bool_decide as Ho; [apply IH|]. intros [= <- _]. exact Ho.
Qed.

End CleanUp.

Section Outcomes.
Import Movieconvert.

Lemma prepare_ext a w1 w2 :
  (forall d, listing w1 d = listing w2 d) -> probe w1 = probe w2 ->
  prepare a w1 = prepare a w2.
Proof.
  intros Hl Hp. unfold prepare. rewrite Hp.
  rewrite (os_listdir_ext w1 w2 (subtitle_directory (input a)) Hl). reflexivity.
Qed.

(** With [-y] the run never asks, and nothing it does depends on what
    standard input holds. *)
Theorem no_prompt_ignores_stdin a w1 w2 existing :
  no_prompt a = true ->
  (forall d, listing w1 d = listing w2 d) ->
  probe w1 = probe w2 ->
  encoder_status w1 = encoder_status w2 ->
  run a w1 existing = run a w2 existing
  /\ Forall (fun e => ~ is_prompt e) (trace (snd (run a w1 existing))).
Proof.
  intros Hy Hl Hp Hrc. split.
  - unfold run, main. rewrite (prepare_ext a w1 w2 Hl Hp).
    unfold confirm, encode. rewrite Hy, Hrc. reflexivity.
  - unfold run, main, bindM.
    destruct (prepare_state a w1 existing) as (_ & Ht).
    assert (Forall (fun e => ~ is_prompt e) (trace (snd (prepare a w1 (State existing [])))))
      as Hnp.
    { eapply Forall_impl; [exact Ht|]. intros e; destruct e; simpl; tauto. }
    destruct (prepare a w1 (State existing [])) as [[p|h] s1]; simpl in Hnp; [|exact Hnp].
    unfold confirm. rewrite Hy. unfold ret.
    unfold encode, bindM, emit, stop. simpl.
    destruct (encoder_status w1 =? 0); simpl.
    + destruct (cleanup_events a p
                  (State (files s1 ∪ {[output_file p]}) (trace s1 ++ [Encode (cmd p)])))
        as (evs & Hc & Hevs).
      destruct (cleanup a p _) as [r s3]. simpl in *. rewrite Hc.
      apply Forall_app. split.
      * apply Forall_app. split; [exact Hnp|]. repeat constructor. simpl. tauto.
      * eapply Forall_impl; [exact Hevs|]. intros e; destruct e; simpl; tauto.
    + rewrite <- List.app_assoc. apply Forall_app. split; [exact Hnp|].
      repeat constructor; simpl; tauto.
Qed.

(** A run reaches the end of [main] only when the operator agreed (or was
    not asked) and the encoder was started and exited with status 0; without
    [-d] the output file is then the only change to the files. *)
Theorem normal_end_means_success a w existing :
  fst (run a w existing) = Ok tt ->
  encoder_status w = 0
  /\ (no_prompt a = true
      \/ exists line, stdin w = Some line /\ Py.lower (Py.strip line) = "y")
  /\ exists p s1,
       prepare a w (State existing []) = (Ok p, s1)
       /\ In (Encode (cmd p)) (trace (snd (run a w existing)))
       /\ (delete a = false ->
           files (snd (run a w existing)) = existing ∪ {[output_file p]}).
Proof.
  unfold run, main, bindM.
  destruct (prepare_state a w existing) as (Hf & _).
  destruct (prepare a w (State existing [])) as [[p|h] s1]; simpl in Hf; [|discriminate].
  pose proof (confirm_keeps_files a w s1) as Hcf.
  assert (forall s2, confirm a w s1 = (Ok tt, s2) ->
            no_prompt a = true
            \/ exists line, stdin w = Some line /\ Py.lower (Py.strip line) = "y") as Hconfirm.
  { unfold confirm, bindM, emit, print, emit, stop, ret. intros s2.
    destruct (no_prompt a); [auto|]. simpl.
    destruct (stdin w) as [line|]; [|discriminate].
    destruct (String.eqb_spec (Py.lower (Py.strip line)) "y") as [E|_]; [|discriminate].
    intros _. right. exists line. auto. }
  destruct (confirm a w s1) as [[[]|h] s2]; simpl in Hcf; [|discriminate].
  specialize (Hconfirm s2 eq_refl).
  unfold encode, bindM, emit, stop. simpl.
  destruct (Z.eqb_spec (encoder_status w) 0) as [Hrc|Hrc]; simpl; [|discriminate].
  intros Hok. split; [exact Hrc|]. split; [exact Hconfirm|].
  exists p, s1. split; [reflexivity|]. split.
  - destruct (cleanup_events a p
                (State (files s2 ∪ {[output_file p]}) (trace s2 ++ [Encode (cmd p)])))
      as (evs & Hc & _).
    rewrite Hc. simpl. apply in_app_iff. left. apply in_app_iff. right. left. reflexivity.
  - intros Hd. unfold cleanup. rewrite Hd. simpl. congruence.
Qed.

End Outcomes.

Section SubtitleFiles.
Import Movieconvert.

Lemma scan_subfiles_enumerate directory base_name names i :
  scan_subfiles directory base_name names i
  = map (fun kf => subfile_entry directory base_name (snd kf) (fst kf))
        (enumerate_from i (List.filter (is_subfile base_name) names)).
Proof.
  revert i. induction names as [|name names IH]; intros i; [reflexivity|].
  simpl. destruct (is_subfile base_name name); simpl; rewrite IH; reflexivity.
Qed.

Lemma input_args_enumerate directory base_name found i :
  extend_each input_args
    (map (fun kf => subfile_entry directory base_name (snd kf) (fst kf))
         (enumerate_from i found))
  = Ok (flat_map (fun f => ["-f"; "srt"; "-i"; OsPath.join directory f]) found).
Proof.
  revert i. induction found as [|f found IH]; intros i; [reflexivity|].
  simpl. rewrite IH. reflexivity.
Qed.

Lemma map_file_enumerate directory base_name found (i : nat) :
  extend_each map_file
    (map (fun kf => subfile_entry directory base_name (snd kf) (fst kf))
         (enumerate_from (Z.of_nat i) found))
  = Ok (flat_map (fun k => ["-map"; Py.str_int (Z.of_nat k) +:+ ":0"])
          (seq i (length found))).
Proof.
  revert i. induction found as [|f found IH]; intros i; [reflexivity|].
  simpl. replace (Z.of_nat i + 1) with (Z.of_nat (S i)) by lia.
  rewrite IH. reflexivity.
Qed.

(** The subtitle files found next to the input, in the order of the
    directory listing, become the extra inputs of the encoder, and the
    [k]-th of them (counting from 1, the input itself being 0) is mapped as
    [k:0]. *)
Theorem subtitle_inputs_are_numbered directory base_name names :
  extend_each input_args (scan_subfiles directory base_name names 1)
  = Ok (flat_map (fun f => ["-f"; "srt"; "-i"; OsPath.join directory f])
          (List.filter (is_subfile base_name) names))
  /\ extend_each map_file (scan_subfiles directory base_name names 1)
     = Ok (flat_map (fun k => ["-map"; Py.str_int (Z.of_nat k) +:+ ":0"])
             (seq 1 (length (List.filter (is_subfile base_name) names)))).
Proof.
  rewrite scan_subfiles_enumerate. split.
  - apply input_args_enumerate.
  - apply (map_file_enumerate directory base_name _ 1).
Qed.

Lemma tag_step_invariant (t : srt_tags) (part : string) :
  lang t = "eng" ->
  lang (tag_step t part) = "eng"
  /\ (Movieconvert.forced (tag_step t part)
      = if String.eqb part "forced" then 1 else Movieconvert.forced t)
  /\ (Movieconvert.sdh (tag_step t part)
      = if String.eqb part "sdh" then 1 else Movieconvert.sdh t).
Proof.
  intros Hl. unfold tag_step.
  destruct (String.eqb_spec part "en") as [->|_]; [simpl; auto|].
  destruct (String.eqb_spec part "eng") as [->|_]; [simpl; auto|]. simpl.
  destruct (String.eqb_spec part "forced") as [->|_]; [simpl; auto|].
  destruct (String.eqb_spec part "sdh") as [->|_]; simpl; auto.
Qed.

Lemma fold_tag_step (parts : list string) (t : srt_tags) :
  lang t = "eng" ->
  (Movieconvert.forced t = 0 \/ Movieconvert.forced t = 1) ->
  (Movieconvert.sdh t = 0 \/ Movieconvert.sdh t = 1) ->
  lang (fold_left tag_step parts t) = "eng"
  /\ (Movieconvert.forced (fold_left tag_step parts t) = 1
      <-> Movieconvert.forced t = 1 \/ In "forced" parts)
  /\ (Movieconvert.forced (fold_left tag_step parts t) = 0
      \/ Movieconvert.forced (fold_left tag_step parts t) = 1)
  /\ (Movieconvert.sdh (fold_left tag_step parts t) = 1
      <-> Movieconvert.sdh t = 1 \/ In "sdh" parts)
  /\ (Movieconvert.sdh (fold_left tag_step parts t) = 0
      \/ Movieconvert.sdh (fold_left tag_step parts t) = 1).
Proof.
  revert t. induction parts as [|part parts IH]; intros t Hl Hf Hs.
  - simpl. intuition.
  - simpl. destruct (tag_step_invariant t part Hl) as (Hl' & Hf' & Hs').
    destruct (IH (tag_step t part) Hl') as (G1 & G2 & G3 & G4 & G5).
    { rewrite Hf'. destruct (String.eqb part "forced"); auto. }
    { rewrite Hs'. destruct (String.eqb part "sdh"); auto. }
    split; [exact G1|]. split; [|split; [exact G3|split; [|exact G5]]].
    + rewrite G2, Hf'. destruct (String.eqb_spec part "forced") as [->|Hne]; [intuition|].
      intuition congruence.
    + rewrite G4, Hs'. destruct (String.eqb_spec part "sdh") as [->|Hne]; [intuition|].
      intuition congruence.
Qed.

(** Whatever the name of a subtitle file, the batch tool labels it [eng];
    it sets [forced] (or [sdh]) to 1 exactly when one of the dot-separated
    parts of the lower-cased name, past the length of the base name, is
    [forced] (or [sdh]), and to 0 otherwise. *)
Theorem batch_labels_any_name base_name filename :
  lang (classify base_name filename) = "eng"
  /\ (Movieconvert.forced (classify base_name filename) = 1
      <-> In "forced"
            (Py.split "." (Py.lower (Py.drop (String.length base_name) filename))))
  /\ (Movieconvert.forced (classify base_name filename) = 0
      \/ Movieconvert.forced (classify base_name filename) = 1)
  /\ (Movieconvert.sdh (classify base_name filename) = 1
      <-> In "sdh"
            (Py.split "." (Py.lower (Py.drop (String.length base_name) filename))))
  /\ (Movieconvert.sdh (classify base_name filename) = 0
      \/ Movieconvert.sdh (classify base_name filename) = 1).
Proof.
  unfold classify.
  destruct (fold_tag_step
              (Py.split "." (Py.lower (Py.drop (String.length base_name) filename)))
              (SrtTags "eng" 0 0 []) eq_refl (or_introl eq_refl) (or_introl eq_refl))
    as (G1 & G2 & G3 & G4 & G5).
  split; [exact G1|]. split; [|split; [exact G3|split; [|exact G5]]].
  - rewrite G2. simpl. intuition discriminate.
  - rewrite G4. simpl. intuition discriminate.
Qed.

End SubtitleFiles.

Section Streams.
Import Movieconvert.

Lemma is_str_true v s : Val.is_str v s = true -> v = VStr s.
Proof.
  destruct v as [| |t]; simpl; try discriminate.
  intros H. apply String.eqb_eq in H. congruence.
Qed.




Lemma list_not_longer {A} (l : list A) (x : A) : l <> l ++ [x].
Proof.
  intros E. apply (f_equal (@length A)) in E. rewrite List.length_app in E.
  simpl in E. lia.
Qed.

(** A subtitle stream that is kept and for which the inspection reports
    no [disposition] object is written out marked both forced and
    hearing-impaired: the defaults the code falls back on are the text [0],
    which counts as true. *)
Theorem missing_disposition_is_flagged a b s b' d i :
  disposition s = None ->
  add_stream a b s = Ok b' ->
  subtitle_streams_out b' = subtitle_streams_out b ++ [d] ->
  exists pre,
    subtitle_metadata (i, d)
    = Ok (pre ++ ["-disposition:s:" +:+ Py.str_int i; "+forced+hearing_impaired"]).
Proof.
  unfold add_stream. intros Hd H Hout. rewrite Hd in H.
  destruct (Val.capitalize _) as [codec_type|]; [|discriminate]. cbn [bindR] in H.
  destruct (flagged _ _ "forced") as [is_forced|]; [|discriminate]. cbn [bindR] in H.
  destruct (flagged _ _ "sdh") as [is_sdh|]; [|discriminate]. cbn [bindR] in H.
  destruct (Val.join _ _) as [newtitle|]; [|discriminate]. cbn [bindR] in H.
  cbv zeta in H.
  set (language := if Val.is_str (Val.get_or (default [] (tags s)) "language" (VStr "eng")) "und"
                   then VStr "eng"
                   else Val.get_or (default [] (tags s)) "language" (VStr "eng")) in H.
  destruct (String.eqb codec_type "Video").
  { injection H as <-. simpl in Hout. destruct (list_not_longer _ _ Hout). }
  destruct (String.eqb codec_type "Audio").
  { injection H as <-. simpl in Hout. destruct (list_not_longer _ _ Hout). }
  destruct (String.eqb codec_type "Subtitle").
  2: { injection H as <-. destruct (list_not_longer _ _ Hout). }
  destruct (Val.is_str language "eng" || Val.is_str language "N/A") eqn:C.
  2: { injection H as <-. simpl in Hout. destruct (list_not_longer _ _ Hout). }
  unfold override in H. simpl default in H.
  destruct (Val.lower _) as [t|]; [|discriminate]. cbn [bindR] in H.
  injection H as <-. simpl in Hout. apply app_inj_tail in Hout as [_ <-].
  assert (language = VStr "eng" \/ language = VStr "N/A") as Hlang.
  { apply orb_true_iff in C as [C|C]; apply is_str_true in C; auto. }
  clearbody language. unfold subtitle_metadata.
  destruct Hlang as [-> | ->];
    destruct (Py.contains "forced" t), (Py.contains "sdh" t);
    cbn -[String.append Py.str_int];
    repeat match goal with
           | |- context [if ?c then _ else _] => destruct c
           | |- context [match ?x with EmptyString => _ | String _ _ => _ end] => destruct x
           end;
    cbn -[String.append Py.str_int];
    first [ eexists [_; _]; reflexivity | eexists [_; _; _; _]; reflexivity ].
Qed.

End Streams.

Section CommandLine.
Import Movieconvert.

Lemma build_cmd_begins a crf out subfiles b command :
  build_cmd a crf out subfiles b = Ok command ->
  exists inputs rest,
    (if subtitle a then extend_each input_args subfiles else Ok []) = Ok inputs
    /\ command = ["ffmpeg"; "-i"; input a] ++ inputs
                 ++ ["-map_metadata"; "-1"; "-map_chapters"; "-1"] ++ rest.
Proof.
  unfold build_cmd. intros H.
  destruct (if subtitle a then extend_each input_args subfiles else Ok [])
    as [inputs|]; [|discriminate].
  unfold bindR in H.
  repeat match type of H with
         | match ?x with _ => _ end = _ => destruct x; [|discriminate]
         end.
  injection H as <-. eexists. eexists. split; reflexivity.
Qed.

Lemma build_cmd_without_subtitles a crf out subfiles1 subfiles2 b :
  subtitle a = false ->
  build_cmd a crf out subfiles1 b = build_cmd a crf out subfiles2 b.
Proof. unfold build_cmd. intros ->. reflexivity. Qed.

(** The encoder is given the input file first and then, unless [-s] is
    set, every subtitle file found next to it, in the order of the directory
    listing, each as an [srt] input; the mapping options come after them. *)
Theorem subtitle_files_become_inputs a w existing command :
  In (Encode command) (trace (snd (run a w existing))) ->
  exists names rest,
    listing w (subtitle_directory (input a)) = Some names
    /\ command
       = ["ffmpeg"; "-i"; input a]
         ++ (if subtitle a
             then flat_map
                    (fun f => ["-f"; "srt"; "-i";
                               OsPath.join (subtitle_directory (input a)) f])
                    (List.filter (is_subfile (subtitle_base_name (input a))) names)
             else [])
         ++ ["-map_metadata"; "-1"; "-map_chapters"; "-1"] ++ rest.
Proof.
  intros Hin. apply run_encodes_plan in Hin as (p & s1 & Hp & ->).
  apply prepare_ok in Hp as (crf & names & streams & _ & _ & _ & Hl & Hs & _ & _ & Hcmd).
  apply build_cmd_begins in Hcmd as (inputs & rest & Hi & Hcmd).
  exists names, rest. split; [exact Hl|]. rewrite Hcmd.
  destruct (subtitle a).
  - rewrite Hs, scan_subfiles_enumerate, input_args_enumerate in Hi.
    injection Hi as <-. reflexivity.
  - injection Hi as <-. reflexivity.
Qed.

(** With [-s] the arguments of the encoder do not depend on what the
    directory of the input holds. *)
Theorem without_subtitles_listing_is_irrelevant a w1 w2 existing command1 command2 :
  subtitle a = false ->
  probe w1 = probe w2 ->
  In (Encode command1) (trace (snd (run a w1 existing))) ->
  In (Encode command2) (trace (snd (run a w2 existing))) ->
  command1 = command2.
Proof.
  intros Hs Hprobe H1 H2.
  apply run_encodes_plan in H1 as (p1 & s1 & Hp1 & ->).
  apply run_encodes_plan in H2 as (p2 & s2 & Hp2 & ->).
  apply prepare_ok in Hp1
    as (crf1 & names1 & streams1 & Hc1 & _ & Hf1 & _ & _ & Hpr1 & Hb1 & Hcmd1).
  apply prepare_ok in Hp2
    as (crf2 & names2 & streams2 & Hc2 & _ & Hf2 & _ & _ & Hpr2 & Hb2 & Hcmd2).
  rewrite Hc1 in Hc2. injection Hc2 as <-.
  rewrite Hf1 in Hf2. injection Hf2 as Ho _.
  rewrite Hprobe, Hpr2 in Hpr1. injection Hpr1 as <-.
  rewrite Hb1 in Hb2. injection Hb2 as Hb.
  rewrite <- Ho, <- Hb in Hcmd2.
  rewrite (build_cmd_without_subtitles a crf1 _ (subfiles_in p2) (subfiles_in p1) _ Hs)
    in Hcmd2.
  rewrite Hcmd1 in Hcmd2. injection Hcmd2 as ->. reflexivity.
Qed.

End CommandLine.

Section Wizard.
Import Ffmpegfe.

Lemma str_take_drop (n : nat) (s : string) : Py.take n s +:+ Py.drop n s = s.
Proof.
  revert s. induction n as [|n IH]; intros [|c s]; try reflexivity.
  simpl. rewrite str_app_cons, IH. reflexivity.
Qed.

Lemma str_length_lower (s : string) : String.length (Py.lower s) = String.length s.
Proof. induction s as [|c s IH]; [reflexivity|]. simpl. rewrite IH. reflexivity. Qed.

Lemma str_length_take (n : nat) (s : string) :
  (n <= String.length s)%nat -> String.length (Py.take n s) = n.
Proof.
  revert s. induction n as [|n IH]; intros [|c s] H; simpl in *; try lia.
  rewrite IH; lia.
Qed.

Lemma no_newline_app (s t : string) :
  no_newline (s +:+ t) = true -> no_newline s = true.
Proof.
  induction s as [|c s IH]; [reflexivity|]. rewrite str_app_cons. simpl.
  intros H. apply andb_true_iff in H as [Hc Hs]. rewrite Hc, (IH Hs). reflexivity.
Qed.

Lemma endswith_stem (s p : string) :
  Py.endswith s p = true ->
  s = Py.take (String.length s - String.length p) s +:+ p.
Proof.
  unfold Py.endswith. intros H. apply String.eqb_eq in H.
  pose proof (str_take_drop (String.length s - String.length p) s) as E.
  rewrite H in E. symmetry. exact E.
Qed.

Lemma match_name_total (stem : string) :
  stem <> EmptyString -> no_newline stem = true ->
  exists r, match_name (stem +:+ ".srt") = Some r.
Proof.
  induction stem as [|c s IH]; [congruence|]. intros _ Hnl.
  simpl in Hnl. apply andb_true_iff in Hnl as [Hc Hs].
  rewrite str_app_cons. cbn [match_name].
  destruct (Ascii.eqb c newline); [discriminate|].
  destruct s as [|c' s'].
  - eexists. vm_compute. reflexivity.
  - destruct (IH ltac:(discriminate) Hs) as [r Hr]. rewrite Hr.
    destruct (match_lang _) as [r'|]; simpl; eexists; reflexivity.
Qed.

Lemma match_lang_group2 (s : string) (l : string) (fl : bool * bool) :
  match_lang s = Some (Some l, fl) -> two_letters l.
Proof.
  assert (forall x : option (bool * bool),
            pair (@None string) <$> x = Some (Some l, fl) -> two_letters l) as Hnone.
  { intros [x|]; simpl; discriminate. }
  unfold match_lang.
  destruct s as [|c0 [|c1 [|c2 r]]]; cbn [or_else]; try apply Hnone.
  destruct (Ascii.eqb c0 "." && Py.is_lower c1 && Py.is_lower c2) eqn:E;
    cbn [or_else]; [|apply Hnone].
  destruct (match_forced r) as [x|]; cbn [fmap option_fmap option_map or_else]; [|apply Hnone].
  intros [= <- _]. apply andb_true_iff in E as [E E2]. apply andb_true_iff in E as [_ E1].
  exists c1, c2. auto.
Qed.

Lemma match_name_group2 (s : string) (l : string) (fl : bool * bool) :
  match_name s = Some (Some l, fl) -> two_letters l.
Proof.
  induction s as [|c s IH]; [discriminate|]. cbn [match_name].
  destruct (Ascii.eqb c newline); [discriminate|].
  destruct (match_lang s) as [[g fl']|] eqn:E; simpl.
  - intros [= -> ->]. apply match_lang_group2 in E. exact E.
  - exact IH.
Qed.

Lemma lower_name_matches filename :
  Py.endswith (Py.lower filename) ".srt" = true ->
  (4 < String.length filename)%nat ->
  no_newline filename = true ->
  exists r, match_name (Py.lower filename) = Some r.
Proof.
  intros Hend Hlen Hnl.
  apply endswith_stem in Hend. rewrite str_length_lower in Hend. simpl String.length in Hend.
  set (stem := Py.take (String.length filename - 4) (Py.lower filename)) in Hend.
  assert (stem <> EmptyString) as Hne.
  { intros E. apply (f_equal String.length) in E. unfold stem in E.
    rewrite str_length_take in E; [simpl in E; lia|]. rewrite str_length_lower. lia. }
  assert (no_newline stem = true) as Hs.
  { apply (no_newline_app stem ".srt"). rewrite <- Hend. apply no_newline_lower, Hnl. }
  rewrite Hend. apply (match_name_total stem Hne Hs).
Qed.

(** The pattern of the wizard accepts every file name that ends in [.srt]
    (in any case), has something before it and holds no line break; the
    language it reports is [en] or two lower-case letters, and the two flags
    are 0 or 1. *)
Theorem wizard_pattern_is_total filename :
  Py.endswith (Py.lower filename) ".srt" = true ->
  (4 < String.length filename)%nat ->
  no_newline filename = true ->
  exists language forced sdh,
    classify filename = Some (language, flag forced, flag sdh)
    /\ (language = "en" \/ two_letters language).
Proof.
  intros Hend Hlen Hnl.
  destruct (lower_name_matches filename Hend Hlen Hnl) as [[g [f d]] Hr].
  unfold classify. rewrite Hr.
  exists (default "en" g), f, d. split; [reflexivity|].
  destruct g as [l|]; [right|left; reflexivity].
  simpl. apply (match_name_group2 _ _ _ Hr).
Qed.

(** Both tools find the same subtitle files next to an input, in the same
    order, as long as no file they look at is named [.srt] alone or has a
    line break in its name. *)
Theorem both_tools_find_the_same_files directory base names i :
  Forall (fun f => Movieconvert.is_subfile base f = true ->
                   (4 < String.length f)%nat /\ no_newline f = true) names ->
  map (fun e : srt_file => Some (VStr (fst (fst (fst e))))) (collect directory base names)
  = map (fun d => Val.get d "filename")
        (Movieconvert.scan_subfiles directory base names i).
Proof.
  intros Hall. revert i. induction Hall as [|f names Hf _ IH]; intros i; [reflexivity|].
  cbn [collect Movieconvert.scan_subfiles]. unfold Movieconvert.is_subfile in *.
  destruct (Py.endswith (Py.lower f) ".srt" && Py.contains base f) eqn:E; [|apply IH].
  destruct (Hf eq_refl) as [Hlen Hnl].
  apply andb_true_iff in E as [Hend _].
  destruct (lower_name_matches f Hend Hlen Hnl) as [[g [fo sd]] Hr].
  unfold classify. rewrite Hr. cbn [map]. rewrite (IH (i + 1)). reflexivity.
Qed.

Lemma splitext_app (p : string) :
  fst (OsPath.splitext p) +:+ snd (OsPath.splitext p) = p.
Proof.
  unfold OsPath.splitext. destruct (_ && _); simpl.
  - apply str_take_drop.
  - apply str_app_nil_r.
Qed.

Lemma str_app_inv_head (s t1 t2 : string) : s +:+ t1 = s +:+ t2 -> t1 = t2.
Proof.
  induction s as [|c s IH]; [auto|]. rewrite !str_app_cons. intros [= H]. apply IH, H.
Qed.

Lemma endswith_app (s p : string) : Py.endswith (s +:+ p) p = true.
Proof.
  unfold Py.endswith. rewrite str_length_app.
  replace (String.length s + String.length p - String.length p)%nat
    with (String.length s) by lia.
  rewrite drop_app. apply String.eqb_refl.
Qed.

(** The output name the wizard proposes always ends in [.mp4] and is never
    the path of the input, whatever that path is. *)
Theorem wizard_output_differs file_path :
  get_output_filename file_path <> file_path
  /\ Py.endswith (get_output_filename file_path) ".mp4" = true.
Proof.
  unfold get_output_filename.
  pose proof (splitext_app file_path) as Hp.
  destruct (OsPath.splitext file_path) as [base ext]. simpl in Hp.
  destruct (String.eqb_spec (Py.lower ext) ".mp4") as [E|E].
  - split.
    + intros H. rewrite <- Hp in H. apply str_app_inv_head in H.
      subst ext. discriminate E.
    + change (base +:+ ".1.mp4") with (base +:+ (".1" +:+ ".mp4")).
      rewrite <- str_app_assoc. apply endswith_app.
  - split.
    + intros H. rewrite <- Hp in H. apply str_app_inv_head in H.
      subst ext. apply E. reflexivity.
    + apply endswith_app.
Qed.

Lemma wizard_add_stream_total acc s :
  (exists t, Val.get_or (members s) "codec_type" (VStr "Unknown") = VStr t) ->
  exists acc', add_stream acc s = Ok acc'.
Proof.
  intros [t Ht]. unfold add_stream. destruct acc as [[v au] su]. rewrite Ht.
  cbn [Val.capitalize bindR].
  repeat match goal with
         | |- context [if ?c then _ else _] => destruct c
         end; eexists; reflexivity.
Qed.

Lemma wizard_add_streams_total streams : forall acc,
  Forall (fun s => exists t, Val.get_or (members s) "codec_type" (VStr "Unknown") = VStr t)
    streams ->
  exists acc', add_streams acc streams = Ok acc'.
Proof.
  induction streams as [|s rest IH]; intros acc H.
  - eexists. reflexivity.
  - inversion H as [|? ? Hs Hrest]; subst.
    destruct (wizard_add_stream_total acc s Hs) as [acc1 E].
    cbn [add_streams]. rewrite E. cbn [bindR]. apply IH, Hrest.
Qed.

(** The wizard gets as far as its interface, having done nothing but
    inspect the input, whenever the path has a directory part that can be
    listed and the inspection reports a stream list in which every
    [codec_type] is a text; the list of subtitle files it then holds is
    never empty. *)
Theorem wizard_reaches_its_interface file_path w existing names streams :
  OsPath.dirname file_path <> EmptyString ->
  listing w (OsPath.dirname file_path) = Some names ->
  probe w = JsonObject (Some streams) ->
  Forall (fun s => exists t, Val.get_or (members s) "codec_type" (VStr "Unknown") = VStr t)
    streams ->
  exists wz,
    run [file_path] w existing = (Ok wz, State existing [Probe (ffprobe_cmd file_path)])
    /\ wizard_output_file wz = get_output_filename file_path
    /\ wizard_srt_files wz <> []
    /\ add_streams ([], [], []) streams
       = Ok (wizard_video_streams wz, wizard_audio_streams wz, wizard_subtitle_streams wz).
Proof.
  intros Hdir Hl Hp Hs.
  destruct (wizard_add_streams_total streams ([], [], []) Hs) as [[[v au] su] E].
  unfold run, main, get_srt_filenames, get_streams, os_listdir, bindM, emit, lift, ret.
  apply String.eqb_neq in Hdir. rewrite Hdir, Hl, Hp. simpl. rewrite E. simpl.
  eexists. split; [reflexivity|]. simpl. split; [reflexivity|]. split; [|reflexivity].
  destruct (collect _ _ names); discriminate.
Qed.

End Wizard.

Section PlannedOutput.
Import Movieconvert.

Lemma plan_output a w existing p s1 :
  prepare a w (State existing []) = (Ok p, s1) ->
  exists n : nat,
    output_file p
    = candidate (fst (OsPath.splitext (input a))) (container_name (container a)) (Z.of_nat n)
    /\ counter p = Z.of_nat n + 1
    /\ (output_file p ∉ existing)
    /\ forall i, (i < n)%nat ->
         candidate (fst (OsPath.splitext (input a))) (container_name (container a))
           (Z.of_nat i) ∈ existing.
Proof.
  intros Hp.
  apply prepare_ok in Hp as (crf & names & streams & _ & _ & Hfree & _).
  set (base := fst (OsPath.splitext (input a))) in *.
  set (cont := container_name (container a)) in *.
  destruct (next_free_spec base cont existing (S (size existing)) 0) as (n & Hn & Hnew & Hold).
  { lia. }
  { intros i Hi. lia. }
  assert (candidate base cont (Z.of_nat 0) = base +:+ "." +:+ cont) as E0 by reflexivity.
  rewrite E0 in Hn. clear E0.
  replace (Z.of_nat 0 + 1) with 1 in Hn by reflexivity.
  rewrite Hfree in Hn. injection Hn as Ho Hc.
  exists n. rewrite Ho. auto.
Qed.

(** When the clean-up renames the output, the new name is the name of a
    file that existed when the run began (the input itself when it has the
    extension of the container), unless it is the name the output already
    has. *)
Theorem rename_lands_on_an_existing_file a w existing src dst :
  In (Rename src dst) (trace (snd (run a w existing))) ->
  dst = src \/ dst ∈ existing.
Proof.
  intros Hin.
  apply (run_file_change a w existing (Rename src dst) I) in Hin
    as (p & s1 & Hp & _ & _ & -> & ->).
  destruct (plan_output a w existing p s1 Hp) as (n & Ho & _ & _ & Hold).
  destruct n as [|n].
  - left. rewrite Ho. reflexivity.
  - right. apply (Hold 0%nat). lia.
Qed.

Lemma crf_phase_value a s crf s' :
  bindM (parse_crf (crf_text a)) (validate_crf (video_codec a)) s = (Ok crf, s') ->
  match crf_text a with
  | Some text => exists v, crf = Some v /\ Py.int text = Some v /\ 0 <= v <= 51
  | None => crf = match video_codec a with
                  | Avc => Some 20
                  | Hevc => Some 24
                  | VideoCopy => None
                  end
  end.
Proof.
  unfold bindM, parse_crf. destruct (crf_text a) as [text|].
  - destruct (crf_range text) as [v| |m] eqn:E; try discriminate.
    apply crf_range_value in E as [Hint Hv]. simpl.
    destruct ((v <? 0) || (51 <? v)); [discriminate|].
    intros [= <- _]. exists v. auto.
  - simpl. intros [= <- _]. reflexivity.
Qed.

Lemma has_block_here {A} (block post : list A) : has_block block (block ++ post).
Proof. exists [], post. reflexivity. Qed.

Lemma has_block_app {A} (block l1 l2 : list A) :
  has_block block l2 -> has_block block (l1 ++ l2).
Proof.
  intros (pre & post & ->). exists (l1 ++ pre), post.
  rewrite (List.app_assoc l1 pre). reflexivity.
Qed.

Lemma has_block_cons {A} (block : list A) (x : A) (l : list A) :
  has_block block l -> has_block block (x :: l).
Proof. intros (pre & post & ->). exists (x :: pre), post. reflexivity. Qed.

Lemma build_cmd_video_settings a crf out subfiles b command :
  build_cmd a crf out subfiles b = Ok command ->
  has_block (video_settings a crf) command.
Proof.
  unfold build_cmd, bindR. intros H.
  repeat match type of H with
         | match ?x with _ => _ end = _ => destruct x; [|discriminate]
         end.
  injection H as <-.
  do 3 apply has_block_cons. apply has_block_app.
  do 4 apply has_block_cons. do 4 apply has_block_app.
  apply has_block_here.
Qed.

(** When the video is encoded anew, the encoder is given a [-crf] value
    between 0 and 51: the integer the text after [-c] stands for, and without
    [-c] 20 for [avc] and 24 for [hevc]. *)
Theorem quality_setting a w existing command :
  In (Encode command) (trace (snd (run a w existing))) ->
  video_codec a <> VideoCopy ->
  exists v pre post,
    command = pre ++ ["-crf"; Py.str_int v] ++ post
    /\ 0 <= v <= 51
    /\ match crf_text a with
       | Some text => Py.int text = Some v
       | None => v = match video_codec a with Avc => 20 | _ => 24 end
       end.
Proof.
  intros Hin Hvc. apply run_encodes_plan in Hin as (p & s1 & Hp & ->).
  apply prepare_ok in Hp as (crf & names & streams & Hcrf & _ & _ & _ & _ & _ & _ & Hcmd).
  apply crf_phase_value in Hcrf.
  apply build_cmd_video_settings in Hcmd as (pre & post & ->).
  assert (exists v, crf = Some v /\ 0 <= v <= 51
                    /\ match crf_text a with
                       | Some text => Py.int text = Some v
                       | None => v = match video_codec a with Avc => 20 | _ => 24 end
                       end) as (v & -> & Hv & Ht).
  { destruct (crf_text a) as [text|].
    - destruct Hcrf as (v & -> & Hint & Hv). exists v. auto.
    - destruct (video_codec a); [congruence| |]; subst crf; eexists; (split; [reflexivity|]);
        (split; [lia|reflexivity]). }
  exists v. unfold video_settings.
  destruct (video_codec a); [congruence| |].
  - exists (pre ++ ["-c:v"; "libx264"; "-profile:v"; "high"; "-preset"; "slow"]), post.
    split; [|auto].
    rewrite <- (List.app_assoc pre ["-c:v"; "libx264"; "-profile:v"; "high"; "-preset"; "slow"]).
    reflexivity.
  - exists (pre ++ ["-c:v"; "libx265"; "-preset"; "slow"]), (["-tag:v"; "hvc1"] ++ post).
    split; [|auto].
    rewrite <- (List.app_assoc pre ["-c:v"; "libx265"; "-preset"; "slow"]).
    reflexivity.
Qed.

End PlannedOutput.

Section SubtitleLabels.
Import Movieconvert.

(** The title of a subtitle file is made of the three words of the loop. *)
Lemma tag_step_words (t : srt_tags) (part : string) :
  Forall (fun p => p = "English" \/ p = "Forced" \/ p = "SDH") (title_parts t) ->
  Forall (fun p => p = "English" \/ p = "Forced" \/ p = "SDH")
    (title_parts (tag_step t part)).
Proof.
  intros H. unfold tag_step.
  repeat match goal with
         | |- context [if ?c then _ else _] => destruct c
         end; simpl; try exact H; apply Forall_app; split; auto.
Qed.

Lemma fold_tag_step_words (parts : list string) (t : srt_tags) :
  Forall (fun p => p = "English" \/ p = "Forced" \/ p = "SDH") (title_parts t) ->
  Forall (fun p => p = "English" \/ p = "Forced" \/ p = "SDH")
    (title_parts (fold_left tag_step parts t)).
Proof.
  revert t. induction parts as [|part parts IH]; intros t H; [exact H|].
  simpl. apply IH, tag_step_words, H.
Qed.

Lemma srt_title_starts (t : srt_tags) :
  Forall (fun p => p = "English" \/ p = "Forced" \/ p = "SDH") (title_parts t) ->
  exists c rest, srt_title t = String c rest /\ c <> "N"%char.
Proof.
  unfold srt_title. destruct (title_parts t) as [|p ps].
  - intros _. exists "E"%char, "nglish". split; [reflexivity|discriminate].
  - intros H. inversion H as [|? ? Hp _]; subst.
    unfold Py.join. destruct ps as [|q ps].
    + destruct Hp as [-> | [-> | ->]]; eexists; eexists; (split; [reflexivity|discriminate]).
    + cbn [String.concat].
      destruct Hp as [-> | [-> | ->]]; rewrite str_app_cons; eexists; eexists;
        (split; [reflexivity|discriminate]).
Qed.

(** In the arguments of the encoder a subtitle file is always labelled
    [eng] and given its title; it is marked forced exactly when its name has
    the part [forced], and hearing-impaired exactly when it has the part
    [sdh]. *)
Theorem subtitle_file_metadata directory base_name filename k i :
  subtitle_metadata (i, subfile_entry directory base_name filename k)
  = Ok (["-metadata:s:s:" +:+ Py.str_int i; "language=eng";
         "-metadata:s:s:" +:+ Py.str_int i;
         "title=" +:+ srt_title (classify base_name filename)]
        ++ match Movieconvert.forced (classify base_name filename),
                 Movieconvert.sdh (classify base_name filename) with
           | 0, 0 => []
           | 0, _ => ["-disposition:s:" +:+ Py.str_int i; "+hearing_impaired"]
           | _, 0 => ["-disposition:s:" +:+ Py.str_int i; "+forced"]
           | _, _ => ["-disposition:s:" +:+ Py.str_int i; "+forced+hearing_impaired"]
           end).
Proof.
  unfold subfile_entry, classify.
  set (parts := Py.split "." (Py.lower (Py.drop (String.length base_name) filename))).
  destruct (fold_tag_step parts (SrtTags "eng" 0 0 []) eq_refl (or_introl eq_refl)
              (or_introl eq_refl)) as (Hl & _ & Hf & _ & Hs).
  destruct (srt_title_starts (fold_left tag_step parts (SrtTags "eng" 0 0 []))) as (c & rest & Ht & Hc).
  { apply fold_tag_step_words. constructor. }
  set (t := fold_left tag_step parts (SrtTags "eng" 0 0 [])) in *.
  cbv zeta. rewrite Hl, Ht.
  unfold subtitle_metadata. cbn -[String.append Py.str_int].
  destruct (Ascii.eqb_spec c "N"%char) as [E|_]; [contradiction|].
  destruct Hf as [-> | ->], Hs as [-> | ->]; reflexivity.
Qed.

End SubtitleLabels.

Section ResultSurvives.
Import Movieconvert.

Lemma str_app_same_tail (s1 s2 t1 t2 : string) :
  String.length t1 = String.length t2 -> s1 +:+ t1 = s2 +:+ t2 -> t1 = t2.
Proof.
  revert s2. induction s1 as [|a s1 IH]; intros [|b s2] Hlen H.
  - exact H.
  - apply (f_equal String.length) in H. rewrite !str_length_app in H. simpl in H. lia.
  - apply (f_equal String.length) in H. rewrite !str_length_app in H. simpl in H. lia.
  - rewrite !str_app_cons in H. injection H as _ H. apply (IH s2 Hlen H).
Qed.

Lemma join_tail (directory filename : string) :
  exists pre, OsPath.join directory filename = pre +:+ filename.
Proof.
  unfold OsPath.join. destruct (Py.startswith filename "/").
  - exists EmptyString. reflexivity.
  - destruct (_ || _).
    + exists directory. reflexivity.
    + exists (directory +:+ "/"). rewrite str_app_assoc. reflexivity.
Qed.

Lemma candidate_tail (base cont : string) (k : Z) :
  exists x, candidate base cont k = x +:+ "." +:+ cont.
Proof.
  unfold candidate, numbered. destruct (k =? 0).
  - exists base. reflexivity.
  - exists (base +:+ "." +:+ Py.str_int k). rewrite !str_app_assoc. reflexivity.
Qed.

(** A subtitle file never has the name of an output. *)
Lemma subfile_path_not_container directory base_name filename x cont :
  is_subfile base_name filename = true ->
  OsPath.join directory filename <> x +:+ "." +:+ container_name cont.
Proof.
  unfold is_subfile. intros H E. apply andb_true_iff in H as [Hend _].
  apply endswith_stem in Hend.
  destruct (join_tail directory filename) as [pre Hj]. rewrite Hj in E.
  apply (f_equal Py.lower) in E. rewrite !lower_app, Hend in E.
  rewrite <- str_app_assoc in E.
  apply str_app_same_tail in E; [|destruct cont; reflexivity].
  destruct cont; discriminate E.
Qed.

Lemma delete_subfile_keeps (file : dict) (s : state) (r : string) :
  r ∈ files s ->
  (forall path, Val.get file "filename" = Some (VStr path) -> path <> r) ->
  r ∈ files (snd (delete_subfile file s)).
Proof.
  intros Hr Hne. unfold delete_subfile.
  destruct (Val.get file "filename") as [[| |path]|]; try exact Hr.
  specialize (Hne path eq_refl).
  unfold bindM, isfile, print, emit, os_remove, ret.
  destruct (negb (String.eqb path EmptyString)); simpl; [|exact Hr].
  case_bool_decide; simpl; [|exact Hr].
  case_bool_decide; simpl; [|exact Hr].
  apply elem_of_difference. split; [exact Hr|]. rewrite elem_of_singleton. congruence.
Qed.

Lemma delete_subfiles_keep (l : list dict) : forall (s : state) (r : string),
  r ∈ files s ->
  (forall file path, In file l -> Val.get file "filename" = Some (VStr path) -> path <> r) ->
  r ∈ files (snd (for_each l delete_subfile s)).
Proof.
  induction l as [|file l IH]; intros s r Hr Hne; [exact Hr|].
  cbn [for_each]. unfold bindM.
  pose proof (delete_subfile_keeps file s r Hr (fun path => Hne file path (or_introl eq_refl)))
    as H1.
  destruct (delete_subfile file s) as [[u|h] s1]; simpl in H1; [|exact H1].
  apply IH; [exact H1|]. intros f path Hf. apply Hne. right. exact Hf.
Qed.

Lemma delete_subfiles_trace (l : list dict) (s : state) :
  exists evs, trace (snd (for_each l delete_subfile s)) = trace s ++ evs.
Proof.
  assert (emits_only (fun _ => True) (for_each l delete_subfile)) as H.
  { apply emits_only_for_each. intros file. unfold delete_subfile, print.
    destruct (Val.get file "filename") as [[| |path]|]; try apply emits_only_ret.
    apply emits_only_bind; [apply emits_only_isfile|]. intros present.
    destruct (_ && _); [|apply emits_only_ret].
    apply emits_only_bind; [apply emits_only_emit; exact I|]. intros _.
    apply emits_only_remove. exact I. }
  destruct (H s) as (evs & Ht & _). exists evs. exact Ht.
Qed.

Lemma cleanup_keeps_result a p s :
  output_file p ∈ files s ->
  input a <> output_file p ->
  (forall file path, In file (subfiles_in p) ->
     Val.get file "filename" = Some (VStr path) ->
     path <> output_file p
     /\ path <> fst (OsPath.splitext (input a)) +:+ "." +:+ container_name (container a)) ->
  output_file p ∈ files (snd (cleanup a p s))
  \/ (In (Rename (output_file p)
            (fst (OsPath.splitext (input a)) +:+ "." +:+ container_name (container a)))
         (trace (snd (cleanup a p s)))
      /\ fst (OsPath.splitext (input a)) +:+ "." +:+ container_name (container a)
         ∈ files (snd (cleanup a p s))).
Proof.
  intros Hout Hne Hsub. unfold cleanup.
  destruct (delete a); [|left; exact Hout].
  set (dst := fst (OsPath.splitext (input a)) +:+ "." +:+ container_name (container a)) in *.
  match goal with
  | |- _ ∈ files (snd ?t) \/ _ =>
      assert (exists s5, t = for_each (subfiles_in p) delete_subfile s5
                         /\ (output_file p ∈ files s5
                             \/ (In (Rename (output_file p) dst) (trace s5)
                                 /\ dst ∈ files s5))) as (s5 & -> & H5)
  end.
  { unfold bindM at 1. unfold isfile at 1.
    assert (exists s4,
              (if negb (String.eqb (input a) EmptyString) && bool_decide (input a ∈ files s)
               then print ("Deleting:  " +:+ input a) >> os_remove (input a)
               else ret tt) s = (Ok tt, s4)
              /\ output_file p ∈ files s4) as (s4 & E4 & H4).
    { destruct (negb (String.eqb (input a) EmptyString)); simpl.
      - case_bool_decide as Hin; simpl.
        + unfold bindM, print, emit, os_remove. simpl.
          rewrite bool_decide_eq_true_2 by exact Hin.
          eexists. split; [reflexivity|]. simpl.
          apply elem_of_difference. split; [exact Hout|].
          rewrite elem_of_singleton. congruence.
        + eexists. split; [reflexivity|exact Hout].
      - eexists. split; [reflexivity|exact Hout]. }
    unfold bindM at 1. rewrite E4.
    destruct (OsPath.splitext (output_file p)) as [output_base output_ext].
    unfold bindM at 1.
    destruct (Py.endswith output_base ("." +:+ Py.str_int (counter p - 1))
              && String.eqb output_ext ("." +:+ container_name (container a))).
    - unfold bindM, print, emit, os_rename. simpl.
      rewrite bool_decide_eq_true_2 by exact H4.
      eexists. split; [reflexivity|]. right. simpl. split.
      + apply in_app_iff. right. left. reflexivity.
      + apply elem_of_union_r, elem_of_singleton. reflexivity.
    - exists s4. split; [reflexivity|]. left. exact H4. }
  destruct H5 as [H5|[H5 H5']].
  - left. apply delete_subfiles_keep; [exact H5|].
    intros file path Hf Hg. apply (Hsub file path Hf Hg).
  - right. split.
    + destruct (delete_subfiles_trace (subfiles_in p) s5) as [evs ->].
      apply in_app_iff. left. exact H5.
    + apply delete_subfiles_keep; [exact H5'|].
      intros file path Hf Hg. apply (Hsub file path Hf Hg).
Qed.

(** A run that ends normally leaves the encoded file behind, also with
    [-d]: under the name chosen for the output, or under the name the
    clean-up renamed it to. *)
Theorem the_result_survives a w existing :
  fst (run a w existing) = Ok tt ->
  exists p s1,
    prepare a w (State existing []) = (Ok p, s1)
    /\ (output_file p ∉ existing)
    /\ (output_file p ∈ files (snd (run a w existing))
        \/ (In (Rename (output_file p)
                  (fst (OsPath.splitext (input a)) +:+ "."
                   +:+ container_name (container a)))
               (trace (snd (run a w existing)))
            /\ fst (OsPath.splitext (input a)) +:+ "." +:+ container_name (container a)
               ∈ files (snd (run a w existing)))).
Proof.
  unfold run, main, bindM.
  destruct (prepare_state a w existing) as (Hf & _).
  destruct (prepare a w (State existing [])) as [[p|h] s1] eqn:Hp; simpl in Hf; [|discriminate].
  pose proof (confirm_keeps_files a w s1) as Hcf.
  destruct (confirm a w s1) as [[[]|h] s2]; simpl in Hcf; [|discriminate].
  unfold encode, bindM, emit, stop.
  destruct (encoder_status w =? 0); [|discriminate]. intros _.
  destruct (plan_output a w existing p s1 Hp) as (n & Ho & _ & Hnew & _).
  pose proof Hp as Hp'.
  apply prepare_ok in Hp' as (crf & names & streams & _ & Hin & _ & _ & Hs & _).
  exists p, s1. split; [reflexivity|]. split; [exact Hnew|].
  apply cleanup_keeps_result.
  - simpl. apply elem_of_union_r, elem_of_singleton. reflexivity.
  - intros E. apply Hnew. rewrite <- E. exact Hin.
  - intros file path Hfile Hget. rewrite Hs in Hfile.
    destruct (scan_subfiles_filename _ _ _ _ _ _ Hfile Hget) as (f & _ & Hsub & ->).
    split.
    + rewrite Ho.
      destruct (candidate_tail (fst (OsPath.splitext (input a)))
                  (container_name (container a)) (Z.of_nat n)) as [x ->].
      apply (subfile_path_not_container _ _ _ _ _ Hsub).
    + apply (subfile_path_not_container _ _ _ _ _ Hsub).
Qed.

End ResultSurvives.

Section TwoTools.

Lemma add_stream_alike a b s b' acc :
  Movieconvert.add_stream a b s = Ok b' ->
  same_streams b acc ->
  exists acc', Ffmpegfe.add_stream acc s = Ok acc' /\ same_streams b' acc'.
Proof.
  unfold Movieconvert.add_stream, Ffmpegfe.add_stream.
  destruct acc as [[v au] su]. intros H (R1 & R2 & R3 & R4 & R5).
  destruct (Val.capitalize _) as [codec_type|]; [|discriminate]. cbn [bindR] in H |- *.
  destruct (Movieconvert.flagged _ _ "forced") as [is_forced|]; [|discriminate].
  cbn [bindR] in H.
  destruct (Movieconvert.flagged _ _ "sdh") as [is_sdh|]; [|discriminate].
  cbn [bindR] in H.
  destruct (Val.join _ _) as [newtitle|]; [|discriminate]. cbn [bindR] in H.
  cbv zeta in H |- *.
  destruct (String.eqb codec_type "Video").
  { injection H as <-. eexists. split; [reflexivity|].
    unfold same_streams. simpl. rewrite !map_app, R1, R2. simpl. auto. }
  destruct (String.eqb codec_type "Audio").
  { injection H as <-. eexists. split; [reflexivity|].
    unfold same_streams. simpl. rewrite !map_app, R3, R4. simpl. auto. }
  destruct (String.eqb codec_type "Subtitle").
  { eexists. split; [reflexivity|].
    destruct (_ || _).
    - destruct (Movieconvert.override _ _ "forced"); [|discriminate]. cbn [bindR] in H.
      destruct (Movieconvert.override _ _ "sdh"); [|discriminate]. cbn [bindR] in H.
      injection H as <-. unfold same_streams. simpl. rewrite !map_app, R5. simpl. auto.
    - injection H as <-. unfold same_streams. simpl. rewrite !map_app, R5. simpl. auto. }
  injection H as <-. eexists. split; [reflexivity|]. unfold same_streams. auto.
Qed.

Lemma add_streams_alike a streams : forall b b' acc,
  Movieconvert.add_streams a b streams = Ok b' ->
  same_streams b acc ->
  exists acc', Ffmpegfe.add_streams acc streams = Ok acc' /\ same_streams b' acc'.
Proof.
  induction streams as [|s rest IH]; intros b b' acc H R; simpl in H.
  - injection H as <-. exists acc. split; [reflexivity|exact R].
  - destruct (Movieconvert.add_stream a b s) as [b1|] eqn:E; [|discriminate].
    cbn [bindR] in H.
    destruct (add_stream_alike a b s b1 acc E R) as (acc1 & E1 & R1).
    cbn [Ffmpegfe.add_streams]. rewrite E1. cbn [bindR]. apply (IH b1 b' acc1 H R1).
Qed.

(** Whenever the batch tool can sort the streams of an inspection into
    its lists, the wizard can too, and the two tools put the same streams,
    in the same order, into their video, audio and subtitle lists. *)
Theorem both_tools_sort_streams_alike a streams b :
  Movieconvert.add_streams a Movieconvert.no_streams streams = Ok b ->
  exists acc, Ffmpegfe.add_streams ([], [], []) streams = Ok acc /\ same_streams b acc.
Proof.
  intros H. apply (add_streams_alike a streams Movieconvert.no_streams b ([], [], []) H).
  unfold same_streams. simpl. auto.
Qed.

End TwoTools.

Section Panes.
Import Ffmpegfe Screen.

Lemma wizard_add_stream_entries acc s acc' :
  add_stream acc s = Ok acc' ->
  Forall video_entry (fst (fst acc)) /\ Forall audio_entry (snd (fst acc))
  /\ Forall subtitle_entry (snd acc) ->
  Forall video_entry (fst (fst acc')) /\ Forall audio_entry (snd (fst acc'))
  /\ Forall subtitle_entry (snd acc').
Proof.
  unfold add_stream. destruct acc as [[v au] su]. intros H (Hv & Ha & Hs). simpl in *.
  destruct (Val.capitalize _) as [codec_type|]; [|discriminate]. cbn [bindR] in H.
  cbv zeta in H.
  destruct (String.eqb codec_type "Video").
  { injection H as <-. simpl. split; [|auto]. apply Forall_app. split; [exact Hv|].
    constructor; [|constructor]. eexists. eexists. eexists. reflexivity. }
  destruct (String.eqb codec_type "Audio").
  { injection H as <-. simpl. split; [exact Hv|]. split; [|exact Hs].
    apply Forall_app. split; [exact Ha|].
    constructor; [|constructor]. eexists. eexists. eexists. eexists. reflexivity. }
  destruct (String.eqb codec_type "Subtitle").
  { injection H as <-. simpl. split; [exact Hv|]. split; [exact Ha|].
    apply Forall_app. split; [exact Hs|].
    constructor; [|constructor]. eexists. eexists. eexists. eexists. reflexivity. }
  injection H as <-. simpl. auto.
Qed.

Lemma wizard_add_streams_entries streams : forall acc acc',
  add_streams acc streams = Ok acc' ->
  Forall video_entry (fst (fst acc)) /\ Forall audio_entry (snd (fst acc))
  /\ Forall subtitle_entry (snd acc) ->
  Forall video_entry (fst (fst acc')) /\ Forall audio_entry (snd (fst acc'))
  /\ Forall subtitle_entry (snd acc').
Proof.
  induction streams as [|s rest IH]; intros acc acc' H Hacc; cbn [add_streams] in H.
  - injection H as <-. exact Hacc.
  - destruct (add_stream acc s) as [acc1|] eqn:E; [|discriminate]. cbn [bindR] in H.
    apply (IH acc1 acc' H). apply (wizard_add_stream_entries acc s acc1 E Hacc).
Qed.

Lemma enumerate_from_app {A} (l1 l2 : list A) : forall i,
  enumerate_from i (l1 ++ l2)
  = enumerate_from i l1 ++ enumerate_from (i + Z.of_nat (length l1)) l2.
Proof.
  induction l1 as [|x l1 IH]; intros i.
  - simpl. rewrite Z.add_0_r. reflexivity.
  - cbn [enumerate_from app length]. rewrite IH.
    replace (i + 1 + Z.of_nat (length l1)) with (i + Z.of_nat (S (length l1))) by lia.
    reflexivity.
Qed.

Lemma map_each_app {A B} (f : A -> result B) (l1 l2 : list A) (r1 r2 : list B) :
  map_each f l1 = Ok r1 -> map_each f l2 = Ok r2 -> map_each f (l1 ++ l2) = Ok (r1 ++ r2).
Proof.
  revert r1. induction l1 as [|x l1 IH]; intros r1 H1 H2.
  - injection H1 as <-. exact H2.
  - cbn [map_each app] in *. destruct (f x) as [y|]; [|discriminate]. cbn [bindR] in *.
    destruct (map_each f l1) as [ys|]; [|discriminate]. cbn [bindR] in *.
    injection H1 as <-. rewrite (IH ys eq_refl H2). reflexivity.
Qed.

Lemma video_widgets (resolution language : val) (l : list dict) : forall i,
  Forall video_entry l ->
  map_each (stream_widget resolution language) (enumerate_from i l)
  = Ok (map (stream_line resolution) (enumerate_from i l)).
Proof.
  induction l as [|d l IH]; intros i H; [reflexivity|].
  inversion H as [|? ? (index & codec_name & r & ->) Hl]; subst.
  cbn [enumerate_from map_each map]. rewrite (IH (i + 1) Hl). reflexivity.
Qed.

Lemma audio_widgets (resolution language : val) (l : list dict) : forall i,
  Forall audio_entry l ->
  map_each (stream_widget resolution language) (enumerate_from i l)
  = Ok (map (stream_line language) (enumerate_from i l)).
Proof.
  induction l as [|d l IH]; intros i H; [reflexivity|].
  inversion H as [|? ? (index & codec_name & lg & title & ->) Hl]; subst.
  cbn [enumerate_from map_each map]. rewrite (IH (i + 1) Hl). reflexivity.
Qed.

(** Once the three helpers have returned, the two panes are always built
    without an error.  The pane of the input lists the video streams and
    then the audio streams, numbered from 0, and then the subtitle files;
    the subtitle streams of the input are not listed.  Every video line
    ends in the resolution of the first video stream, and every audio line
    in the language of the first audio stream. *)
Theorem wizard_panes file_path w existing wz s :
  run [file_path] w existing = (Ok wz, s) ->
  exists resolution language,
    video_resolution (wizard_video_streams wz) = Ok resolution
    /\ audio_language (wizard_audio_streams wz) = Ok language
    /\ panes file_path wz
       = Ok ([EmptyString; "Input  : " +:+ file_path; EmptyString]
             ++ (map (stream_line resolution) (enumerate_from 0 (wizard_video_streams wz))
                 ++ map (stream_line language)
                      (enumerate_from (Z.of_nat (length (wizard_video_streams wz)))
                         (wizard_audio_streams wz)))
             ++ [EmptyString]
             ++ map (fun entry : Z * srt_file =>
                       "Srt #" +:+ Py.str_int (fst entry) +:+ " : "
                       +:+ fst (fst (fst (snd entry))))
                  (enumerate_from 0 (wizard_srt_files wz)),
             [EmptyString; "Output : " +:+ get_output_filename file_path; EmptyString;
              "Stream #0 : video, hevc, " +:+ Val.str resolution;
              "Stream #1 : audio, ac3, " +:+ Val.str language]).
Proof.
  unfold run, main, get_srt_filenames, get_streams.
  unfold bindM, emit, lift, ret, stop. cbn beta.
  destruct (os_listdir w (OsPath.dirname file_path) (State existing []))
    as [[names|h] s0]; cbn beta iota; [|discriminate].
  destruct (probe w) as [|[streams|]|]; cbn beta iota; try discriminate.
  destruct (add_streams ([], [], []) streams) as [[[v au] su]|] eqn:E; cbn beta iota;
    [|discriminate].
  intros [= <- _].
  destruct (wizard_add_streams_entries streams ([], [], []) (v, au, su) E)
    as (Hv & Ha & Hs).
  { simpl. auto. }
  simpl in Hv, Ha, Hs. unfold panes. cbn [wizard_video_streams wizard_audio_streams
    wizard_subtitle_streams wizard_srt_files wizard_output_file].
  assert (exists resolution, video_resolution v = Ok resolution) as [resolution Hr].
  { destruct Hv as [|d l (index & c & r & ->) _]; eexists; reflexivity. }
  assert (exists language, audio_language au = Ok language) as [language Hlang].
  { destruct Ha as [|d l (index & c & lg & t & ->) _]; eexists; reflexivity. }
  assert (exists sl, subtitle_language su = Ok sl) as [sl Hsl].
  { destruct Hs as [|d l (index & lg & f & t & ->) _]; eexists; reflexivity. }
  exists resolution, language. split; [exact Hr|]. split; [exact Hlang|].
  rewrite Hr, Hlang, Hsl. cbn [bindR]. cbv zeta.
  unfold stream_widgets. rewrite enumerate_from_app.
  rewrite (map_each_app _ _ _ _ _ (video_widgets resolution language v 0 Hv)
             (audio_widgets resolution language au _ Ha)).
  reflexivity.
Qed.

End Panes.

Section Verbose.
Import Movieconvert.

Lemma add_stream_verbose a v b s : add_stream (with_verbose v a) b s = add_stream a b s.
Proof. destruct a. reflexivity. Qed.

Lemma add_streams_verbose a v streams : forall b,
  add_streams (with_verbose v a) b streams = add_streams a b streams.
Proof.
  induction streams as [|s rest IH]; intros b; [reflexivity|].
  cbn [add_streams]. rewrite add_stream_verbose.
  destruct (add_stream a b s) as [b1|]; [|reflexivity]. cbn [bindR]. apply IH.
Qed.

Lemma report_input_verbose a v subfiles b :
  report_input (with_verbose v a) subfiles b = report_input a subfiles b.
Proof. destruct a. reflexivity. Qed.

Lemma report_output_verbose a v out subfiles b :
  report_output (with_verbose v a) out subfiles b = report_output a out subfiles b.
Proof. destruct a. reflexivity. Qed.

Lemma build_cmd_verbose a v crf out subfiles b :
  build_cmd (with_verbose v a) crf out subfiles b = build_cmd a crf out subfiles b.
Proof. destruct a. reflexivity. Qed.

Lemma confirm_verbose a v w : confirm (with_verbose v a) w = confirm a w.
Proof. destruct a. reflexivity. Qed.

Lemma cleanup_verbose a v p : cleanup (with_verbose v a) p = cleanup a p.
Proof. destruct a. reflexivity. Qed.

Lemma prepare_verbose a v w s : prepare (with_verbose v a) w s = prepare a w s.
Proof.
  unfold prepare, bindM.
  change (input (with_verbose v a)) with (input a).
  change (container (with_verbose v a)) with (container a).
  change (video_codec (with_verbose v a)) with (video_codec a).
  change (crf_text (with_verbose v a)) with (crf_text a).
  change (delete (with_verbose v a)) with (delete a).
  destruct (parse_crf (crf_text a) s) as [[c0|h] s0]; [|reflexivity].
  destruct (validate_crf (video_codec a) c0 s0) as [[crf|h] s1]; [|reflexivity].
  destruct (isfile (input a) s1) as [[readable|h] s2]; [|reflexivity].
  destruct (negb readable); [reflexivity|].
  destruct (choose_output _ _ s2) as [[[o c]|h] s3]; [|reflexivity].
  destruct (find_subfile _ s3) as [[r|h] s4]; [|reflexivity].
  destruct (os_listdir w _ s4) as [[names|h] s5]; [|reflexivity].
  destruct (emit _ s5) as [[u|h] s6]; [|reflexivity].
  destruct (probe w) as [|[streams|]|]; try reflexivity.
  unfold lift. rewrite add_streams_verbose.
  destruct (add_streams a no_streams streams) as [b|h]; [|reflexivity].
  rewrite report_input_verbose.
  destruct (report_input a _ b s6) as [[u1|h] s7]; [|reflexivity].
  rewrite report_output_verbose.
  destruct (report_output a o _ b s7) as [[u2|h] s8]; [|reflexivity].
  rewrite build_cmd_verbose.
  destruct (build_cmd a crf o _ b) as [command|h]; reflexivity.
Qed.

(** The option [--verbose] has no effect: a run with it does and prints
    exactly what the run without it does. *)
Theorem verbose_changes_nothing a v w existing :
  run (with_verbose v a) w existing = run a w existing.
Proof.
  unfold run, main, bindM. rewrite prepare_verbose.
  destruct (prepare a w (State existing [])) as [[p|h] s1]; [|reflexivity].
  rewrite confirm_verbose.
  destruct (confirm a w s1) as [[u|h] s2]; [|reflexivity].
  destruct (encode w p s2) as [[u1|h] s3]; [|reflexivity].
  rewrite cleanup_verbose. reflexivity.
Qed.

End Verbose.

Section Witnesses.
Import Movieconvert.

(** A run that reaches the encoder. *)
Lemma encoder_writes_a_new_file_witness :
  exists command,
    In (Encode command)
       (trace (snd (run Sample.options Sample.world_success Sample.existing)))
    /\ exists middle (n : nat),
         command = ["ffmpeg"; "-i"; "/v/movie.mkv"] ++ middle
                   ++ [candidate "/v/movie" "mp4" (Z.of_nat n)]
         /\ (candidate "/v/movie" "mp4" (Z.of_nat n) ∉ Sample.existing)
         /\ (forall i, (i < n)%nat ->
               candidate "/v/movie" "mp4" (Z.of_nat i) ∈ Sample.existing)
         /\ "/v/movie.mkv" ∈ Sample.existing.
Proof.
  assert (exists command,
            In (Encode command)
               (trace (snd (run Sample.options Sample.world_success Sample.existing))))
    as [command Hin].
  { vm_compute. eexists. repeat (first [left; reflexivity | right]). }
  exists command. split; [exact Hin|].
  exact (encoder_writes_a_new_file Sample.options Sample.world_success Sample.existing
           command Hin).
Defined.

(** [-s -d -y]: the input is removed after the encoder succeeded. *)
Lemma removals_are_confined_witness :
  In (Remove "/v/movie.mkv")
     (trace (snd (run Sample.options_no_subtitles_delete Sample.world_success
                    Sample.existing)))
  /\ delete Sample.options_no_subtitles_delete = true
  /\ encoder_status Sample.world_success = 0.
Proof.
  assert (In (Remove "/v/movie.mkv")
            (trace (snd (run Sample.options_no_subtitles_delete Sample.world_success
                           Sample.existing)))) as Hin.
  { vm_compute. repeat (first [left; reflexivity | right]). }
  destruct (proj1 (removals_are_confined Sample.options_no_subtitles_delete
                     Sample.world_success Sample.existing) _ Hin) as (Hd & Hrc & _).
  split; [exact Hin|]. split; [exact Hd | exact Hrc].
Defined.

(** With [-y] the answer [n] changes nothing. *)
Lemma no_prompt_ignores_stdin_witness :
  no_prompt Sample.options_no_subtitles_delete = true
  /\ stdin Sample.world_declined <> stdin Sample.world_success
  /\ run Sample.options_no_subtitles_delete Sample.world_declined Sample.existing
     = run Sample.options_no_subtitles_delete Sample.world_success Sample.existing.
Proof.
  split; [reflexivity|]. split; [discriminate|].
  exact (proj1 (no_prompt_ignores_stdin Sample.options_no_subtitles_delete
                  Sample.world_declined Sample.world_success Sample.existing
                  eq_refl (fun d => eq_refl) eq_refl eq_refl)).
Defined.

(** The operator answers [y] and the encoder succeeds. *)
Lemma normal_end_means_success_witness :
  fst (run Sample.options Sample.world_success Sample.existing) = Ok tt
  /\ encoder_status Sample.world_success = 0.
Proof.
  assert (fst (run Sample.options Sample.world_success Sample.existing) = Ok tt) as H.
  { vm_compute. reflexivity. }
  destruct (normal_end_means_success Sample.options Sample.world_success Sample.existing H)
    as (Hrc & _).
  split; [exact H | exact Hrc].
Defined.


(** [movie.srt] next to [movie.mkv]. *)
Lemma subtitle_files_become_inputs_witness :
  exists command,
    In (Encode command)
       (trace (snd (run Sample.options Sample.world_success Sample.existing)))
    /\ exists names rest,
         listing Sample.world_success "/v" = Some names
         /\ command
            = ["ffmpeg"; "-i"; "/v/movie.mkv"]
              ++ flat_map (fun f => ["-f"; "srt"; "-i"; OsPath.join "/v" f])
                   (List.filter (is_subfile "movie") names)
              ++ ["-map_metadata"; "-1"; "-map_chapters"; "-1"] ++ rest.
Proof.
  assert (exists command,
            In (Encode command)
               (trace (snd (run Sample.options Sample.world_success Sample.existing))))
    as [command Hin].
  { vm_compute. eexists. repeat (first [left; reflexivity | right]). }
  exists command. split; [exact Hin|].
  exact (subtitle_files_become_inputs Sample.options Sample.world_success Sample.existing
           command Hin).
Defined.

(** With [-s], a directory that holds other subtitle files. *)
Lemma without_subtitles_listing_is_irrelevant_witness :
  exists command1 command2,
    In (Encode command1)
       (trace (snd (run Sample.options_no_subtitles_delete Sample.world_success
                      Sample.existing)))
    /\ In (Encode command2)
          (trace (snd (run Sample.options_no_subtitles_delete
                         (World (fun _ => Some ["movie.forced.srt"; "movie.sdh.srt"])
                                (probe Sample.world_success) None 0)
                         Sample.existing)))
    /\ command1 = command2.
Proof.
  assert (exists command,
            In (Encode command)
               (trace (snd (run Sample.options_no_subtitles_delete Sample.world_success
                              Sample.existing)))) as [command1 H1].
  { vm_compute. eexists. repeat (first [left; reflexivity | right]). }
  assert (exists command,
            In (Encode command)
               (trace (snd (run Sample.options_no_subtitles_delete
                              (World (fun _ => Some ["movie.forced.srt"; "movie.sdh.srt"])
                                     (probe Sample.world_success) None 0)
                              Sample.existing)))) as [command2 H2].
  { vm_compute. eexists. repeat (first [left; reflexivity | right]). }
  exists command1, command2. split; [exact H1|]. split; [exact H2|].
  apply (without_subtitles_listing_is_irrelevant Sample.options_no_subtitles_delete
           Sample.world_success
           (World (fun _ => Some ["movie.forced.srt"; "movie.sdh.srt"])
                  (probe Sample.world_success) None 0)
           Sample.existing command1 command2);
    [reflexivity | reflexivity | exact H1 | exact H2].
Defined.

(** [Movie.EN.srt] *)
Lemma wizard_pattern_is_total_witness :
  exists language forced sdh,
    Ffmpegfe.classify "Movie.EN.srt" = Some (language, flag forced, flag sdh)
    /\ (language = "en" \/ two_letters language).
Proof.
  apply (wizard_pattern_is_total "Movie.EN.srt"); [reflexivity | simpl; lia | reflexivity].
Defined.

(** A directory with two subtitle files of the input. *)
Lemma both_tools_find_the_same_files_witness :
  map (fun e : Ffmpegfe.srt_file => Some (VStr (fst (fst (fst e)))))
      (Ffmpegfe.collect "/v" "movie" ["movie.mkv"; "movie.srt"; "movie.en.forced.srt"])
  = map (fun d => Val.get d "filename")
        (scan_subfiles "/v" "movie" ["movie.mkv"; "movie.srt"; "movie.en.forced.srt"] 1).
Proof.
  apply (both_tools_find_the_same_files "/v" "movie"
           ["movie.mkv"; "movie.srt"; "movie.en.forced.srt"] 1).
  repeat constructor; intros _; split; first [reflexivity | simpl; lia].
Defined.

(** A subtitle stream reported with neither tags nor a disposition. *)
Lemma missing_disposition_is_flagged_witness :
  exists b' d pre,
    add_stream Sample.options no_streams
      (Stream [("index", VInt 2); ("codec_type", VStr "subtitle");
               ("codec_name", VStr "subrip")] None None) = Ok b'
    /\ subtitle_streams_out b' = [d]
    /\ subtitle_metadata (0, d)
       = Ok (pre ++ ["-disposition:s:" +:+ Py.str_int 0; "+forced+hearing_impaired"]).
Proof.
  assert (exists b' d,
            add_stream Sample.options no_streams
              (Stream [("index", VInt 2); ("codec_type", VStr "subtitle");
                       ("codec_name", VStr "subrip")] None None) = Ok b'
            /\ subtitle_streams_out b' = [d]) as (b' & d & E & Hd).
  { vm_compute. eexists. eexists. split; reflexivity. }
  destruct (missing_disposition_is_flagged Sample.options no_streams
              (Stream [("index", VInt 2); ("codec_type", VStr "subtitle");
                       ("codec_name", VStr "subrip")] None None)
              b' d 0 eq_refl E Hd) as [pre Hpre].
  exists b', d, pre. split; [exact E|]. split; [exact Hd | exact Hpre].
Defined.

(** [hevc] without [-c]: the value is 24. *)
Lemma quality_setting_witness :
  exists command,
    In (Encode command)
       (trace (snd (run Sample.options Sample.world_success Sample.existing)))
    /\ exists v pre post,
         command = pre ++ ["-crf"; Py.str_int v] ++ post /\ 0 <= v <= 51 /\ v = 24.
Proof.
  assert (exists command,
            In (Encode command)
               (trace (snd (run Sample.options Sample.world_success Sample.existing))))
    as [command Hin].
  { vm_compute. eexists. repeat (first [left; reflexivity | right]). }
  exists command. split; [exact Hin|].
  assert (video_codec Sample.options <> VideoCopy) as Hvc by discriminate.
  exact (quality_setting Sample.options Sample.world_success Sample.existing command
           Hin Hvc).
Defined.

(** [movie.mp4] exists already: the output [movie.1.mp4] takes its name. *)
Lemma rename_lands_on_an_existing_file_witness :
  In (Rename "/v/movie.1.mp4" "/v/movie.mp4")
     (trace (snd (run Sample.options_no_subtitles_delete Sample.world_success
                    {[ "/v/movie.mkv"; "/v/movie.mp4" ]})))
  /\ ("/v/movie.mp4" = "/v/movie.1.mp4"
      \/ "/v/movie.mp4" ∈ ({[ "/v/movie.mkv"; "/v/movie.mp4" ]} : gset string)).
Proof.
  assert (In (Rename "/v/movie.1.mp4" "/v/movie.mp4")
            (trace (snd (run Sample.options_no_subtitles_delete Sample.world_success
                           {[ "/v/movie.mkv"; "/v/movie.mp4" ]})))) as Hin.
  { vm_compute. repeat (first [left; reflexivity | right]). }
  split; [exact Hin|].
  exact (rename_lands_on_an_existing_file Sample.options_no_subtitles_delete
           Sample.world_success _ _ _ Hin).
Defined.

(** [/v/movie.mkv] *)
Lemma wizard_reaches_its_interface_witness :
  exists wz,
    Ffmpegfe.run ["/v/movie.mkv"] Sample.world_success Sample.existing
    = (Ok wz, State Sample.existing [Probe (ffprobe_cmd "/v/movie.mkv")])
    /\ Ffmpegfe.wizard_output_file wz = Ffmpegfe.get_output_filename "/v/movie.mkv"
    /\ Ffmpegfe.wizard_srt_files wz <> []
    /\ Ffmpegfe.add_streams ([], [], []) [Sample.video_stream; Sample.audio_stream]
       = Ok (Ffmpegfe.wizard_video_streams wz, Ffmpegfe.wizard_audio_streams wz,
             Ffmpegfe.wizard_subtitle_streams wz).
Proof.
  apply (wizard_reaches_its_interface "/v/movie.mkv" Sample.world_success Sample.existing
           ["movie.mkv"; "movie.srt"] [Sample.video_stream; Sample.audio_stream]).
  - discriminate.
  - reflexivity.
  - reflexivity.
  - repeat constructor; eexists; reflexivity.
Defined.

(** With [-d]: the input is gone, the output is there. *)
Lemma the_result_survives_witness :
  fst (run Sample.options_no_subtitles_delete Sample.world_success Sample.existing) = Ok tt
  /\ exists p s1,
       prepare Sample.options_no_subtitles_delete Sample.world_success
         (State Sample.existing []) = (Ok p, s1)
       /\ (output_file p ∉ Sample.existing)
       /\ (output_file p
             ∈ files (snd (run Sample.options_no_subtitles_delete Sample.world_success
                             Sample.existing))
           \/ (In (Rename (output_file p) ("/v/movie" +:+ "." +:+ "mp4"))
                  (trace (snd (run Sample.options_no_subtitles_delete Sample.world_success
                                 Sample.existing)))
               /\ "/v/movie" +:+ "." +:+ "mp4"
                  ∈ files (snd (run Sample.options_no_subtitles_delete Sample.world_success
                                  Sample.existing)))).
Proof.
  assert (fst (run Sample.options_no_subtitles_delete Sample.world_success Sample.existing)
          = Ok tt) as H.
  { vm_compute. reflexivity. }
  split; [exact H|].
  exact (the_result_survives Sample.options_no_subtitles_delete Sample.world_success
           Sample.existing H).
Defined.

(** One video and one audio stream. *)
Lemma both_tools_sort_streams_alike_witness :
  exists b acc,
    add_streams Sample.options no_streams [Sample.video_stream; Sample.audio_stream] = Ok b
    /\ Ffmpegfe.add_streams ([], [], []) [Sample.video_stream; Sample.audio_stream] = Ok acc
    /\ same_streams b acc.
Proof.
  assert (exists b, add_streams Sample.options no_streams
                      [Sample.video_stream; Sample.audio_stream] = Ok b) as [b E].
  { vm_compute. eexists. reflexivity. }
  destruct (both_tools_sort_streams_alike Sample.options _ b E) as (acc & Ea & R).
  exists b, acc. split; [exact E|]. split; [exact Ea | exact R].
Defined.

(** [/v/movie.mkv] *)
Lemma wizard_panes_witness :
  exists wz s,
    Ffmpegfe.run ["/v/movie.mkv"] Sample.world_success Sample.existing = (Ok wz, s)
    /\ exists resolution language,
         Screen.video_resolution (Ffmpegfe.wizard_video_streams wz) = Ok resolution
         /\ Screen.audio_language (Ffmpegfe.wizard_audio_streams wz) = Ok language
         /\ resolution = VStr "1920x1080" /\ language = VStr "eng".
Proof.
  assert (exists wz s,
            Ffmpegfe.run ["/v/movie.mkv"] Sample.world_success Sample.existing = (Ok wz, s))
    as (wz & s & H).
  { vm_compute. eexists. eexists. reflexivity. }
  destruct (wizard_panes "/v/movie.mkv" Sample.world_success Sample.existing wz s H)
    as (resolution & language & Hr & Hl & _).
  exists wz, s. split; [exact H|]. exists resolution, language.
  split; [exact Hr|]. split; [exact Hl|].
  revert H Hr Hl. vm_compute. intros [= <- _]. intros [= <-] [= <-]. split; reflexivity.
Defined.

End Witnesses.
